(** * UUST schedule: academic calendar and schedule-table parsing

    A shallow embedding of [uust_schedule/__init__.py].  The calendar
    arithmetic of Python's [datetime] module, which the program relies on,
    is written out on its proleptic Gregorian ordinals; text is kept as
    UTF-8 byte strings, and the builtins [int] and [str.split], which read
    the cells, are parameters of the model; exceptions are values of an
    error monad; the generator [Schedule.get_events] is the list of events
    it yields together with the exception that ends it, if any. *)

From Stdlib Require Import ZArith Lia String Ascii List Bool DecimalString.
From stdpp Require Import base option list gmap strings.

Local Open Scope string_scope.
Local Open Scope Z_scope.

(* ===================================================================== *)
(** ** Exceptions and the error monad *)
(* ===================================================================== *)

(** The exception classes that the program can let escape. *)
Inductive Exn : Type :=
| ValueError
| SemesterTypeNotFoundError
| OverflowError
| IndexError
| KeyError
| RequestException.

Global Instance Exn_eq_dec : EqDecision Exn.
Proof. solve_decision. Defined.

(** [class SemesterTypeNotFoundError(ValueError)]: Python's
    [isinstance(e, ValueError)]. *)
Definition isinstance_ValueError (e : Exn) : bool :=
  match e with
  | ValueError | SemesterTypeNotFoundError => true
  | _ => false
  end.

Inductive Res (A : Type) : Type :=
| Ok (a : A)
| Raise (e : Exn).
Arguments Ok {A} a.
Arguments Raise {A} e.

Global Instance Res_ret : MRet Res := fun A a => Ok a.
Global Instance Res_bind : MBind Res := fun A B f m =>
  match m with
  | Ok a => f a
  | Raise e => Raise e
  end.
Global Instance Res_fmap : FMap Res := fun A B f m =>
  match m with
  | Ok a => Ok (f a)
  | Raise e => Raise e
  end.

(** [l[i]] on a Python list, for a non-negative index. *)
Definition getitem {A} (l : list A) (i : nat) : Res A :=
  match l !! i with
  | Some x => Ok x
  | None => Raise IndexError
  end.

(** [l.index(x)]: position of the first element equal to [x]. *)
Fixpoint list_index `{EqDecision A} (x : A) (l : list A) : Res Z :=
  match l with
  | [] => Raise ValueError
  | y :: l' => if decide (y = x) then Ok 0 else Z.succ <$> list_index x l'
  end.

(* ===================================================================== *)
(** ** Python's [datetime] module, as far as the program uses it *)
(* ===================================================================== *)

Module datetime.

Definition MINYEAR : Z := 1.
Definition MAXYEAR : Z := 9999.
Definition MAXORDINAL : Z := 3652059.

Definition DAYS_IN_MONTH : list Z :=
  [-1; 31; 28; 31; 30; 31; 30; 31; 31; 30; 31; 30; 31].
Definition DAYS_BEFORE_MONTH : list Z :=
  [-1; 0; 31; 59; 90; 120; 151; 181; 212; 243; 273; 304; 334].

Definition is_leap (year : Z) : bool :=
  (year mod 4 =? 0) && (negb (year mod 100 =? 0) || (year mod 400 =? 0)).

Definition days_before_year (year : Z) : Z :=
  let y := year - 1 in
  y * 365 + y / 4 - y / 100 + y / 400.

Definition days_in_month (year month : Z) : Z :=
  if (month =? 2) && is_leap year then 29
  else nth (Z.to_nat month) DAYS_IN_MONTH 0.

Definition days_before_month (year month : Z) : Z :=
  nth (Z.to_nat month) DAYS_BEFORE_MONTH 0
  + (if (2 <? month) && is_leap year then 1 else 0).

Definition ymd2ord (year month day : Z) : Z :=
  days_before_year year + days_before_month year month + day.

Definition DI400Y : Z := 146097.
Definition DI100Y : Z := 36524.
Definition DI4Y : Z := 1461.

Definition ord2ymd (n : Z) : Z * Z * Z :=
  let n := n - 1 in
  let n400 := n / DI400Y in
  let n := n mod DI400Y in
  let year := n400 * 400 + 1 in
  let n100 := n / DI100Y in
  let n := n mod DI100Y in
  let n4 := n / DI4Y in
  let n := n mod DI4Y in
  let n1 := n / 365 in
  let n := n mod 365 in
  let year := year + (n100 * 100 + n4 * 4 + n1) in
  if (n1 =? 4) || (n100 =? 4) then (year - 1, 12, 31)
  else
    let leapyear := (n1 =? 3) && (negb (n4 =? 24) || (n100 =? 3)) in
    let month := Z.shiftr (n + 50) 5 in
    let preceding :=
      nth (Z.to_nat month) DAYS_BEFORE_MONTH 0
      + (if (2 <? month) && leapyear then 1 else 0) in
    if n <? preceding then
      let month := month - 1 in
      let preceding :=
        preceding - (nth (Z.to_nat month) DAYS_IN_MONTH 0
                     + (if (month =? 2) && leapyear then 1 else 0)) in
      (year, month, n - preceding + 1)
    else (year, month, n - preceding + 1).

(** *** date *)

Record date : Type := mkdate { year : Z; month : Z; day : Z }.

Global Instance date_eq_dec : EqDecision date.
Proof. solve_decision. Defined.

Definition check_date_fields (y m d : Z) : bool :=
  (MINYEAR <=? y) && (y <=? MAXYEAR)
  && (1 <=? m) && (m <=? 12)
  && (1 <=? d) && (d <=? days_in_month y m).

Definition date_toordinal (d : date) : Z := ymd2ord (year d) (month d) (day d).

(** [date.fromordinal(n)], for [1 <= n <= MAXORDINAL]. *)
Definition date_fromordinal (n : Z) : date :=
  let '(y, m, d) := ord2ymd n in mkdate y m d.

(** [date.weekday()]: Monday is 0, Sunday is 6. *)
Definition date_weekday (d : date) : Z := (date_toordinal d + 6) mod 7.

(** Dates compare as the tuples [(year, month, day)]. *)
Definition date_cmp (a b : date) : comparison :=
  match year a ?= year b with
  | Eq => match month a ?= month b with
          | Eq => day a ?= day b
          | c => c
          end
  | c => c
  end.

Definition date_lt (a b : date) : bool :=
  match date_cmp a b with Lt => true | _ => false end.
Definition date_ge (a b : date) : bool := negb (date_lt a b).
Definition date_le (a b : date) : bool :=
  match date_cmp a b with Gt => false | _ => true end.

(** *** timedelta *)

Record timedelta : Type :=
  mktimedelta { days : Z; seconds : Z; microseconds : Z }.

Global Instance timedelta_eq_dec : EqDecision timedelta.
Proof. solve_decision. Defined.

(** [timedelta(days=, seconds=, microseconds=, minutes=, hours=, weeks=)] on
    integer arguments: the value is normalised to
    [0 <= seconds < 86400], [0 <= microseconds < 1000000], and more than
    999999999 days either way overflow. *)
Definition timedelta_new
    (weeks days hours minutes seconds microseconds : Z) : Res timedelta :=
  let us := microseconds mod 1000000 in
  let s := hours * 3600 + minutes * 60 + seconds + microseconds / 1000000 in
  let d := weeks * 7 + days + s / 86400 in
  if 999999999 <? Z.abs d then Raise OverflowError
  else Ok (mktimedelta d (s mod 86400) us).

Definition timedelta_add (a b : timedelta) : Res timedelta :=
  timedelta_new 0 (days a + days b) 0 0 (seconds a + seconds b)
                (microseconds a + microseconds b).

Definition timedelta_neg (a : timedelta) : Res timedelta :=
  timedelta_new 0 (- days a) 0 0 (- seconds a) (- microseconds a).

(** *** datetime *)

Record t : Type := mkdatetime {
  date_of : date;          (* [.date()] *)
  hour : Z;
  minute : Z;
  second : Z;
  microsecond : Z;
  tzinfo : option string
}.

Global Instance t_eq_dec : EqDecision t.
Proof. solve_decision. Defined.

Definition check_time_fields (h mi s us : Z) : bool :=
  (0 <=? h) && (h <=? 23) && (0 <=? mi) && (mi <=? 59)
  && (0 <=? s) && (s <=? 59) && (0 <=? us) && (us <=? 999999).

(** The constructor takes its numbers as C [int]s. *)
Definition fits_c_int (n : Z) : bool := (- 2 ^ 31 <=? n) && (n <? 2 ^ 31).

(** [datetime(year, month, day, hour, minute, second, microsecond, tzinfo)]:
    an argument that is no C [int] is an [OverflowError], fields out of their
    ranges are a [ValueError]. *)
Definition new (y m d h mi s us : Z) (tz : option string) : Res t :=
  if negb (forallb fits_c_int [y; m; d; h; mi; s; us])
  then Raise OverflowError
  else if check_date_fields y m d && check_time_fields h mi s us
  then Ok (mkdatetime (mkdate y m d) h mi s us tz)
  else Raise ValueError.

Definition toordinal (x : t) : Z := date_toordinal (date_of x).
Definition weekday (x : t) : Z := date_weekday (date_of x).

(** [datetime.__add__]: the ordinal and the time of day become one timedelta,
    the argument is added, and the sum is split again; the arithmetic is on
    the wall clock, [tzinfo] is carried over unchanged. *)
Definition add (self : t) (other : timedelta) : Res t :=
  delta ← timedelta_new 0 (toordinal self) (hour self) (minute self)
                        (second self) (microsecond self);
  delta ← timedelta_add delta other;
  let h := seconds delta / 3600 in
  let rem := seconds delta mod 3600 in
  let mi := rem / 60 in
  let s := rem mod 60 in
  if (0 <? days delta) && (days delta <=? MAXORDINAL)
  then Ok (mkdatetime (date_fromordinal (days delta)) h mi s
                      (microseconds delta) (tzinfo self))
  else Raise OverflowError.

(** [datetime - timedelta] is [self + -other]. *)
Definition sub_timedelta (self : t) (other : timedelta) : Res t :=
  neg ← timedelta_neg other;
  add self neg.

(** [datetime - datetime] of two values with the same [tzinfo] object. *)
Definition sub (self other : t) : Res timedelta :=
  let secs1 := second self + minute self * 60 + hour self * 3600 in
  let secs2 := second other + minute other * 60 + hour other * 3600 in
  timedelta_new 0 (toordinal self - toordinal other) 0 0 (secs1 - secs2)
                (microsecond self - microsecond other).

(** Datetimes with the same [tzinfo] object compare by their fields. *)
Definition cmp (a b : t) : comparison :=
  match date_cmp (date_of a) (date_of b) with
  | Eq =>
      match hour a ?= hour b with
      | Eq => match minute a ?= minute b with
              | Eq => match second a ?= second b with
                      | Eq => microsecond a ?= microsecond b
                      | c => c
                      end
              | c => c
              end
      | c => c
      end
  | c => c
  end.

Definition lt (a b : t) : bool :=
  match cmp a b with Lt => true | _ => false end.

(** Two decimal digits, as [%H] and [%M] print them. *)
Definition two_digits (n : Z) : string :=
  String.append (if n <? 10 then "0" else "")
                (NilZero.string_of_int (Z.to_int n)).

(** [datetime.strftime(x, "%H:%M")] *)
Definition strftime_HM (x : t) : string :=
  String.append (two_digits (hour x))
                (String.append ":" (two_digits (minute x))).

End datetime.

(* ===================================================================== *)
(** ** Python's [str] and [int] on the cell texts *)
(* ===================================================================== *)

Module pystr.

(** [str(n)] for an [int]. *)
Definition of_int (n : Z) : string := NilZero.string_of_int (Z.to_int n).

(** [s[-k:]]: the last [k] characters, all of [s] when it is shorter. *)
Definition last_chars (k : nat) (s : string) : string :=
  String.substring (String.length s - k) k s.

(** [s.split(sep)] for a one-character separator. *)
Fixpoint split (sep : ascii) (s : string) : list string :=
  match s with
  | EmptyString => [EmptyString]
  | String c s' =>
      if Ascii.eqb c sep then EmptyString :: split sep s'
      else match split sep s' with
           | piece :: rest => String c piece :: rest
           | [] => [String c EmptyString]
           end
  end.

End pystr.

(** [int(s)] and [s.split()] are builtins of the interpreter, and what they
    take for a blank or for a decimal digit outside ASCII follows its Unicode
    tables.  The program is modelled over any such pair: [int_of_str s] is
    the value of [int(s)], [None] when [int(s)] raises its [ValueError];
    [split_blank s] is [s.split()]. *)
Class PyText : Type := {
  int_of_str : string -> option Z;
  split_blank : string -> list string
}.

(** [int(s)] for a [str]. *)
Definition to_int `{PyText} (s : string) : Res Z :=
  match int_of_str s with
  | Some n => Ok n
  | None => Raise ValueError
  end.

(** The two builtins on text that is ASCII throughout, where no table of the
    interpreter is needed.  The general facts about the program are proved
    for every [PyText]; this one runs the program on the tables written out
    in this file, whose time and week cells are ASCII, and is the one that
    the statements about those tables are read with. *)
Module pyascii.

(** [str.isspace] on an ASCII character: tab to carriage return, the four
    separators 0x1c-0x1f, and space. *)
Definition isspace (c : ascii) : bool :=
  let n := Z.of_nat (nat_of_ascii c) in
  ((9 <=? n) && (n <=? 13)) || ((28 <=? n) && (n <=? 32)).

(** [s.split()]: the maximal runs of non-blank characters. *)
Fixpoint split_blank (s : string) : list string :=
  match s with
  | EmptyString => []
  | String c s' =>
      if isspace c then split_blank s'
      else match s' with
           | EmptyString => [String c EmptyString]
           | String c' _ =>
               if isspace c' then String c EmptyString :: split_blank s'
               else match split_blank s' with
                    | tok :: rest => String c tok :: rest
                    | [] => [String c EmptyString]
                    end
           end
  end.

(** The blanks that [int] drops around a literal: tab to carriage return,
    and space; the separators 0x1c-0x1f are not among them. *)
Definition isspace_int (c : ascii) : bool :=
  let n := Z.of_nat (nat_of_ascii c) in
  ((9 <=? n) && (n <=? 13)) || (n =? 32).

Fixpoint lstrip (s : string) : string :=
  match s with
  | String c s' => if isspace_int c then lstrip s' else s
  | EmptyString => EmptyString
  end.

Fixpoint rstrip (s : string) : string :=
  match s with
  | EmptyString => EmptyString
  | String c s' =>
      match rstrip s' with
      | EmptyString =>
          if isspace_int c then EmptyString else String c EmptyString
      | r => String c r
      end
  end.

Definition isdigit (c : ascii) : bool :=
  let n := Z.of_nat (nat_of_ascii c) in (48 <=? n) && (n <=? 57).

(** Decimal digits, single underscores allowed between two digits. *)
Fixpoint digits_value (acc : Z) (after_digit : bool) (s : string) : option Z :=
  match s with
  | EmptyString => if after_digit then Some acc else None
  | String c s' =>
      if isdigit c
      then digits_value (10 * acc + (Z.of_nat (nat_of_ascii c) - 48)) true s'
      else if Ascii.eqb c "_" && after_digit
           then match s' with
                | String c' _ =>
                    if isdigit c' then digits_value acc false s' else None
                | EmptyString => None
                end
           else None
  end.

Fixpoint count_digits (s : string) : Z :=
  match s with
  | EmptyString => 0
  | String c s' => (if isdigit c then 1 else 0) + count_digits s'
  end.

(** [sys.get_int_max_str_digits()], as the interpreter starts. *)
Definition MAX_STR_DIGITS : Z := 4300.

(** [int(s)] in base 10, [None] for its [ValueError]: surrounding blanks are
    dropped, a sign may lead, and a literal of more than [MAX_STR_DIGITS]
    digits is refused. *)
Definition int_of_str (s : string) : option Z :=
  let body := rstrip (lstrip s) in
  let parsed :=
    match body with
    | String "+" digits => digits_value 0 false digits
    | String "-" digits => Z.opp <$> digits_value 0 false digits
    | _ => digits_value 0 false body
    end in
  if MAX_STR_DIGITS <? count_digits body then None else parsed.

End pyascii.

Definition ascii_text : PyText :=
  {| int_of_str := pyascii.int_of_str; split_blank := pyascii.split_blank |}.

Global Existing Instance ascii_text.

(* ===================================================================== *)
(** ** The program: [uust_schedule] *)
(* ===================================================================== *)

Definition TZ_NAME : string := "Asia/Yekaterinburg".
Definition TZ_INFO : option string := Some TZ_NAME.

(** [class ParticipantType(enum.IntEnum)] *)
Inductive ParticipantType : Type := GROUP | TEACHER | ROOM.

Global Instance ParticipantType_eq_dec : EqDecision ParticipantType.
Proof. solve_decision. Defined.

Definition ParticipantType_value (p : ParticipantType) : Z :=
  match p with GROUP => 1 | TEACHER => 2 | ROOM => 3 end.

(** [ParticipantType(v)] *)
Definition ParticipantType_of_int (v : Z) : Res ParticipantType :=
  if v =? 1 then Ok GROUP
  else if v =? 2 then Ok TEACHER
  else if v =? 3 then Ok ROOM
  else Raise ValueError.

(** [class SemesterType(enum.IntEnum)] *)
Inductive SemesterType : Type := AUTUMN | SPRING.

Global Instance SemesterType_eq_dec : EqDecision SemesterType.
Proof. solve_decision. Defined.

Definition SemesterType_value (s : SemesterType) : Z :=
  match s with AUTUMN => 1 | SPRING => 2 end.

(** [SemesterType(v)] *)
Definition SemesterType_of_int (v : Z) : Res SemesterType :=
  if v =? 1 then Ok AUTUMN
  else if v =? 2 then Ok SPRING
  else Raise ValueError.

(** *** Event *)

Record Event : Type := mkEvent {
  title : string;
  event_type : string;
  participant : string;
  location : string;
  comment : string;
  start_datetime : datetime.t;
  end_datetime : datetime.t
}.

Global Instance Event_eq_dec : EqDecision Event.
Proof. solve_decision. Defined.

Definition DAILY_START_TIMES : list string :=
  ["08:00"; "09:35"; "11:35"; "13:10"; "15:10";
   "16:45"; "18:20"; "19:55"; "21:25"; "22:55"].

Definition get_daily_number (self : Event) : Res Z :=
  (fun i => i + 1)
    <$> list_index (datetime.strftime_HM (start_datetime self))
                   DAILY_START_TIMES.

(** *** Schedule *)

Record Schedule : Type := mkSchedule {
  participant_type : ParticipantType;
  participant_id : Z;
  academic_year : Z;
  start_datetime_of_academic_year : datetime.t
}.

Definition get_start_datetime_of_academic_year (academic_year : Z)
  : Res datetime.t :=
  first_september ← datetime.new academic_year 9 1 0 0 0 0 TZ_INFO;
  back ← datetime.timedelta_new 0 (datetime.weekday first_september) 0 0 0 0;
  datetime.sub_timedelta first_september back.

(** [Schedule.__init__] *)
Definition Schedule_init (participant_type participant_id academic_year : Z)
  : Res Schedule :=
  pt ← ParticipantType_of_int participant_type;
  start ← get_start_datetime_of_academic_year academic_year;
  Ok (mkSchedule pt participant_id academic_year start).

(** [Schedule.get_semester_type]; [today] is the date that
    [datetime.datetime.now(tz=TZ_INFO).date()] gives when no reference date
    is passed. *)
Definition get_semester_type
    (reference_date : option datetime.date) (today : datetime.date)
  : Res SemesterType :=
  let reference_date := default today reference_date in
  start_of_academic_year ←
    get_start_datetime_of_academic_year (datetime.year reference_date);
  start_of_next_academic_year ←
    get_start_datetime_of_academic_year (datetime.year reference_date + 1);
  if datetime.date_ge reference_date (datetime.date_of start_of_academic_year)
  then Ok AUTUMN
  else if datetime.date_lt reference_date
                           (datetime.date_of start_of_next_academic_year)
  then Ok SPRING
  else Raise SemesterTypeNotFoundError.

(** *** The generator monad

    A run of a generator: the events yielded, in order, and how the run ended
    (a value, or the exception that escaped after those yields). *)

Record Gen (A : Type) : Type := mkGen {
  yielded : list Event;
  outcome : Res A
}.
Arguments mkGen {A} yielded outcome.
Arguments yielded {A} g.
Arguments outcome {A} g.

Global Instance Gen_ret : MRet Gen := fun A a => mkGen [] (Ok a).
Global Instance Gen_bind : MBind Gen := fun A B f m =>
  match outcome m with
  | Ok a => let rest := f a in mkGen (yielded m ++ yielded rest) (outcome rest)
  | Raise e => mkGen (yielded m) (Raise e)
  end.

Definition lift {A} (r : Res A) : Gen A := mkGen [] r.
Definition yield (ev : Event) : Gen unit := mkGen [ev] (Ok tt).

(** [for x in l: body], the loop variable threaded through [acc]. *)
Fixpoint for_each {A S} (body : S -> A -> Gen S) (acc : S) (l : list A)
  : Gen S :=
  match l with
  | [] => mret acc
  | x :: l' => acc' ← body acc x; for_each body acc' l'
  end.

(** *** The fetched table *)

(** A [tr] of the table body, as the program reads it: [row["class"]] (absent
    when the element has no class attribute) and the texts of
    [row.findAll("td")]. *)
Record Row : Type := mkRow {
  row_class : option (list string);
  row_columns : list string
}.

Inductive ParamValue : Type :=
| PInt (n : Z)
| PStr (s : string).

Global Instance ParamValue_eq_dec : EqDecision ParamValue.
Proof. solve_decision. Defined.

Record Request : Type := mkRequest {
  req_base_url : string;
  req_path : string;
  req_params : gmap string ParamValue;
  req_timeout : Z
}.

Record Response : Type := mkResponse {
  status_code : Z;
  tbody_rows : list Row        (* [soup.select("tbody tr")] *)
}.

(** The injected transport: [session.get]. *)
Definition Session : Type := Request -> Res Response.

(** [response.raise_for_status()] *)
Definition raise_for_status (r : Response) : Res unit :=
  if (400 <=? status_code r) && (status_code r <? 600)
  then Raise RequestException
  else Ok tt.

Definition WEEKDAY_NAMES : list string :=
  ["Понедельник"; "Вторник"; "Среда"; "Четверг";
   "Пятница"; "Суббота"; "Воскресенье"].

(** [semester_type or self.get_semester_type()], then [SemesterType(...)]:
    [None] and [0] are falsy. *)
Definition resolve_semester_type
    (semester_type : option Z) (today : datetime.date) : Res SemesterType :=
  v ← match semester_type with
      | Some v =>
          if v =? 0
          then SemesterType_value <$> get_semester_type None today
          else Ok v
      | None => SemesterType_value <$> get_semester_type None today
      end;
  SemesterType_of_int v.

(** [f"{str(self.academic_year)[-2:]}{semester_type}"] *)
Definition schedule_semestr_id
    (academic_year : Z) (semester_type : SemesterType) : string :=
  String.append (pystr.last_chars 2 (pystr.of_int academic_year))
                (pystr.of_int (SemesterType_value semester_type)).

Definition fetch_params (self : Schedule) (semester_type : SemesterType)
  : gmap string ParamValue :=
  let params : gmap string ParamValue :=
    <["weeks" := PInt 0]>
      (<["schedule_semestr_id" :=
           PStr (schedule_semestr_id (academic_year self) semester_type)]>
         (<["WhatShow" := PInt (ParticipantType_value (participant_type self))]>
            ∅)) in
  match participant_type self with
  | GROUP => <["student_group_id" := PInt (participant_id self)]> params
  | TEACHER => <["teacher" := PInt (participant_id self)]> params
  | ROOM => params
  end.

(** [list(map(int, time.split(":")))] *)
Definition parse_time `{PyText} (time : string) : Res (list Z) :=
  mapM to_int (pystr.split ":" time).

(** [start_time, end_time = (... for time in text.split("-"))] *)
Definition parse_times `{PyText} (text : string) : Res (list Z * list Z) :=
  parts ← mapM parse_time (pystr.split "-" text);
  match parts with
  | [start_time; end_time] => Ok (start_time, end_time)
  | _ => Raise ValueError
  end.

(** [datetime.timedelta(hours=time[0], minutes=time[1])] *)
Definition time_timedelta (time : list Z) : Res datetime.timedelta :=
  h ← getitem time 0;
  m ← getitem time 1;
  datetime.timedelta_new 0 0 h m 0 0.

(** The body of the loop over the week numbers of a data row. *)
Definition week_event `{PyText}
    (self : Schedule) (row_columns : list string) (weekday_index : Z)
    (start_timedelta end_timedelta : datetime.timedelta) (token : string)
  : Res Event :=
  week_number ← to_int token;
  week_timedelta ←
    datetime.timedelta_new (week_number - 1) weekday_index 0 0 0 0;
  start_week ←
    datetime.add (start_datetime_of_academic_year self) week_timedelta;
  start_dt ← datetime.add start_week start_timedelta;
  end_week ←
    datetime.add (start_datetime_of_academic_year self) week_timedelta;
  end_dt ← datetime.add end_week end_timedelta;
  c3 ← getitem row_columns 3;
  c4 ← getitem row_columns 4;
  c5 ← getitem row_columns 5;
  c6 ← getitem row_columns 6;
  c7 ← getitem row_columns 7;
  Ok (mkEvent c3 c4 c5 c6 c7 start_dt end_dt).

(** Lines 211-227: a row parsed as a data row under [weekday_index]. *)
Definition data_row `{PyText}
    (self : Schedule) (weekday_index : Z) (row : Row) : Gen unit :=
  let row_columns := row_columns row in
  times ← lift (c1 ← getitem row_columns 1; parse_times c1);
  start_timedelta ← lift (time_timedelta times.1);
  end_timedelta ← lift (time_timedelta times.2);
  weeks ← lift (split_blank <$> getitem row_columns 2);
  for_each
    (fun (_ : unit) token =>
       ev ← lift (week_event self row_columns weekday_index
                             start_timedelta end_timedelta token);
       yield ev)
    tt weeks.

(** Lines 197-206: the [dayheader] test and the new [weekday_index]. *)
Definition header_weekday (weekday_index : Z) (row : Row) : Res Z :=
  classes ← from_option Ok (Raise KeyError) (row_class row);
  if decide ("dayheader" ∈ classes)
  then c0 ← getitem (row_columns row) 0; list_index c0 WEEKDAY_NAMES
  else Ok weekday_index.

(** One turn of the loop over the rows; the result is [weekday_index] as the
    next row finds it. *)
Definition process_row `{PyText}
    (self : Schedule) (weekday_index : Z) (row : Row) : Gen Z :=
  weekday_index ← lift (header_weekday weekday_index row);
  classes ← lift (from_option Ok (Raise KeyError) (row_class row));
  if decide ("noinfo" ∈ classes)
  then mret weekday_index
  else _ ← data_row self weekday_index row; mret weekday_index.

Definition API_PATH : string := "api/new_schedule_api".

(** [Schedule.get_events].  [session] is the transport, [today] the current
    date in [TZ_INFO]. *)
Definition get_events `{PyText}
    (self : Schedule) (semester_type : option Z) (session : Session)
    (base_url : string) (request_timeout : Z) (today : datetime.date)
  : Gen unit :=
  semester_type ← lift (resolve_semester_type semester_type today);
  let params := fetch_params self semester_type in
  response ← lift (session (mkRequest base_url API_PATH params
                                      request_timeout));
  _ ← lift (raise_for_status response);
  _ ← for_each (process_row self) 0 (tbody_rows response);
  mret tt.

(** ** The table of the repository's test *)

Definition test_rows : list Row :=
  [ mkRow (Some ["dayheader"])
      ["Понедельник"; "08:00-09:20"; "1"; "name0"; "event_type0"; "fio0";
       "location0"; "comment0"];
    mkRow (Some ["noinfo"; "dayheader"]) ["Вторник"];
    mkRow (Some ["noinfo"; "dayheader"]) ["Среда"];
    mkRow (Some ["noinfo"; "dayheader"]) ["Четверг"];
    mkRow (Some ["noinfo"; "dayheader"]) ["Пятница"];
    mkRow (Some ["noinfo"; "dayheader"]) ["Суббота"];
    mkRow (Some ["extra"])
      [""; "22:55-23:00"; "52"; "name1"; "event_type1"; "fio1";
       "location1"; "comment1"] ].

Definition test_session : Session := fun _ => Ok (mkResponse 200 test_rows).
Definition DEFAULT_BASE_URL : string := "https://isu.uust.ru/".

(* ===================================================================== *)
(** ** Specification vocabulary *)
(* ===================================================================== *)

(** Notions used to state the calendar facts: bounded checks decided by
    evaluation, the month tables with the leap flag as a parameter, validity
    of dates and datetimes, and the position of a datetime on the line of
    microseconds. *)
Module datetime_spec.
Import datetime.

(** Bounded universal checks, decided by evaluation. *)
Fixpoint range_all (lo : Z) (len : nat) (P : Z -> bool) : bool :=
  match len with
  | O => true
  | S k => P lo && range_all (lo + 1) k P
  end.

Definition leap_days (leap : bool) : Z := if leap then 1 else 0.

(** The month tables with the leap flag as a parameter. *)
Definition dim_l (leap : bool) (m : Z) : Z :=
  if (m =? 2) && leap then 29 else nth (Z.to_nat m) DAYS_IN_MONTH 0.
Definition dbm_l (leap : bool) (m : Z) : Z :=
  nth (Z.to_nat m) DAYS_BEFORE_MONTH 0 + (if (2 <? m) && leap then 1 else 0).

(** The month and day part of [ord2ymd], from the day [n] of the year
    (counted from 0). *)
Definition month_day (leapyear : bool) (n : Z) : Z * Z :=
  let month := Z.shiftr (n + 50) 5 in
  let preceding := dbm_l leapyear month in
  if n <? preceding then
    let month := month - 1 in
    let preceding :=
      preceding - (nth (Z.to_nat month) DAYS_IN_MONTH 0
                   + (if (month =? 2) && leapyear then 1 else 0)) in
    (month, n - preceding + 1)
  else (month, n - preceding + 1).

Definition month_day_ok (leap : bool) (n : Z) : bool :=
  let '(m, d) := month_day leap n in
  (1 <=? m) && (m <=? 12) && (1 <=? d) && (d <=? dim_l leap m)
  && (dbm_l leap m + d =? n + 1).

Definition months_ok (leap : bool) : bool :=
  range_all 1 12 (fun m =>
    (28 <=? dim_l leap m) && (dim_l leap m <=? 31)
    && (0 <=? dbm_l leap m)
    && (dbm_l leap m + dim_l leap m <=? 365 + leap_days leap)
    && range_all 1 12 (fun m' =>
         implb (m <? m') (dbm_l leap m + dim_l leap m <=? dbm_l leap m'))).

Definition date_valid (x : date) : Prop :=
  check_date_fields (year x) (month x) (day x) = true.

Definition time_valid (x : t) : Prop :=
  check_time_fields (hour x) (minute x) (second x) (microsecond x) = true.

Definition valid (x : t) : Prop := date_valid (date_of x) /\ time_valid x.

Definition DAY_US : Z := 86400000000.

(** Microseconds since the midnight before ordinal 1, on the wall clock. *)
Definition instant_us (x : t) : Z :=
  (toordinal x * 86400 + hour x * 3600 + minute x * 60 + second x) * 1000000
  + microsecond x.

Definition timedelta_us (d : timedelta) : Z :=
  (days d * 86400 + seconds d) * 1000000 + microseconds d.

Definition timedelta_normal (d : timedelta) : Prop :=
  0 <= seconds d < 86400 /\ 0 <= microseconds d < 1000000.

End datetime_spec.

Import datetime_spec.

Definition schedule_2023 : Schedule :=
  mkSchedule GROUP 2575 2023
    (datetime.mkdatetime (datetime.mkdate 2023 8 28) 0 0 0 0 TZ_INFO).

Definition local_datetime (y m d h mi : Z) : datetime.t :=
  datetime.mkdatetime (datetime.mkdate y m d) h mi 0 0 TZ_INFO.

Global Instance Res_eq_dec `{EqDecision A} : EqDecision (Res A).
Proof. solve_decision. Defined.

(** The ten slot start times as hours and minutes. *)
Definition DAILY_START_HM : list (Z * Z) :=
  [(8, 0); (9, 35); (11, 35); (13, 10); (15, 10);
   (16, 45); (18, 20); (19, 55); (21, 25); (22, 55)].

Definition daily_lookup_agrees (h m : Z) : bool :=
  bool_decide
    (list_index (String.append (datetime.two_digits h)
                               (String.append ":" (datetime.two_digits m)))
                DAILY_START_TIMES
     = list_index (h, m) DAILY_START_HM).

(** The ASCII character of a decimal digit. *)
Definition digit_char (d : Z) : ascii := ascii_of_nat (Z.to_nat (48 + d)).

Definition two_digit_suffix (y : Z) : string :=
  String (digit_char (y / 10 mod 10)) (String (digit_char (y mod 10)) "").

Definition last_chars_agree (y : Z) : bool :=
  bool_decide (pystr.last_chars 2 (pystr.of_int y) = two_digit_suffix y).

Definition in_calendar (us : Z) : Prop :=
  DAY_US <= us < (datetime.MAXORDINAL + 1) * DAY_US.

(** [timedelta(weeks=week_number - 1, days=weekday_index)] in microseconds. *)
Definition week_offset_us (week_number weekday_index : Z) : Z :=
  ((week_number - 1) * 7 + weekday_index) * DAY_US.

(** The loop over the week tokens of one row. *)
Definition weeks_loop (f : string -> Res Event) (tokens : list string)
  : Gen unit :=
  for_each (fun (_ : unit) token => ev ← lift (f token); yield ev) tt tokens.

Definition backwards_rows : list Row :=
  [ mkRow (Some ["dayheader"])
      ["Понедельник"; "09:20-08:00"; "1"; "name0"; "event_type0"; "fio0";
       "location0"; "comment0"] ].

Definition backwards_event : Event :=
  mkEvent "name0" "event_type0" "fio0" "location0" "comment0"
          (local_datetime 2023 8 28 9 20) (local_datetime 2023 8 28 8 0).

Definition test_event0 : Event :=
  mkEvent "name0" "event_type0" "fio0" "location0" "comment0"
          (local_datetime 2023 8 28 8 0) (local_datetime 2023 8 28 9 20).

Definition test_event1 : Event :=
  mkEvent "name1" "event_type1" "fio1" "location1" "comment1"
          (local_datetime 2024 8 24 22 55) (local_datetime 2024 8 24 23 0).

(** What a data row says about the Event of week [w] under weekday [k]. *)
Definition event_of_week
    (self : Schedule) (k : Z) (c3 c4 c5 c6 c7 : string)
    (std etd : datetime.timedelta) (w : Z) (ev : Event) : Prop :=
  title ev = c3 /\ event_type ev = c4 /\ participant ev = c5
  /\ location ev = c6 /\ comment ev = c7
  /\ valid (start_datetime ev) /\ valid (end_datetime ev)
  /\ instant_us (start_datetime ev)
     = instant_us (start_datetime_of_academic_year self)
       + week_offset_us w k + timedelta_us std
  /\ instant_us (end_datetime ev)
     = instant_us (start_datetime_of_academic_year self)
       + week_offset_us w k + timedelta_us etd.

Definition three_weeks_row : Row :=
  mkRow (Some ["dayheader"])
    ["Понедельник"; "08:00-09:20"; "1 3 5"; "name0"; "event_type0"; "fio0";
     "location0"; "comment0"].

(** A table with one header row for [weekday_name] and, under it, the last
    row of the repository's test table. *)
Definition week52_rows (weekday_name : string) : list Row :=
  [ mkRow (Some ["noinfo"; "dayheader"]) [weekday_name];
    mkRow (Some ["extra"])
      [""; "22:55-23:00"; "52"; "name1"; "event_type1"; "fio1";
       "location1"; "comment1"] ].

Definition week52_event (d : Z) : Event :=
  mkEvent "name1" "event_type1" "fio1" "location1" "comment1"
          (local_datetime 2024 8 d 22 55) (local_datetime 2024 8 d 23 0).

(** The datetime [x] that week [w], weekday index [k] and a time of
    [minutes] minutes after midnight give in the academic year of [self]. *)
Definition lands_at (self : Schedule) (k w minutes : Z) (x : datetime.t)
  : Prop :=
  datetime.toordinal x
  = datetime.toordinal (start_datetime_of_academic_year self)
    + 7 * (w - 1) + k + minutes / 1440
  /\ datetime.hour x = minutes mod 1440 / 60
  /\ datetime.minute x = minutes mod 60
  /\ datetime.second x = 0 /\ datetime.microsecond x = 0
  /\ datetime.tzinfo x = Some "Asia/Yekaterinburg"
  /\ valid x.

(** [c in s] for a character. *)
Fixpoint has_char (c : ascii) (s : string) : bool :=
  match s with
  | EmptyString => false
  | String c' s' => Ascii.eqb c' c || has_char c s'
  end.

(** [h:m] printed as [%H:%M] holds no dash and reads back as [[h; m]]. *)
Definition time_text_reads_back (h m : Z) : bool :=
  let text := String.append (datetime.two_digits h)
                (String.append ":" (datetime.two_digits m)) in
  negb (has_char "-" text) && bool_decide (parse_time text = Ok [h; m]).

(** What makes a row raise [IndexError]: a cell that is missing, or a half
    of the time column that holds fewer than two numbers. *)
Definition index_error_origin `{PyText} (row : Row) : Prop :=
  (length (row_columns row) < 8)%nat
  \/ exists c1 start_time end_time,
       row_columns row !! 1%nat = Some c1
       /\ parse_times c1 = Ok (start_time, end_time)
       /\ ((length start_time < 2)%nat \/ (length end_time < 2)%nat).

(** The week numbers listed by a row that is parsed as a data row. *)
Definition week_count `{PyText} (row : Row) : nat :=
  match row_class row with
  | Some classes =>
      if decide ("noinfo" ∈ classes) then 0%nat
      else match row_columns row !! 2%nat with
           | Some weeks => length (split_blank weeks)
           | None => 0%nat
           end
  | None => 0%nat
  end.

(* ===================================================================== *)
(** ** Facts about the calendar *)
(* ===================================================================== *)

Module datetime_facts.
Import datetime.

(** *** The Gregorian calendar *)

Lemma range_all_spec (P : Z -> bool) (len : nat) (lo : Z) :
  range_all lo len P = true ->
  forall z, lo <= z < lo + Z.of_nat len -> P z = true.
Proof.
  revert lo. induction len as [|k IH]; intros lo H z Hz; [lia|].
  simpl in H. apply andb_true_iff in H as [H0 H1].
  destruct (Z.eq_dec z lo) as [->|Hne]; [exact H0|].
  apply (IH (lo + 1)); [exact H1 | lia].
Qed.

Lemma is_leap_spec y :
  is_leap y = true <-> (y mod 4 = 0 /\ (y mod 100 <> 0 \/ y mod 400 = 0)).
Proof.
  unfold is_leap.
  rewrite andb_true_iff, orb_true_iff, negb_true_iff, !Z.eqb_eq, Z.eqb_neq.
  tauto.
Qed.

Lemma days_before_year_succ y :
  days_before_year (y + 1) = days_before_year y + 365 + leap_days (is_leap y).
Proof.
  unfold days_before_year, leap_days.
  destruct (is_leap y) eqn:E.
  - apply is_leap_spec in E. Z.div_mod_to_equations. lia.
  - assert (~ (y mod 4 = 0 /\ (y mod 100 <> 0 \/ y mod 400 = 0))) as N
      by (rewrite <- is_leap_spec; congruence).
    Z.div_mod_to_equations. lia.
Qed.

Lemma days_before_year_mono y y' :
  y <= y' -> days_before_year y <= days_before_year y'.
Proof.
  intros H. destruct (Z.eq_dec y y') as [->|Hne]; [lia|].
  unfold days_before_year. Z.div_mod_to_equations. lia.
Qed.

Lemma month_day_spec leap n :
  0 <= n < 365 + leap_days leap ->
  let '(m, d) := month_day leap n in
  1 <= m <= 12 /\ 1 <= d <= dim_l leap m /\ dbm_l leap m + d = n + 1.
Proof.
  intros Hn.
  assert (month_day_ok leap n = true) as H.
  { destruct leap; simpl in Hn.
    - apply (range_all_spec (month_day_ok true) 366 0); [vm_compute; reflexivity | lia].
    - apply (range_all_spec (month_day_ok false) 365 0); [vm_compute; reflexivity | lia]. }
  unfold month_day_ok in H. destruct (month_day leap n) as [m d].
  rewrite !andb_true_iff in H. lia.
Qed.

Lemma months_spec leap m :
  1 <= m <= 12 ->
  28 <= dim_l leap m <= 31 /\ 0 <= dbm_l leap m
  /\ dbm_l leap m + dim_l leap m <= 365 + leap_days leap
  /\ forall m', m < m' <= 12 -> dbm_l leap m + dim_l leap m <= dbm_l leap m'.
Proof.
  intros Hm.
  assert (months_ok leap = true) as H by (destruct leap; vm_compute; reflexivity).
  unfold months_ok in H.
  pose proof (range_all_spec _ _ _ H m ltac:(lia)) as Hm'. cbv beta in Hm'.
  apply andb_true_iff in Hm' as [Hm' Hall].
  rewrite !andb_true_iff in Hm'. destruct Hm' as [[[? ?] ?] ?].
  repeat split; try lia.
  intros m' Hm2.
  pose proof (range_all_spec _ _ _ Hall m' ltac:(lia)) as Hi. cbv beta in Hi.
  destruct (Z.ltb_spec m m'); [simpl in Hi; lia | lia].
Qed.

Lemma ord2ymd_unfold n :
  ord2ymd n =
  let n0 := n - 1 in
  let n400 := n0 / DI400Y in
  let r1 := n0 mod DI400Y in
  let n100 := r1 / DI100Y in
  let r2 := r1 mod DI100Y in
  let n4 := r2 / DI4Y in
  let r3 := r2 mod DI4Y in
  let n1 := r3 / 365 in
  let r4 := r3 mod 365 in
  let y := n400 * 400 + 1 + (n100 * 100 + n4 * 4 + n1) in
  if (n1 =? 4) || (n100 =? 4) then (y - 1, 12, 31)
  else
    let '(m, d) :=
      month_day ((n1 =? 3) && (negb (n4 =? 24) || (n100 =? 3))) r4 in
    (y, m, d).
Proof.
  unfold ord2ymd, month_day, dbm_l. cbv zeta.
  repeat match goal with |- context [if ?b then _ else _] => destruct b end;
    reflexivity.
Qed.

Lemma year_of_cycles a b c d :
  0 <= b <= 3 -> 0 <= c <= 24 -> 0 <= d <= 3 ->
  let y := a * 400 + 1 + (b * 100 + c * 4 + d) in
  days_before_year y = 146097 * a + 36524 * b + 1461 * c + 365 * d
  /\ is_leap y = (d =? 3) && (negb (c =? 24) || (b =? 3)).
Proof.
  intros Hb Hc Hd y. subst y. split.
  - unfold days_before_year. Z.div_mod_to_equations. lia.
  - apply eq_true_iff_eq. rewrite is_leap_spec.
    rewrite andb_true_iff, orb_true_iff, negb_true_iff, !Z.eqb_eq, Z.eqb_neq.
    Z.div_mod_to_equations. lia.
Qed.

Lemma year_of_cycles_last a b c d :
  (b = 4 /\ c = 0 /\ d = 0) \/ (0 <= b <= 3 /\ 0 <= c <= 23 /\ d = 4) ->
  days_before_year (a * 400 + 1 + (b * 100 + c * 4 + d))
  = 146097 * a + 36524 * b + 1461 * c + 365 * d + 1.
Proof.
  intros H. unfold days_before_year. Z.div_mod_to_equations. lia.
Qed.

Lemma days_in_month_l y m : days_in_month y m = dim_l (is_leap y) m.
Proof. reflexivity. Qed.

Lemma days_before_month_l y m : days_before_month y m = dbm_l (is_leap y) m.
Proof. reflexivity. Qed.

Lemma ymd2ord_dec31 y : ymd2ord y 12 31 = days_before_year (y + 1).
Proof.
  rewrite days_before_year_succ. unfold ymd2ord, days_before_month, leap_days.
  destruct (is_leap y); simpl; lia.
Qed.

(** [ord2ymd] gives a date of the calendar, and [ymd2ord] takes it back. *)
Lemma ord2ymd_spec n :
  1 <= n ->
  let '(y, m, d) := ord2ymd n in
  1 <= y /\ 1 <= m <= 12 /\ 1 <= d <= days_in_month y m /\ ymd2ord y m d = n.
Proof.
  intros Hn. rewrite ord2ymd_unfold. cbv zeta. unfold DI400Y, DI100Y, DI4Y.
  pose proof (Z.div_mod (n - 1) 146097 ltac:(lia)) as E1.
  pose proof (Z.mod_pos_bound (n - 1) 146097 ltac:(lia)) as B1.
  pose proof (Z.div_pos (n - 1) 146097 ltac:(lia) ltac:(lia)) as P1.
  set (n400 := (n - 1) / 146097) in *.
  set (r1 := (n - 1) mod 146097) in *.
  pose proof (Z.div_mod r1 36524 ltac:(lia)) as E2.
  pose proof (Z.mod_pos_bound r1 36524 ltac:(lia)) as B2.
  set (n100 := r1 / 36524) in *. set (r2 := r1 mod 36524) in *.
  pose proof (Z.div_mod r2 1461 ltac:(lia)) as E3.
  pose proof (Z.mod_pos_bound r2 1461 ltac:(lia)) as B3.
  set (n4 := r2 / 1461) in *. set (r3 := r2 mod 1461) in *.
  pose proof (Z.div_mod r3 365 ltac:(lia)) as E4.
  pose proof (Z.mod_pos_bound r3 365 ltac:(lia)) as B4.
  set (n1 := r3 / 365) in *. set (r4 := r3 mod 365) in *.
  clearbody n400 r1 n100 r2 n4 r3 n1 r4.
  assert (0 <= n100 <= 4 /\ 0 <= n4 <= 24 /\ 0 <= n1 <= 4) as (B100 & B4' & B1') by lia.
  destruct ((n1 =? 4) || (n100 =? 4)) eqn:Elast.
  - apply orb_true_iff in Elast. rewrite !Z.eqb_eq in Elast.
    replace (n400 * 400 + 1 + (n100 * 100 + n4 * 4 + n1) - 1 + 1)
      with (n400 * 400 + 1 + (n100 * 100 + n4 * 4 + n1)) in * by lia.
    rewrite ymd2ord_dec31.
    replace (n400 * 400 + 1 + (n100 * 100 + n4 * 4 + n1) - 1 + 1)
      with (n400 * 400 + 1 + (n100 * 100 + n4 * 4 + n1)) by lia.
    rewrite year_of_cycles_last by lia.
    rewrite days_in_month_l.
    assert (dim_l (is_leap (n400 * 400 + 1 + (n100 * 100 + n4 * 4 + n1) - 1)) 12 = 31)
      as -> by (destruct (is_leap _); reflexivity).
    lia.
  - apply orb_false_iff in Elast. rewrite !Z.eqb_neq in Elast.
    destruct (year_of_cycles n400 n100 n4 n1) as [Hdby Hleap]; try lia.
    cbv zeta in Hdby, Hleap.
    set (y := n400 * 400 + 1 + (n100 * 100 + n4 * 4 + n1)) in *.
    rewrite <- Hleap.
    pose proof (month_day_spec (is_leap y) r4) as Hmd.
    destruct (month_day (is_leap y) r4) as [m d].
    destruct Hmd as (Hm & Hd & Hsum);
      [unfold leap_days; destruct (is_leap y); lia|].
    rewrite days_in_month_l. unfold ymd2ord. rewrite days_before_month_l.
    subst y. lia.
Qed.

(** *** Dates and their ordinals *)

Lemma date_valid_spec x :
  date_valid x <->
  1 <= year x <= 9999 /\ 1 <= month x <= 12
  /\ 1 <= day x <= days_in_month (year x) (month x).
Proof.
  unfold date_valid, check_date_fields, MINYEAR, MAXYEAR.
  rewrite !andb_true_iff, !Z.leb_le. tauto.
Qed.

Lemma toordinal_bounds x :
  1 <= month x <= 12 -> 1 <= day x <= days_in_month (year x) (month x) ->
  days_before_year (year x) < date_toordinal x
  <= days_before_year (year x + 1).
Proof.
  intros Hm Hd. unfold date_toordinal, ymd2ord.
  rewrite days_before_year_succ, days_before_month_l.
  rewrite days_in_month_l in Hd.
  destruct (months_spec (is_leap (year x)) (month x) Hm) as (? & ? & ? & _).
  lia.
Qed.

Lemma date_cmp_toordinal a b :
  date_valid a -> date_valid b ->
  date_cmp a b = (date_toordinal a ?= date_toordinal b).
Proof.
  intros Ha Hb. apply date_valid_spec in Ha as (_ & Hma & Hda).
  apply date_valid_spec in Hb as (_ & Hmb & Hdb).
  pose proof (toordinal_bounds a Hma Hda) as Ba.
  pose proof (toordinal_bounds b Hmb Hdb) as Bb.
  unfold date_cmp. symmetry.
  destruct (Z.compare_spec (year a) (year b)) as [Ey|Ly|Ly].
  - unfold date_toordinal, ymd2ord in *. rewrite !days_before_month_l.
    rewrite !days_in_month_l in *. rewrite Ey in *.
    set (l := is_leap (year b)) in *.
    destruct (months_spec l (month a) Hma) as (_ & _ & _ & Mab).
    destruct (months_spec l (month b) Hmb) as (_ & _ & _ & Mba).
    destruct (Z.compare_spec (month a) (month b)) as [Em|Lm|Lm].
    + rewrite Em. destruct (Z.compare_spec (day a) (day b));
        [apply Z.compare_eq_iff | apply Z.compare_lt_iff | apply Z.compare_gt_iff]; lia.
    + apply Z.compare_lt_iff. specialize (Mab (month b)). lia.
    + apply Z.compare_gt_iff. specialize (Mba (month a)). lia.
  - apply Z.compare_lt_iff.
    pose proof (days_before_year_mono (year a + 1) (year b)). lia.
  - apply Z.compare_gt_iff.
    pose proof (days_before_year_mono (year b + 1) (year a)). lia.
Qed.

Lemma days_before_year_1 : days_before_year 1 = 0.
Proof. reflexivity. Qed.

Lemma days_before_year_10000 : days_before_year 10000 = 3652059.
Proof. reflexivity. Qed.

Lemma toordinal_fromordinal n :
  1 <= n -> date_toordinal (date_fromordinal n) = n.
Proof.
  intros Hn. pose proof (ord2ymd_spec n Hn) as H.
  unfold date_fromordinal, date_toordinal.
  destruct (ord2ymd n) as [[y m] d]. simpl. tauto.
Qed.

Lemma fromordinal_valid n :
  1 <= n <= MAXORDINAL -> date_valid (date_fromordinal n).
Proof.
  intros [Hn Hmax]. pose proof (ord2ymd_spec n Hn) as H.
  apply date_valid_spec. unfold date_fromordinal.
  destruct (ord2ymd n) as [[y m] d]. simpl.
  destruct H as (Hy & Hm & Hd & Hord). repeat split; try lia.
  destruct (Z.le_gt_cases y 9999) as [|Hbig]; [assumption|exfalso].
  pose proof (toordinal_bounds (mkdate y m d) Hm Hd) as B. simpl in B.
  unfold date_toordinal in B. simpl in B. rewrite Hord in B.
  pose proof (days_before_year_mono 10000 y ltac:(lia)) as M.
  rewrite days_before_year_10000 in M.
  unfold MAXORDINAL in Hmax. lia.
Qed.

Lemma toordinal_range x :
  date_valid x -> 1 <= date_toordinal x <= MAXORDINAL.
Proof.
  intros Hx. apply date_valid_spec in Hx as (Hy & Hm & Hd).
  pose proof (toordinal_bounds x Hm Hd).
  pose proof (days_before_year_mono 1 (year x) ltac:(lia)) as M1.
  pose proof (days_before_year_mono (year x + 1) 10000 ltac:(lia)) as M2.
  rewrite days_before_year_1 in M1. rewrite days_before_year_10000 in M2.
  unfold MAXORDINAL. lia.
Qed.

Lemma date_cmp_eq a b : date_cmp a b = Eq -> a = b.
Proof.
  destruct a as [y m d], b as [y' m' d']. unfold date_cmp. simpl.
  destruct (Z.compare_spec y y'); try discriminate.
  destruct (Z.compare_spec m m'); try discriminate.
  intros Hc. apply Z.compare_eq in Hc. congruence.
Qed.

Lemma fromordinal_toordinal x :
  date_valid x -> date_fromordinal (date_toordinal x) = x.
Proof.
  intros Hx. pose proof (toordinal_range x Hx) as Hr.
  apply date_cmp_eq.
  rewrite date_cmp_toordinal by (auto using fromordinal_valid).
  rewrite toordinal_fromordinal by lia. apply Z.compare_refl.
Qed.

(** *** Datetimes on the line of microseconds *)

Lemma time_valid_spec x :
  time_valid x <->
  0 <= hour x <= 23 /\ 0 <= minute x <= 59 /\ 0 <= second x <= 59
  /\ 0 <= microsecond x <= 999999.
Proof.
  unfold time_valid, check_time_fields.
  rewrite !andb_true_iff, !Z.leb_le. tauto.
Qed.

Lemma timedelta_new_spec w d h m s us r :
  timedelta_new w d h m s us = Ok r ->
  timedelta_normal r
  /\ timedelta_us r
     = ((w * 7 + d) * 86400 + h * 3600 + m * 60 + s) * 1000000 + us.
Proof.
  unfold timedelta_new. destruct (_ <? _); [discriminate|].
  intros [= <-]. unfold timedelta_normal, timedelta_us. simpl.
  Z.div_mod_to_equations. lia.
Qed.

Lemma timedelta_new_error w d h m s us e :
  timedelta_new w d h m s us = Raise e -> e = OverflowError.
Proof.
  unfold timedelta_new. destruct (_ <? _); congruence.
Qed.

Lemma timedelta_new_days d :
  Z.abs d <= 999999999 ->
  timedelta_new 0 d 0 0 0 0 = Ok (mktimedelta d 0 0).
Proof.
  intros H. unfold timedelta_new. cbv zeta.
  change (0 * 3600 + 0 * 60 + 0 + 0 / 1000000) with 0.
  change (0 / 86400) with 0. change (0 mod 86400) with 0.
  change (0 mod 1000000) with 0.
  replace (0 * 7 + d + 0) with d by lia.
  destruct (Z.ltb_spec 999999999 (Z.abs d)); [lia | reflexivity].
Qed.

Lemma timedelta_normal_unique a b :
  timedelta_normal a -> timedelta_normal b ->
  timedelta_us a = timedelta_us b -> a = b.
Proof.
  destruct a as [d s u], b as [d' s' u'].
  unfold timedelta_normal, timedelta_us. simpl. intros Ha Hb E.
  assert (u = u') by lia. assert (s = s') by lia. assert (d = d') by lia.
  congruence.
Qed.

Lemma add_spec self other r :
  add self other = Ok r ->
  tzinfo r = tzinfo self
  /\ time_valid r
  /\ 1 <= toordinal r <= MAXORDINAL
  /\ date_valid (date_of r)
  /\ instant_us r = instant_us self + timedelta_us other.
Proof.
  unfold add.
  destruct (timedelta_new 0 (toordinal self) _ _ _ _) as [d0|] eqn:E0;
    [|discriminate].
  cbn [mbind Res_bind].
  unfold timedelta_add.
  destruct (timedelta_new 0 (days d0 + days other) _ _ _ _) as [d1|] eqn:E1;
    [|discriminate].
  cbn [mbind Res_bind].
  destruct (_ && _) eqn:Hrange; [|discriminate].
  apply andb_true_iff in Hrange as [Hlo Hhi].
  apply Z.ltb_lt in Hlo. apply Z.leb_le in Hhi.
  intros [= <-].
  apply timedelta_new_spec in E0 as [N0 U0].
  apply timedelta_new_spec in E1 as [N1 U1].
  unfold timedelta_normal, timedelta_us in *.
  assert (date_toordinal (date_fromordinal (days d1)) = days d1) as Hord
    by (apply toordinal_fromordinal; lia).
  repeat split; simpl.
  - unfold time_valid, check_time_fields. simpl.
    rewrite !andb_true_iff, !Z.leb_le. Z.div_mod_to_equations. lia.
  - unfold toordinal; simpl. lia.
  - unfold toordinal; simpl. lia.
  - apply fromordinal_valid. lia.
  - unfold instant_us, toordinal in *. simpl. rewrite Hord.
    Z.div_mod_to_equations. lia.
Qed.

Lemma add_error self other e :
  add self other = Raise e -> e = OverflowError.
Proof.
  unfold add, timedelta_add.
  destruct (timedelta_new 0 (toordinal self) _ _ _ _) as [d0|e0] eqn:E0;
    cbn [mbind Res_bind].
  - destruct (timedelta_new 0 (days d0 + days other) _ _ _ _) as [d1|e1] eqn:E1;
      cbn [mbind Res_bind].
    + destruct (_ && _); congruence.
    + intros [= <-]. eapply timedelta_new_error; eauto.
  - intros [= <-]. eapply timedelta_new_error; eauto.
Qed.

(** The sum exists exactly when it falls on a day of the calendar. *)
Lemma add_ok self other :
  valid self ->
  DAY_US <= instant_us self + timedelta_us other < (MAXORDINAL + 1) * DAY_US ->
  exists r, add self other = Ok r.
Proof.
  intros [Hd Ht] Hrange.
  apply time_valid_spec in Ht. pose proof (toordinal_range _ Hd) as Ho.
  unfold add, timedelta_add, timedelta_new. cbv zeta.
  unfold DAY_US, MAXORDINAL, instant_us, timedelta_us, toordinal in *.
  set (o := date_toordinal (date_of self)) in *. clearbody o.
  match goal with |- context [if ?b then Raise OverflowError else Ok ?v] =>
    destruct b eqn:E0; [apply Z.ltb_lt in E0; exfalso; revert E0;
                        Z.div_mod_to_equations; lia|] end.
  cbn [mbind Res_bind days seconds microseconds].
  match goal with |- context [if ?b then Raise OverflowError else Ok ?v] =>
    destruct b eqn:E1; [apply Z.ltb_lt in E1; exfalso; revert E1;
                        Z.div_mod_to_equations; lia|] end.
  cbn [mbind Res_bind days seconds microseconds].
  match goal with |- context [if ?b then Ok ?v else Raise OverflowError] =>
    destruct b eqn:E2; [eauto|] end.
  exfalso. apply andb_false_iff in E2. rewrite Z.ltb_ge, Z.leb_gt in E2.
  revert E2. Z.div_mod_to_equations. lia.
Qed.

Lemma cmp_instant a b :
  valid a -> valid b -> cmp a b = (instant_us a ?= instant_us b).
Proof.
  intros [Hda Hta] [Hdb Htb]. unfold cmp.
  rewrite (date_cmp_toordinal _ _ Hda Hdb).
  apply time_valid_spec in Hta, Htb. unfold instant_us, toordinal.
  set (oa := date_toordinal (date_of a)). set (ob := date_toordinal (date_of b)).
  clearbody oa ob. symmetry.
  destruct (Z.compare_spec oa ob);
    [|apply Z.compare_lt_iff; lia|apply Z.compare_gt_iff; lia].
  destruct (Z.compare_spec (hour a) (hour b));
    [|apply Z.compare_lt_iff; lia|apply Z.compare_gt_iff; lia].
  destruct (Z.compare_spec (minute a) (minute b));
    [|apply Z.compare_lt_iff; lia|apply Z.compare_gt_iff; lia].
  destruct (Z.compare_spec (second a) (second b));
    [|apply Z.compare_lt_iff; lia|apply Z.compare_gt_iff; lia].
  destruct (Z.compare_spec (microsecond a) (microsecond b));
    [apply Z.compare_eq_iff|apply Z.compare_lt_iff|apply Z.compare_gt_iff]; lia.
Qed.

Lemma lt_instant a b :
  valid a -> valid b -> (lt a b = true <-> instant_us a < instant_us b).
Proof.
  intros Ha Hb. unfold lt. rewrite (cmp_instant _ _ Ha Hb).
  destruct (Z.compare_spec (instant_us a) (instant_us b)); split;
    intros; try lia; try discriminate; reflexivity.
Qed.

Lemma sub_spec a b :
  valid a -> valid b ->
  exists r, sub a b = Ok r /\ timedelta_normal r
            /\ timedelta_us r = instant_us a - instant_us b.
Proof.
  intros [Hda Hta] [Hdb Htb].
  apply time_valid_spec in Hta, Htb.
  pose proof (toordinal_range _ Hda) as Ha.
  pose proof (toordinal_range _ Hdb) as Hb.
  unfold sub. destruct (timedelta_new _ _ _ _ _ _) as [r|e] eqn:E.
  - exists r. apply timedelta_new_spec in E as [N U].
    repeat split; try apply N. rewrite U. unfold instant_us. lia.
  - exfalso. unfold timedelta_new in E. cbv zeta in E.
    unfold toordinal, MAXORDINAL in *.
    destruct (Z.ltb_spec 999999999
                (Z.abs (0 * 7 + (date_toordinal (date_of a) - date_toordinal (date_of b)) +
                  (0 * 3600 + 0 * 60 +
                   (second a + minute a * 60 + hour a * 3600 -
                    (second b + minute b * 60 + hour b * 3600)) +
                   (microsecond a - microsecond b) / 1000000) / 86400)))
      as [Hov|]; [|discriminate].
    revert Hov. Z.div_mod_to_equations. lia.
Qed.

(** A valid datetime is determined by its instant and its [tzinfo]. *)
Lemma instant_fields x n h mi s us :
  valid x ->
  0 <= h <= 23 -> 0 <= mi <= 59 -> 0 <= s <= 59 -> 0 <= us <= 999999 ->
  instant_us x = (n * 86400 + h * 3600 + mi * 60 + s) * 1000000 + us ->
  toordinal x = n /\ hour x = h /\ minute x = mi /\ second x = s
  /\ microsecond x = us.
Proof.
  intros [_ Ht] Hh Hmi Hs Hus E. apply time_valid_spec in Ht.
  unfold instant_us in E. lia.
Qed.

End datetime_facts.

Import datetime_facts.

(* ===================================================================== *)
(** ** Facts about the program *)
(* ===================================================================== *)

(** *** The start of the academic year *)

Lemma Res_bind_Ok {A B} (m : Res A) (f : A -> Res B) b :
  m ≫= f = Ok b <-> exists a, m = Ok a /\ f a = Ok b.
Proof.
  destruct m as [a|e]; cbn; split.
  - eauto.
  - intros (a' & [= <-] & H). exact H.
  - discriminate.
  - intros (a' & [=] & _).
Qed.

Lemma first_september_new y :
  datetime.new y 9 1 0 0 0 0 TZ_INFO
  = if (y <? - 2147483648) || (2147483647 <? y) then Raise OverflowError
    else if (1 <=? y) && (y <=? 9999)
    then Ok (datetime.mkdatetime (datetime.mkdate y 9 1) 0 0 0 0 TZ_INFO)
    else Raise ValueError.
Proof.
  unfold datetime.new, datetime.check_date_fields, datetime.MINYEAR,
    datetime.MAXYEAR, forallb, datetime.fits_c_int.
  change (- 2 ^ 31) with (- 2147483648). change (2 ^ 31) with 2147483648.
  destruct (Z.leb_spec (- 2147483648) y), (Z.ltb_spec y 2147483648),
    (Z.ltb_spec y (- 2147483648)), (Z.ltb_spec 2147483647 y); try lia;
    try reflexivity.
  destruct (Z.leb_spec 1 y), (Z.leb_spec y 9999); reflexivity.
Qed.

Lemma first_september_valid y :
  1 <= y <= 9999 ->
  datetime.new y 9 1 0 0 0 0 TZ_INFO
  = Ok (datetime.mkdatetime (datetime.mkdate y 9 1) 0 0 0 0 TZ_INFO).
Proof.
  intros Hy. rewrite first_september_new.
  destruct (Z.ltb_spec y (- 2147483648)), (Z.ltb_spec 2147483647 y),
    (Z.leb_spec 1 y), (Z.leb_spec y 9999); try lia; reflexivity.
Qed.

Lemma first_september_error y :
  ~ (1 <= y <= 9999) -> - 2147483648 <= y <= 2147483647 ->
  datetime.new y 9 1 0 0 0 0 TZ_INFO = Raise ValueError.
Proof.
  intros Hy Hc. rewrite first_september_new.
  destruct (Z.ltb_spec y (- 2147483648)), (Z.ltb_spec 2147483647 y),
    (Z.leb_spec 1 y), (Z.leb_spec y 9999); try lia; reflexivity.
Qed.

Lemma first_september_overflow y :
  ~ (- 2147483648 <= y <= 2147483647) ->
  datetime.new y 9 1 0 0 0 0 TZ_INFO = Raise OverflowError.
Proof.
  intros Hc. rewrite first_september_new.
  destruct (Z.ltb_spec y (- 2147483648)), (Z.ltb_spec 2147483647 y);
    try lia; reflexivity.
Qed.

Lemma ymd2ord_sep1 y :
  datetime.ymd2ord y 9 1 = datetime.days_before_year y + 244 + leap_days (datetime.is_leap y).
Proof.
  unfold datetime.ymd2ord, datetime.days_before_month, leap_days.
  destruct (datetime.is_leap y); simpl; lia.
Qed.

Lemma ymd2ord_aug25 y :
  datetime.ymd2ord y 8 25 = datetime.ymd2ord y 9 1 - 7.
Proof.
  unfold datetime.ymd2ord, datetime.days_before_month.
  destruct (datetime.is_leap y); simpl; lia.
Qed.

(** What [get_start_datetime_of_academic_year] returns for a year of the
    calendar. *)
Lemma start_of_academic_year_spec y :
  1 <= y <= 9999 ->
  exists r,
    get_start_datetime_of_academic_year y = Ok r
    /\ valid r
    /\ datetime.tzinfo r = TZ_INFO
    /\ datetime.hour r = 0 /\ datetime.minute r = 0
    /\ datetime.second r = 0 /\ datetime.microsecond r = 0
    /\ datetime.toordinal r
       = datetime.ymd2ord y 9 1 - (datetime.ymd2ord y 9 1 + 6) mod 7.
Proof.
  intros Hy. unfold get_start_datetime_of_academic_year.
  rewrite (first_september_valid y Hy). cbn [mbind Res_bind].
  set (first := datetime.mkdatetime (datetime.mkdate y 9 1) 0 0 0 0 TZ_INFO).
  assert (valid first) as Hv.
  { split; [|reflexivity]. apply date_valid_spec. simpl.
    repeat split; try lia. unfold datetime.days_in_month. simpl. lia. }
  set (wd := datetime.weekday first).
  assert (0 <= wd < 7) as Hwd by (apply Z.mod_pos_bound; lia).
  assert (wd = (datetime.ymd2ord y 9 1 + 6) mod 7) as Ewd by reflexivity.
  rewrite (timedelta_new_days wd) by lia. cbn [mbind Res_bind].
  unfold datetime.sub_timedelta, datetime.timedelta_neg.
  cbn [datetime.days datetime.seconds datetime.microseconds].
  change (- 0) with 0. rewrite (timedelta_new_days (- wd)) by lia.
  cbn [mbind Res_bind].
  pose proof (days_before_year_mono 1 y ltac:(lia)) as M1.
  rewrite days_before_year_1 in M1.
  pose proof (ymd2ord_sep1 y) as S1.
  assert (0 <= leap_days (datetime.is_leap y))
    by (unfold leap_days; destruct (datetime.is_leap y); lia).
  pose proof (toordinal_range _ (proj1 Hv)) as Ho.
  change (datetime.date_toordinal (datetime.date_of first))
    with (datetime.ymd2ord y 9 1) in Ho.
  assert (instant_us first = datetime.ymd2ord y 9 1 * DAY_US) as Ei
    by (unfold instant_us, DAY_US, datetime.toordinal, datetime.date_toordinal; simpl; lia).
  destruct (add_ok first (datetime.mktimedelta (- wd) 0 0) Hv) as [r Hr].
  { rewrite Ei. unfold timedelta_us, DAY_US, datetime.MAXORDINAL in *. simpl. lia. }
  exists r. split; [exact Hr|].
  apply add_spec in Hr as (Htz & Htv & Hor & Hdv & Hi).
  assert (valid r) as Hvr by (split; assumption).
  rewrite Ei in Hi.
  destruct (instant_fields r (datetime.ymd2ord y 9 1 - wd) 0 0 0 0 Hvr)
    as (? & ? & ? & ? & ?);
    [lia | lia | lia | lia
     | rewrite Hi; unfold timedelta_us, DAY_US; simpl; lia |].
  repeat split; try assumption; apply Hvr.
Qed.

Lemma sep1_valid y : 1 <= y <= 9999 -> date_valid (datetime.mkdate y 9 1).
Proof.
  intros Hy. apply date_valid_spec. simpl. repeat split; try lia.
  unfold datetime.days_in_month. simpl. lia.
Qed.

Lemma aug25_valid y : 1 <= y <= 9999 -> date_valid (datetime.mkdate y 8 25).
Proof.
  intros Hy. apply date_valid_spec. simpl. repeat split; try lia.
  unfold datetime.days_in_month. simpl. lia.
Qed.

Lemma date_lt_toordinal a b :
  date_valid a -> date_valid b ->
  (datetime.date_lt a b = true
   <-> datetime.date_toordinal a < datetime.date_toordinal b).
Proof.
  intros Ha Hb. unfold datetime.date_lt. rewrite (date_cmp_toordinal _ _ Ha Hb).
  destruct (Z.compare_spec (datetime.date_toordinal a) (datetime.date_toordinal b));
    split; intros; try lia; try discriminate; reflexivity.
Qed.

Lemma date_le_toordinal a b :
  date_valid a -> date_valid b ->
  (datetime.date_le a b = true
   <-> datetime.date_toordinal a <= datetime.date_toordinal b).
Proof.
  intros Ha Hb. unfold datetime.date_le. rewrite (date_cmp_toordinal _ _ Ha Hb).
  destruct (Z.compare_spec (datetime.date_toordinal a) (datetime.date_toordinal b));
    split; intros; try lia; try discriminate; reflexivity.
Qed.

Lemma start_of_academic_year_error y :
  ~ (1 <= y <= 9999) -> - 2147483648 <= y <= 2147483647 ->
  get_start_datetime_of_academic_year y = Raise ValueError.
Proof.
  intros Hy Hc. unfold get_start_datetime_of_academic_year.
  rewrite (first_september_error y Hy Hc). reflexivity.
Qed.

Lemma start_of_academic_year_overflow y :
  ~ (- 2147483648 <= y <= 2147483647) ->
  get_start_datetime_of_academic_year y = Raise OverflowError.
Proof.
  intros Hc. unfold get_start_datetime_of_academic_year.
  rewrite (first_september_overflow y Hc). reflexivity.
Qed.

Lemma start_of_academic_year_Ok y r :
  get_start_datetime_of_academic_year y = Ok r -> 1 <= y <= 9999.
Proof.
  intros H.
  destruct (decide (1 <= y <= 9999)) as [Hy|Hy]; [exact Hy|].
  destruct (decide (- 2147483648 <= y <= 2147483647)) as [Hc|Hc].
  - rewrite (start_of_academic_year_error y Hy Hc) in H. discriminate H.
  - rewrite (start_of_academic_year_overflow y Hc) in H. discriminate H.
Qed.

(** C5, as amended: for every year from 1 to 9999 the call raises no error
    and the start of the academic year is a timestamp at midnight in the
    fixed timezone, on a Monday, on or before September 1 and after August 25
    of that year, namely September 1 less its weekday index in days. *)
Theorem C5_start_of_academic_year (Y : Z) :
  1 <= Y <= 9999 ->
  exists r,
    get_start_datetime_of_academic_year Y = Ok r
    /\ datetime.hour r = 0 /\ datetime.minute r = 0
    /\ datetime.second r = 0 /\ datetime.microsecond r = 0
    /\ datetime.tzinfo r = Some "Asia/Yekaterinburg"
    /\ datetime.weekday r = 0
    /\ datetime.date_le (datetime.date_of r) (datetime.mkdate Y 9 1) = true
    /\ datetime.date_lt (datetime.mkdate Y 8 25) (datetime.date_of r) = true
    /\ datetime.toordinal r
       = datetime.date_toordinal (datetime.mkdate Y 9 1)
         - datetime.date_weekday (datetime.mkdate Y 9 1).
Proof.
  intros HY.
  destruct (start_of_academic_year_spec Y HY)
    as (r & Hr & Hv & Htz & Hh & Hmi & Hs & Hus & Hord).
  exists r. repeat split; try assumption.
  - unfold datetime.weekday, datetime.date_weekday.
    change (datetime.date_toordinal (datetime.date_of r))
      with (datetime.toordinal r).
    rewrite Hord. Z.div_mod_to_equations. lia.
  - apply date_le_toordinal; [apply Hv | apply sep1_valid; assumption |].
    change (datetime.date_toordinal (datetime.date_of r))
      with (datetime.toordinal r).
    rewrite Hord. unfold datetime.date_toordinal. simpl.
    Z.div_mod_to_equations. lia.
  - apply date_lt_toordinal; [apply aug25_valid; assumption | apply Hv |].
    change (datetime.date_toordinal (datetime.date_of r))
      with (datetime.toordinal r).
    rewrite Hord. unfold datetime.date_toordinal. simpl.
    rewrite ymd2ord_aug25. Z.div_mod_to_equations. lia.
Qed.

Lemma C5_start_of_academic_year_witness :
  exists r,
    get_start_datetime_of_academic_year 2023 = Ok r
    /\ datetime.hour r = 0 /\ datetime.minute r = 0
    /\ datetime.second r = 0 /\ datetime.microsecond r = 0
    /\ datetime.tzinfo r = Some "Asia/Yekaterinburg"
    /\ datetime.weekday r = 0
    /\ datetime.date_le (datetime.date_of r) (datetime.mkdate 2023 9 1) = true
    /\ datetime.date_lt (datetime.mkdate 2023 8 25) (datetime.date_of r) = true
    /\ datetime.toordinal r
       = datetime.date_toordinal (datetime.mkdate 2023 9 1)
         - datetime.date_weekday (datetime.mkdate 2023 9 1).
Proof. apply (C5_start_of_academic_year 2023). lia. Defined.

(** C5 as stated fails: year 0 is an integer, and the call raises. *)
Lemma C5_counterexample :
  get_start_datetime_of_academic_year 0 = Raise ValueError
  /\ get_start_datetime_of_academic_year 10000 = Raise ValueError.
Proof. split; reflexivity. Qed.

(** *** The semester of a date *)

Lemma get_semester_type_unfold d today :
  1 <= datetime.year d <= 9998 ->
  exists y0 y1,
    get_start_datetime_of_academic_year (datetime.year d) = Ok y0
    /\ get_start_datetime_of_academic_year (datetime.year d + 1) = Ok y1
    /\ valid y0 /\ valid y1
    /\ datetime.toordinal y0 < datetime.toordinal y1
    /\ get_semester_type (Some d) today
       = if datetime.date_ge d (datetime.date_of y0) then Ok AUTUMN
         else if datetime.date_lt d (datetime.date_of y1) then Ok SPRING
         else Raise SemesterTypeNotFoundError.
Proof.
  intros Hy.
  destruct (start_of_academic_year_spec (datetime.year d) ltac:(lia))
    as (y0 & E0 & V0 & _ & _ & _ & _ & _ & O0).
  destruct (start_of_academic_year_spec (datetime.year d + 1) ltac:(lia))
    as (y1 & E1 & V1 & _ & _ & _ & _ & _ & O1).
  exists y0, y1. repeat split; try assumption; try apply V0; try apply V1.
  - rewrite O0, O1, !ymd2ord_sep1, days_before_year_succ.
    unfold leap_days.
    destruct (datetime.is_leap (datetime.year d)),
             (datetime.is_leap (datetime.year d + 1));
      Z.div_mod_to_equations; lia.
  - unfold get_semester_type, default, from_option, id. cbv zeta beta iota.
    rewrite E0. cbn [mbind Res_bind]. rewrite E1. reflexivity.
Qed.

(** A date of the calendar before year 9999 is always classified. *)
Lemma get_semester_type_total d today :
  date_valid d -> datetime.year d <= 9998 ->
  get_semester_type (Some d) today = Ok AUTUMN
  \/ get_semester_type (Some d) today = Ok SPRING.
Proof.
  intros Hd Hy. pose proof (proj1 (date_valid_spec d) Hd) as (Hy1 & _).
  destruct (get_semester_type_unfold d today ltac:(lia))
    as (y0 & y1 & _ & _ & V0 & V1 & Hlt & ->).
  unfold datetime.date_ge.
  destruct (datetime.date_lt d (datetime.date_of y0)) eqn:E0; [|left; reflexivity].
  right. cbn [negb].
  apply (date_lt_toordinal d _ Hd (proj1 V0)) in E0.
  assert (datetime.date_lt d (datetime.date_of y1) = true) as ->; [|reflexivity].
  apply (date_lt_toordinal d _ Hd (proj1 V1)).
  unfold datetime.toordinal in Hlt. lia.
Qed.

(** C4, as amended: for a reference date whose year is at most 9998 the
    result is AUTUMN when the date is on or after the start of its year's
    academic year, else SPRING when it is before the start of the next one,
    else the dedicated error; in year 9999 the start of year 10000 cannot be
    built and the generic ValueError escapes before any comparison. *)
Theorem C4_get_semester_type (d today : datetime.date) :
  (1 <= datetime.year d <= 9998 ->
   exists y0 y1,
     get_start_datetime_of_academic_year (datetime.year d) = Ok y0
     /\ get_start_datetime_of_academic_year (datetime.year d + 1) = Ok y1
     /\ get_semester_type (Some d) today
        = if datetime.date_ge d (datetime.date_of y0) then Ok AUTUMN
          else if datetime.date_lt d (datetime.date_of y1) then Ok SPRING
          else Raise SemesterTypeNotFoundError)
  /\ (datetime.year d = 9999 ->
      get_semester_type (Some d) today = Raise ValueError)
  /\ get_semester_type None today = get_semester_type (Some today) today
  /\ get_semester_type (Some (datetime.mkdate 2023 8 28)) today = Ok AUTUMN
  /\ get_semester_type (Some (datetime.mkdate 2024 8 25)) today = Ok SPRING
  /\ SemesterTypeNotFoundError <> ValueError
  /\ isinstance_ValueError SemesterTypeNotFoundError = true.
Proof.
  split; [|split; [|split; [|split; [|split; [|split]]]]].
  - intros Hy.
    destruct (get_semester_type_unfold d today Hy)
      as (y0 & y1 & E0 & E1 & _ & _ & _ & E).
    exists y0, y1. auto.
  - intros Hy. unfold get_semester_type, default, from_option, id.
    cbv zeta beta iota. rewrite Hy.
    destruct (start_of_academic_year_spec 9999 ltac:(lia)) as (y0 & -> & _).
    cbn [mbind Res_bind].
    rewrite (start_of_academic_year_error (9999 + 1)) by lia. reflexivity.
  - reflexivity.
  - vm_compute. reflexivity.
  - vm_compute. reflexivity.
  - discriminate.
  - reflexivity.
Qed.

Lemma C4_get_semester_type_witness :
  exists y0 y1,
    get_start_datetime_of_academic_year 2024 = Ok y0
    /\ get_start_datetime_of_academic_year (2024 + 1) = Ok y1
    /\ get_semester_type (Some (datetime.mkdate 2024 8 25))
                         (datetime.mkdate 2023 10 1)
       = if datetime.date_ge (datetime.mkdate 2024 8 25) (datetime.date_of y0)
         then Ok AUTUMN
         else if datetime.date_lt (datetime.mkdate 2024 8 25)
                                  (datetime.date_of y1)
         then Ok SPRING
         else Raise SemesterTypeNotFoundError.
Proof.
  apply (proj1 (C4_get_semester_type (datetime.mkdate 2024 8 25)
                                     (datetime.mkdate 2023 10 1))).
  simpl. lia.
Defined.

(** C4 as stated fails on the last day of the calendar: the date is on or
    after the start of academic year 9999, and the call raises ValueError. *)
Lemma C4_counterexample :
  exists y0,
    get_start_datetime_of_academic_year 9999 = Ok y0
    /\ datetime.date_ge (datetime.mkdate 9999 12 31) (datetime.date_of y0)
       = true
    /\ get_semester_type (Some (datetime.mkdate 9999 12 31))
                         (datetime.mkdate 2023 10 1)
       = Raise ValueError.
Proof. eexists. repeat split; vm_compute; reflexivity. Qed.

(** *** The generator monad *)

Lemma gen_eta {A} (g : Gen A) : mkGen (yielded g) (outcome g) = g.
Proof. destruct g; reflexivity. Qed.

Lemma gen_bind_lift_Ok {A B} (a : A) (f : A -> Gen B) : lift (Ok a) ≫= f = f a.
Proof. unfold mbind, Gen_bind, lift. simpl. apply gen_eta. Qed.

Lemma gen_bind_lift_Raise {A B} e (f : A -> Gen B) :
  lift (Raise e) ≫= f = mkGen [] (Raise e).
Proof. reflexivity. Qed.

Lemma gen_bind_yielded {A B} (m : Gen A) (f : A -> Gen B) :
  yielded (m ≫= f)
  = (yielded m ++ match outcome m with
                  | Ok a => yielded (f a)
                  | Raise _ => []
                  end)%list.
Proof.
  unfold mbind, Gen_bind. destruct (outcome m); simpl;
    [reflexivity | symmetry; apply app_nil_r].
Qed.

Lemma gen_bind_outcome {A B} (m : Gen A) (f : A -> Gen B) :
  outcome (m ≫= f) = match outcome m with
                     | Ok a => outcome (f a)
                     | Raise e => Raise e
                     end.
Proof. unfold mbind, Gen_bind. destruct (outcome m); reflexivity. Qed.

(** *** Rows *)

Lemma header_weekday_plain wd row cl :
  row_class row = Some cl -> "dayheader" ∉ cl -> header_weekday wd row = Ok wd.
Proof.
  intros Hc Hn. unfold header_weekday. rewrite Hc. cbn.
  destruct (decide ("dayheader" ∈ cl)); [contradiction | reflexivity].
Qed.

Lemma header_weekday_header wd row cl name k :
  row_class row = Some cl -> "dayheader" ∈ cl ->
  row_columns row !! 0%nat = Some name -> list_index name WEEKDAY_NAMES = Ok k ->
  header_weekday wd row = Ok k.
Proof.
  intros Hc Hin H0 Hk. unfold header_weekday. rewrite Hc. cbn.
  destruct (decide ("dayheader" ∈ cl)); [|contradiction].
  unfold getitem. rewrite H0. cbn. exact Hk.
Qed.

Lemma process_row_noinfo {TXT : PyText} self wd row cl k :
  row_class row = Some cl -> "noinfo" ∈ cl -> header_weekday wd row = Ok k ->
  process_row self wd row = mkGen [] (Ok k).
Proof.
  intros Hc Hin Hk. unfold process_row. rewrite Hk, gen_bind_lift_Ok, Hc.
  cbn [from_option]. rewrite gen_bind_lift_Ok.
  destruct (decide ("noinfo" ∈ cl)); [reflexivity | contradiction].
Qed.

Lemma process_row_data {TXT : PyText} self wd row cl k :
  row_class row = Some cl -> "noinfo" ∉ cl -> header_weekday wd row = Ok k ->
  process_row self wd row = (data_row self k row ≫= fun _ => mret k).
Proof.
  intros Hc Hin Hk. unfold process_row. rewrite Hk, gen_bind_lift_Ok, Hc.
  cbn [from_option]. rewrite gen_bind_lift_Ok.
  destruct (decide ("noinfo" ∈ cl)); [contradiction | reflexivity].
Qed.

Lemma process_row_yielded_noinfo {TXT : PyText} self wd row cl :
  row_class row = Some cl -> "noinfo" ∈ cl ->
  yielded (process_row self wd row) = [].
Proof.
  intros Hc Hin. unfold process_row.
  destruct (header_weekday wd row) as [k|e] eqn:Hk; [|reflexivity].
  rewrite gen_bind_lift_Ok, Hc. cbn [from_option]. rewrite gen_bind_lift_Ok.
  destruct (decide ("noinfo" ∈ cl)); [reflexivity | contradiction].
Qed.

(** C8: a row with [noinfo] in its class list yields no event, whatever its
    cells hold; when [dayheader] is in the list too and the first cell is the
    [k]-th weekday name, the row still sets [weekday_index] to [k] for the
    rows after it; with no [dayheader] the index is kept. *)
Theorem C8_noinfo_row {TXT : PyText} (self : Schedule) (wd : Z) (row : Row) (cl : list string) :
  row_class row = Some cl -> "noinfo" ∈ cl ->
  yielded (process_row self wd row) = []
  /\ (forall name k,
        "dayheader" ∈ cl ->
        row_columns row !! 0%nat = Some name ->
        list_index name WEEKDAY_NAMES = Ok k ->
        process_row self wd row = mkGen [] (Ok k)
        /\ forall rest,
             for_each (process_row self) wd (row :: rest)
             = for_each (process_row self) k rest)
  /\ ("dayheader" ∉ cl ->
      process_row self wd row = mkGen [] (Ok wd)
      /\ forall rest,
           for_each (process_row self) wd (row :: rest)
           = for_each (process_row self) wd rest).
Proof.
  intros Hc Hin. split; [eapply process_row_yielded_noinfo; eauto|].
  split.
  - intros name k Hh H0 Hk.
    assert (process_row self wd row = mkGen [] (Ok k)) as E
      by (eapply process_row_noinfo; eauto using header_weekday_header).
    split; [exact E|]. intros rest. cbn [for_each]. rewrite E.
    apply (gen_bind_lift_Ok k).
  - intros Hh.
    assert (process_row self wd row = mkGen [] (Ok wd)) as E
      by (eapply process_row_noinfo; eauto using header_weekday_plain).
    split; [exact E|]. intros rest. cbn [for_each]. rewrite E.
    apply (gen_bind_lift_Ok wd).
Qed.

Lemma C8_noinfo_row_witness :
  yielded (process_row schedule_2023 0
             (mkRow (Some ["noinfo"; "dayheader"]) ["Вторник"])) = []
  /\ forall rest,
       for_each (process_row schedule_2023) 0
                (mkRow (Some ["noinfo"; "dayheader"]) ["Вторник"] :: rest)
       = for_each (process_row schedule_2023) 1 rest.
Proof.
  destruct (C8_noinfo_row schedule_2023 0
              (mkRow (Some ["noinfo"; "dayheader"]) ["Вторник"])
              ["noinfo"; "dayheader"])
    as (Hy & Hh & _).
  - reflexivity.
  - apply list_elem_of_In. simpl. auto.
  - split; [exact Hy|].
    apply (Hh "Вторник" 1).
    + apply list_elem_of_In. simpl. auto.
    + reflexivity.
    + vm_compute. reflexivity.
Defined.

Lemma schedule_2023_init : Schedule_init 1 2575 2023 = Ok schedule_2023.
Proof. vm_compute. reflexivity. Qed.

(** C1, as amended: a row whose class list contains [dayheader] and not
    [noinfo] sets [weekday_index] from its first cell and is then parsed as a
    data row like any other: it yields what its cells yield under the new
    index; a row with neither class is parsed under the index in force. *)
Theorem C1_dayheader_row_is_data_row {TXT : PyText}
    (self : Schedule) (wd : Z) (row : Row) (cl : list string) :
  row_class row = Some cl -> "noinfo" ∉ cl ->
  (forall name k,
     "dayheader" ∈ cl ->
     row_columns row !! 0%nat = Some name ->
     list_index name WEEKDAY_NAMES = Ok k ->
     yielded (process_row self wd row) = yielded (data_row self k row)
     /\ outcome (process_row self wd row)
        = (fun _ => k) <$> outcome (data_row self k row))
  /\ ("dayheader" ∉ cl ->
      yielded (process_row self wd row) = yielded (data_row self wd row)
      /\ outcome (process_row self wd row)
         = (fun _ => wd) <$> outcome (data_row self wd row)).
Proof.
  intros Hc Hn.
  assert (forall k, header_weekday wd row = Ok k ->
            yielded (process_row self wd row) = yielded (data_row self k row)
            /\ outcome (process_row self wd row)
               = (fun _ => k) <$> outcome (data_row self k row)) as Hgen.
  { intros k Hk. rewrite (process_row_data self wd row cl k Hc Hn Hk).
    rewrite gen_bind_yielded, gen_bind_outcome.
    destruct (outcome (data_row self k row)); simpl;
      rewrite ?app_nil_r; auto. }
  split.
  - intros name k Hh H0 Hk. apply Hgen. eapply header_weekday_header; eauto.
  - intros Hh. apply Hgen. eapply header_weekday_plain; eauto.
Qed.

Lemma C1_dayheader_row_is_data_row_witness :
  let row := mkRow (Some ["dayheader"])
               ["Понедельник"; "08:00-09:20"; "1"; "name0"; "event_type0";
                "fio0"; "location0"; "comment0"] in
  yielded (process_row schedule_2023 3 row)
  = yielded (data_row schedule_2023 0 row)
  /\ outcome (process_row schedule_2023 3 row)
     = (fun _ => 0) <$> outcome (data_row schedule_2023 0 row).
Proof.
  intros row.
  refine (proj1 (C1_dayheader_row_is_data_row schedule_2023 3 row ["dayheader"]
                   _ _) "Понедельник" 0 _ _ _).
  - reflexivity.
  - intros H. apply list_elem_of_In in H. simpl in H.
    destruct H as [H|[]]. discriminate H.
  - apply list_elem_of_In. simpl. auto.
  - reflexivity.
  - vm_compute. reflexivity.
Defined.

(** C1 as stated fails: the first row of the repository's test table has
    [dayheader] and not [noinfo] in its class list, and an Event is emitted
    from it. *)
Lemma C1_counterexample :
  let row := mkRow (Some ["dayheader"])
               ["Понедельник"; "08:00-09:20"; "1"; "name0"; "event_type0";
                "fio0"; "location0"; "comment0"] in
  process_row schedule_2023 0 row
  = mkGen [mkEvent "name0" "event_type0" "fio0" "location0" "comment0"
             (local_datetime 2023 8 28 8 0) (local_datetime 2023 8 28 9 20)]
          (Ok 0).
Proof. vm_compute. reflexivity. Qed.

(** *** [list.index] *)

Lemma list_index_Ok `{EqDecision A} (x : A) (l : list A) (i : Z) :
  list_index x l = Ok i <->
  0 <= i /\ l !! Z.to_nat i = Some x
  /\ forall j, (j < Z.to_nat i)%nat -> l !! j <> Some x.
Proof.
  revert i. induction l as [|y l IH]; intros i; cbn [list_index].
  - split; [discriminate|]. intros (_ & H & _). discriminate H.
  - destruct (decide (y = x)) as [->|Hne].
    + split.
      * intros [= <-]. split; [lia | split; [reflexivity|]].
        intros j Hj. simpl in Hj. lia.
      * intros (Hi & Hl & Hfirst).
        destruct (Z.to_nat i) as [|k] eqn:Ek; [f_equal; lia|].
        exfalso. exact (Hfirst 0%nat ltac:(lia) eq_refl).
    + destruct (list_index x l) as [k|e] eqn:Ek; cbn [fmap Res_fmap].
      * pose proof (proj1 (IH k) eq_refl) as (Hk & Hl & Hfirst).
        split.
        -- intros [= <-]. rewrite Z2Nat.inj_succ by lia.
           split; [lia | split; [exact Hl|]].
           intros [|j] Hj; cbn; [congruence | apply Hfirst; lia].
        -- intros (Hi & Hli & Hfi). f_equal.
           destruct (Z.to_nat i) as [|n] eqn:En; [cbn in Hli; congruence|].
           cbn in Hli.
           assert (n = Z.to_nat k) as Hn.
           { destruct (Nat.lt_trichotomy n (Z.to_nat k)) as [Hlt|[Heq|Hgt]];
               [|exact Heq|].
             - exfalso. apply (Hfirst n Hlt Hli).
             - exfalso. exact (Hfi (S (Z.to_nat k)) ltac:(lia) Hl). }
           lia.
      * split; [discriminate|]. intros (Hi & Hli & Hfi). exfalso.
        destruct (Z.to_nat i) as [|n] eqn:En; [cbn in Hli; congruence|].
        cbn in Hli.
        assert (exists k, list_index x l = Ok k) as [k Hk]; [|congruence].
        clear -Hli. revert n Hli. induction l as [|z l IHl]; intros n Hn;
          [destruct n; discriminate|].
        cbn [list_index]. destruct (decide (z = x)); [eauto|].
        destruct n as [|n]; [cbn in Hn; congruence|].
        destruct (IHl n Hn) as [k ->]. cbn. eauto.
Qed.

Lemma list_index_Raise `{EqDecision A} (x : A) (l : list A) (e : Exn) :
  list_index x l = Raise e <-> e = ValueError /\ x ∉ l.
Proof.
  induction l as [|y l IH]; cbn [list_index].
  - split; [intros [= <-]; split; [reflexivity | apply not_elem_of_nil]
           | intros [-> _]; reflexivity].
  - rewrite not_elem_of_cons. destruct (decide (y = x)) as [->|Hne].
    + split; [discriminate | intros (_ & H & _); congruence].
    + destruct (list_index x l) as [k|e'] eqn:Ek; cbn [fmap Res_fmap].
      * split; [discriminate|]. intros (He & _ & Hl).
        pose proof (proj2 IH (conj He Hl)) as Habs. discriminate Habs.
      * split.
        -- intros [= <-]. destruct (proj1 IH eq_refl) as [-> Hl].
           split; [reflexivity | split; [congruence | exact Hl]].
        -- intros (-> & _ & Hl). exact (proj2 IH (conj eq_refl Hl)).
Qed.

Lemma daily_lookup_hm h m :
  0 <= h <= 23 -> 0 <= m <= 59 ->
  list_index (String.append (datetime.two_digits h)
                            (String.append ":" (datetime.two_digits m)))
             DAILY_START_TIMES
  = list_index (h, m) DAILY_START_HM.
Proof.
  intros Hh Hm.
  assert (range_all 0 24 (fun h => range_all 0 60 (daily_lookup_agrees h)) = true)
    as Hall by (vm_compute; reflexivity).
  pose proof (range_all_spec _ _ _ Hall h ltac:(lia)) as Hh'. cbv beta in Hh'.
  pose proof (range_all_spec _ _ _ Hh' m ltac:(lia)) as Hm'.
  unfold daily_lookup_agrees in Hm'. apply bool_decide_eq_true in Hm'.
  exact Hm'.
Qed.

Lemma DAILY_START_TIMES_NoDup : NoDup DAILY_START_TIMES.
Proof. apply (bool_decide_unpack _). vm_compute. exact I. Qed.

Lemma DAILY_START_HM_NoDup : NoDup DAILY_START_HM.
Proof. apply (bool_decide_unpack _). vm_compute. exact I. Qed.

Lemma list_index_NoDup `{EqDecision A} (x : A) (l : list A) (i : Z) :
  NoDup l ->
  (list_index x l = Ok i <-> 0 <= i /\ l !! Z.to_nat i = Some x).
Proof.
  intros Hnd. rewrite list_index_Ok. split; [tauto|].
  intros (Hi & Hl). repeat split; try assumption.
  intros j Hj Hlj.
  pose proof (NoDup_lookup l j (Z.to_nat i) x Hnd Hlj Hl). lia.
Qed.

Lemma get_daily_number_Ok e n :
  get_daily_number e = Ok n
  <-> list_index (datetime.strftime_HM (start_datetime e)) DAILY_START_TIMES
      = Ok (n - 1).
Proof.
  unfold get_daily_number.
  destruct (list_index _ _) as [k|err]; cbn [fmap Res_fmap]; split;
    intros [= H]; f_equal; lia.
Qed.

(** C9: the daily number is one more than the position of the start time,
    printed as HH:MM, in the list of the ten slot start times; the lookup
    fails, with ValueError, exactly when the printed time is none of the ten;
    an event that starts at 08:00 has daily number 1. *)
Theorem C9_get_daily_number (e : Event) :
  let hm := datetime.strftime_HM (start_datetime e) in
  DAILY_START_TIMES
  = ["08:00"; "09:35"; "11:35"; "13:10"; "15:10";
     "16:45"; "18:20"; "19:55"; "21:25"; "22:55"]
  /\ (forall n,
        get_daily_number e = Ok n
        <-> 1 <= n <= 10 /\ DAILY_START_TIMES !! Z.to_nat (n - 1) = Some hm)
  /\ (forall err,
        get_daily_number e = Raise err
        <-> err = ValueError /\ hm ∉ DAILY_START_TIMES)
  /\ (time_valid (start_datetime e) ->
      forall n,
        get_daily_number e = Ok n
        <-> 1 <= n
            /\ DAILY_START_HM !! Z.to_nat (n - 1)
               = Some (datetime.hour (start_datetime e),
                       datetime.minute (start_datetime e)))
  /\ (datetime.hour (start_datetime e) = 8 ->
      datetime.minute (start_datetime e) = 0 ->
      get_daily_number e = Ok 1).
Proof.
  intros hm. split; [reflexivity|]. split; [|split; [|split]].
  - intros n. rewrite get_daily_number_Ok.
    rewrite (list_index_NoDup _ _ _ DAILY_START_TIMES_NoDup). fold hm.
    split.
    + intros [Hn Hl]. split; [|exact Hl].
      apply lookup_lt_Some in Hl. simpl in Hl. lia.
    + intros [Hn Hl]. split; [lia | exact Hl].
  - intros err. unfold get_daily_number. fold hm.
    rewrite <- list_index_Raise.
    destruct (list_index hm DAILY_START_TIMES); cbn [fmap Res_fmap];
      split; congruence.
  - intros Hv n. apply time_valid_spec in Hv as (Hh & Hm & _).
    rewrite get_daily_number_Ok. unfold datetime.strftime_HM.
    rewrite (daily_lookup_hm _ _ Hh Hm).
    rewrite (list_index_NoDup _ _ _ DAILY_START_HM_NoDup).
    split; intros [? ?]; split; try assumption; lia.
  - intros Hh Hm. unfold get_daily_number, datetime.strftime_HM.
    rewrite Hh, Hm. reflexivity.
Qed.

Lemma C9_get_daily_number_witness :
  get_daily_number
    (mkEvent "name0" "event_type0" "fio0" "location0" "comment0"
             (local_datetime 2023 8 28 8 0) (local_datetime 2023 8 28 9 20))
  = Ok 1.
Proof.
  apply (proj2 (proj2 (proj2 (proj2
    (C9_get_daily_number
       (mkEvent "name0" "event_type0" "fio0" "location0" "comment0"
                (local_datetime 2023 8 28 8 0)
                (local_datetime 2023 8 28 9 20))))))); reflexivity.
Defined.

(** *** The semester type of a call and the request *)

Lemma SemesterType_of_int_value st :
  SemesterType_of_int (SemesterType_value st) = Ok st.
Proof. destruct st; reflexivity. Qed.

Lemma SemesterType_of_int_invalid v :
  v <> 1 -> v <> 2 -> SemesterType_of_int v = Raise ValueError.
Proof.
  intros H1 H2. unfold SemesterType_of_int.
  destruct (Z.eqb_spec v 1); [contradiction|].
  destruct (Z.eqb_spec v 2); [contradiction|]. reflexivity.
Qed.

Lemma resolve_semester_type_default today :
  resolve_semester_type None today = get_semester_type None today.
Proof.
  unfold resolve_semester_type.
  destruct (get_semester_type None today) as [st|e]; cbn; [|reflexivity].
  apply SemesterType_of_int_value.
Qed.

Lemma resolve_semester_type_zero today :
  resolve_semester_type (Some 0) today = resolve_semester_type None today.
Proof. reflexivity. Qed.

Lemma resolve_semester_type_invalid v today :
  v <> 0 -> v <> 1 -> v <> 2 ->
  resolve_semester_type (Some v) today = Raise ValueError.
Proof.
  intros H0 H1 H2. unfold resolve_semester_type.
  destruct (Z.eqb_spec v 0); [contradiction|]. cbn.
  apply SemesterType_of_int_invalid; assumption.
Qed.

(** Once the semester type is known, [get_events] is the request followed
    by the loop over the rows of the answer. *)
Lemma get_events_resolved {TXT : PyText} self semester_type session base_url
      request_timeout today st :
  resolve_semester_type semester_type today = Ok st ->
  get_events self semester_type session base_url request_timeout today
  = (response ← lift (session (mkRequest base_url API_PATH
                                         (fetch_params self st)
                                         request_timeout));
     _ ← lift (raise_for_status response);
     _ ← for_each (process_row self) 0 (tbody_rows response);
     mret tt).
Proof.
  intros Hst. unfold get_events. rewrite Hst, gen_bind_lift_Ok. reflexivity.
Qed.

Lemma get_events_session_Raise {TXT : PyText} self semester_type session
      base_url request_timeout today st e :
  resolve_semester_type semester_type today = Ok st ->
  session (mkRequest base_url API_PATH (fetch_params self st) request_timeout)
  = Raise e ->
  get_events self semester_type session base_url request_timeout today
  = mkGen [] (Raise e).
Proof.
  intros Hst Hs. rewrite (get_events_resolved _ _ _ _ _ _ st Hst), Hs.
  reflexivity.
Qed.

Lemma raise_for_status_Ok response :
  ~ (400 <= status_code response < 600) -> raise_for_status response = Ok tt.
Proof.
  intros Hs. unfold raise_for_status.
  destruct (Z.leb_spec 400 (status_code response));
    destruct (Z.ltb_spec (status_code response) 600); try reflexivity. lia.
Qed.

Lemma get_events_session_Ok {TXT : PyText} self semester_type session
      base_url request_timeout today st response :
  resolve_semester_type semester_type today = Ok st ->
  session (mkRequest base_url API_PATH (fetch_params self st) request_timeout)
  = Ok response ->
  ~ (400 <= status_code response < 600) ->
  yielded (get_events self semester_type session base_url request_timeout
                      today)
  = yielded (for_each (process_row self) 0 (tbody_rows response))
  /\ outcome (get_events self semester_type session base_url request_timeout
                         today)
     = (fun _ => tt)
         <$> outcome (for_each (process_row self) 0 (tbody_rows response)).
Proof.
  intros Hst Hs Hstatus.
  rewrite (get_events_resolved _ _ _ _ _ _ st Hst), Hs, gen_bind_lift_Ok,
    (raise_for_status_Ok _ Hstatus), gen_bind_lift_Ok, gen_bind_yielded,
    gen_bind_outcome.
  destruct (outcome (for_each _ _ _)); cbn; rewrite ?app_nil_r; auto.
Qed.

(** C10: [get_events] called with the integer 0 as [semester_type] raises no
    invalid-enum error; 0 is falsy, so the call is the call without a
    semester type: for a current date of the calendar up to year 9998 that
    date is classified, the request is sent with the classification found
    (an error of the transport at that request is the generator's error, and
    an answer with a good status is read row by row), and an empty table
    ends the generator normally.  Every other integer outside {1, 2}, such
    as 3, ends the generator with ValueError whatever the transport would
    answer. *)
Theorem C10_semester_type_zero {TXT : PyText}
    (self : Schedule) (session : Session) (base_url : string)
    (request_timeout : Z) (today : datetime.date) :
  get_events self (Some 0) session base_url request_timeout today
  = get_events self None session base_url request_timeout today
  /\ resolve_semester_type (Some 0) today = get_semester_type None today
  /\ (date_valid today -> datetime.year today <= 9998 ->
      exists st,
        get_semester_type None today = Ok st
        /\ (forall e,
              session (mkRequest base_url API_PATH (fetch_params self st)
                                 request_timeout) = Raise e ->
              get_events self (Some 0) session base_url request_timeout today
              = mkGen [] (Raise e))
        /\ (forall response,
              session (mkRequest base_url API_PATH (fetch_params self st)
                                 request_timeout) = Ok response ->
              ~ (400 <= status_code response < 600) ->
              yielded (get_events self (Some 0) session base_url
                                  request_timeout today)
              = yielded (for_each (process_row self) 0 (tbody_rows response))
              /\ outcome (get_events self (Some 0) session base_url
                                     request_timeout today)
                 = (fun _ => tt)
                     <$> outcome (for_each (process_row self) 0
                                           (tbody_rows response)))
        /\ get_events self (Some 0) (fun _ => Ok (mkResponse 200 []))
                      base_url request_timeout today
           = mkGen [] (Ok tt))
  /\ (forall v, v <> 0 -> v <> 1 -> v <> 2 ->
        resolve_semester_type (Some v) today = Raise ValueError
        /\ get_events self (Some v) session base_url request_timeout today
           = mkGen [] (Raise ValueError))
  /\ get_events self (Some 3) session base_url request_timeout today
     = mkGen [] (Raise ValueError).
Proof.
  assert (forall v, v <> 0 -> v <> 1 -> v <> 2 ->
            resolve_semester_type (Some v) today = Raise ValueError
            /\ get_events self (Some v) session base_url request_timeout today
               = mkGen [] (Raise ValueError)) as Hbad.
  { intros v H0 H1 H2.
    pose proof (resolve_semester_type_invalid v today H0 H1 H2) as E.
    split; [exact E|]. unfold get_events. rewrite E. reflexivity. }
  split; [reflexivity|]. split; [|split; [|split]].
  - rewrite resolve_semester_type_zero. apply resolve_semester_type_default.
  - intros Hv Hy.
    assert (exists st, get_semester_type None today = Ok st) as [st Hst].
    { destruct (get_semester_type_total today today Hv Hy) as [E|E];
        eexists; exact E. }
    assert (resolve_semester_type (Some 0) today = Ok st) as Hres
      by (rewrite resolve_semester_type_zero, resolve_semester_type_default;
          exact Hst).
    exists st. split; [exact Hst|]. split; [|split].
    + intros e He. exact (get_events_session_Raise _ _ _ _ _ _ st e Hres He).
    + intros response Hs Hstatus.
      exact (get_events_session_Ok _ _ _ _ _ _ st response Hres Hs Hstatus).
    + rewrite (get_events_resolved _ _ _ _ _ _ st Hres). reflexivity.
  - exact Hbad.
  - apply Hbad; lia.
Qed.

Lemma C10_semester_type_zero_witness :
  exists st,
    get_semester_type None (datetime.mkdate 2024 8 25) = Ok st
    /\ (forall e,
          test_session (mkRequest DEFAULT_BASE_URL API_PATH
                                  (fetch_params schedule_2023 st) 60)
          = Raise e ->
          get_events schedule_2023 (Some 0) test_session DEFAULT_BASE_URL 60
                     (datetime.mkdate 2024 8 25)
          = mkGen [] (Raise e))
    /\ (forall response,
          test_session (mkRequest DEFAULT_BASE_URL API_PATH
                                  (fetch_params schedule_2023 st) 60)
          = Ok response ->
          ~ (400 <= status_code response < 600) ->
          yielded (get_events schedule_2023 (Some 0) test_session
                              DEFAULT_BASE_URL 60 (datetime.mkdate 2024 8 25))
          = yielded (for_each (process_row schedule_2023) 0
                              (tbody_rows response))
          /\ outcome (get_events schedule_2023 (Some 0) test_session
                                 DEFAULT_BASE_URL 60
                                 (datetime.mkdate 2024 8 25))
             = (fun _ => tt)
                 <$> outcome (for_each (process_row schedule_2023) 0
                                       (tbody_rows response)))
    /\ get_events schedule_2023 (Some 0) (fun _ => Ok (mkResponse 200 []))
                  DEFAULT_BASE_URL 60 (datetime.mkdate 2024 8 25)
       = mkGen [] (Ok tt).
Proof.
  apply (proj1 (proj2 (proj2
    (C10_semester_type_zero schedule_2023 test_session DEFAULT_BASE_URL 60
                            (datetime.mkdate 2024 8 25))))).
  - reflexivity.
  - simpl. lia.
Defined.

Lemma last_chars_two_digits y :
  10 <= y <= 9999 -> pystr.last_chars 2 (pystr.of_int y) = two_digit_suffix y.
Proof.
  intros Hy.
  assert (range_all 10 (Z.to_nat 9990) last_chars_agree = true) as Hall
    by (vm_compute; reflexivity).
  pose proof (range_all_spec _ _ _ Hall y ltac:(lia)) as H.
  unfold last_chars_agree in H. apply bool_decide_eq_true in H. exact H.
Qed.

Lemma last_chars_one_digit y :
  0 <= y <= 9 ->
  pystr.last_chars 2 (pystr.of_int y) = String (digit_char y) "".
Proof.
  intros Hy.
  assert (y = 0 \/ y = 1 \/ y = 2 \/ y = 3 \/ y = 4 \/ y = 5 \/ y = 6
          \/ y = 7 \/ y = 8 \/ y = 9) as H by lia.
  repeat (destruct H as [->|H]; [reflexivity|]). subst y. reflexivity.
Qed.

Lemma fetch_params_semestr_id self st :
  fetch_params self st !! "schedule_semestr_id"
  = Some (PStr (schedule_semestr_id (academic_year self) st)).
Proof.
  unfold fetch_params.
  destruct (participant_type self);
    repeat (rewrite lookup_insert_ne by discriminate);
    apply lookup_insert_eq.
Qed.

Lemma get_events_request {TXT : PyText} self semester_type session session'
      base_url request_timeout today st :
  resolve_semester_type semester_type today = Ok st ->
  session (mkRequest base_url API_PATH (fetch_params self st) request_timeout)
  = session' (mkRequest base_url API_PATH (fetch_params self st)
                        request_timeout) ->
  get_events self semester_type session base_url request_timeout today
  = get_events self semester_type session' base_url request_timeout today.
Proof.
  intros Hst Hs. unfold get_events. rewrite Hst, !gen_bind_lift_Ok, Hs.
  reflexivity.
Qed.

(** C6, as amended: [get_events] sends a request whose [schedule_semestr_id]
    parameter is the string made of the last two characters of the decimal
    academic year followed by the decimal semester code: a transport that
    refuses every request carrying that value makes the generator end with
    the refusal, and only the answers to requests carrying it matter.  From
    year 10 on the two characters are the last two digits of the year; for
    the years 1 to 9 there is one character only, the year itself.  For 2023
    and AUTUMN the value is "231", not the number 23 + 1. *)
Theorem C6_schedule_semestr_id {TXT : PyText}
    (self : Schedule) (st : SemesterType) :
  fetch_params self st !! "schedule_semestr_id"
  = Some (PStr (String.append
                  (pystr.last_chars 2 (pystr.of_int (academic_year self)))
                  (pystr.of_int (SemesterType_value st))))
  /\ (forall semester_type session base_url request_timeout today e,
        resolve_semester_type semester_type today = Ok st ->
        (forall req,
           req_params req !! "schedule_semestr_id"
           = Some (PStr (String.append
                           (pystr.last_chars
                              2 (pystr.of_int (academic_year self)))
                           (pystr.of_int (SemesterType_value st)))) ->
           session req = Raise e) ->
        get_events self semester_type session base_url request_timeout today
        = mkGen [] (Raise e))
  /\ (forall semester_type session session' base_url request_timeout today,
        resolve_semester_type semester_type today = Ok st ->
        (forall req,
           req_params req !! "schedule_semestr_id"
           = Some (PStr (String.append
                           (pystr.last_chars
                              2 (pystr.of_int (academic_year self)))
                           (pystr.of_int (SemesterType_value st)))) ->
           session req = session' req) ->
        get_events self semester_type session base_url request_timeout today
        = get_events self semester_type session' base_url request_timeout
                     today)
  /\ (10 <= academic_year self <= 9999 ->
      schedule_semestr_id (academic_year self) st
      = String (digit_char (academic_year self / 10 mod 10))
          (String (digit_char (academic_year self mod 10))
             (String (digit_char (SemesterType_value st)) "")))
  /\ (1 <= academic_year self <= 9 ->
      schedule_semestr_id (academic_year self) st
      = String (digit_char (academic_year self))
          (String (digit_char (SemesterType_value st)) ""))
  /\ (academic_year self = 2023 ->
      fetch_params self AUTUMN !! "schedule_semestr_id" = Some (PStr "231")
      /\ schedule_semestr_id (academic_year self) AUTUMN
         <> pystr.of_int (23 + SemesterType_value AUTUMN)).
Proof.
  split; [apply fetch_params_semestr_id|].
  split; [|split; [|split; [|split]]].
  - intros semester_type session base_url request_timeout today e Hst Hrefuse.
    apply (get_events_session_Raise _ _ _ _ _ _ st e Hst).
    apply Hrefuse. cbn [req_params]. apply fetch_params_semestr_id.
  - intros semester_type session session' base_url request_timeout today
           Hst Hagree.
    apply (get_events_request _ _ _ _ _ _ _ st Hst).
    apply Hagree. cbn [req_params]. apply fetch_params_semestr_id.
  - intros Hy. unfold schedule_semestr_id.
    rewrite (last_chars_two_digits _ Hy). destruct st; reflexivity.
  - intros Hy. unfold schedule_semestr_id.
    rewrite (last_chars_one_digit (academic_year self)) by lia.
    destruct st; reflexivity.
  - intros Hy. rewrite fetch_params_semestr_id, Hy.
    split; [reflexivity | discriminate].
Qed.

Lemma C6_schedule_semestr_id_witness :
  get_events schedule_2023 (Some 1)
             (fun req =>
                if decide (req_params req !! "schedule_semestr_id"
                           = Some (PStr "231"))
                then Raise RequestException
                else Ok (mkResponse 200 test_rows))
             DEFAULT_BASE_URL 60 (datetime.mkdate 2023 10 1)
  = mkGen [] (Raise RequestException).
Proof.
  apply (proj1 (proj2 (C6_schedule_semestr_id schedule_2023 AUTUMN))).
  - reflexivity.
  - intros req Hreq. change (String.append _ _) with "231" in Hreq.
    destruct (decide (req_params req !! "schedule_semestr_id"
                      = Some (PStr "231"))); [reflexivity | contradiction].
Defined.

(** C6 as stated fails for the years 1 to 9: the schedule of year 5 sends
    "51" in the autumn, one digit of the year and the code, where the last
    two digits of the year and the code would be "051". *)
Lemma C6_counterexample :
  exists self,
    Schedule_init 1 2575 5 = Ok self
    /\ fetch_params self AUTUMN !! "schedule_semestr_id" = Some (PStr "51")
    /\ get_events self (Some 1)
                  (fun req =>
                     if decide (req_params req !! "schedule_semestr_id"
                                = Some (PStr "51"))
                     then Raise RequestException
                     else Ok (mkResponse 200 []))
                  DEFAULT_BASE_URL 60 (datetime.mkdate 2023 10 1)
       = mkGen [] (Raise RequestException)
    /\ "51" <> String.append (two_digit_suffix 5) "1".
Proof.
  eexists. split; [vm_compute; reflexivity|].
  split; [vm_compute; reflexivity|].
  split; [vm_compute; reflexivity | discriminate].
Qed.

(** *** Data rows *)

Lemma getitem_Ok {A} (l : list A) i x : getitem l i = Ok x <-> l !! i = Some x.
Proof.
  unfold getitem. destruct (l !! i); split; congruence.
Qed.

Lemma valid_in_calendar x : valid x -> in_calendar (instant_us x).
Proof.
  intros [Hd Ht]. apply time_valid_spec in Ht.
  pose proof (toordinal_range _ Hd).
  unfold in_calendar, instant_us, DAY_US, datetime.MAXORDINAL, datetime.toordinal in *.
  lia.
Qed.

Lemma add_valid self other r : datetime.add self other = Ok r -> valid r.
Proof. intros H. apply add_spec in H as (_ & ? & _ & ? & _). split; assumption. Qed.

Lemma time_timedelta_Ok time td :
  time_timedelta time = Ok td ->
  exists h m, time !! 0%nat = Some h /\ time !! 1%nat = Some m
              /\ timedelta_us td = (h * 3600 + m * 60) * 1000000.
Proof.
  unfold time_timedelta. intros H.
  apply Res_bind_Ok in H as (h & Hh & H).
  apply Res_bind_Ok in H as (m & Hm & H).
  apply getitem_Ok in Hh, Hm. exists h, m. repeat split; try assumption.
  apply timedelta_new_spec in H as [_ ->]. lia.
Qed.

Lemma week_event_Ok {TXT : PyText} self cols wd std etd tok ev :
  week_event self cols wd std etd tok = Ok ev ->
  exists w,
    to_int tok = Ok w
    /\ cols !! 3%nat = Some (title ev) /\ cols !! 4%nat = Some (event_type ev)
    /\ cols !! 5%nat = Some (participant ev)
    /\ cols !! 6%nat = Some (location ev) /\ cols !! 7%nat = Some (comment ev)
    /\ valid (start_datetime ev) /\ valid (end_datetime ev)
    /\ datetime.tzinfo (start_datetime ev)
       = datetime.tzinfo (start_datetime_of_academic_year self)
    /\ datetime.tzinfo (end_datetime ev)
       = datetime.tzinfo (start_datetime_of_academic_year self)
    /\ instant_us (start_datetime ev)
       = instant_us (start_datetime_of_academic_year self)
         + week_offset_us w wd + timedelta_us std
    /\ instant_us (end_datetime ev)
       = instant_us (start_datetime_of_academic_year self)
         + week_offset_us w wd + timedelta_us etd.
Proof.
  unfold week_event. intros H.
  apply Res_bind_Ok in H as (w & Hw & H).
  apply Res_bind_Ok in H as (wtd & Hwtd & H).
  apply Res_bind_Ok in H as (sw & Hsw & H).
  apply Res_bind_Ok in H as (sd & Hsd & H).
  apply Res_bind_Ok in H as (ew & Hew & H).
  apply Res_bind_Ok in H as (ed & Hed & H).
  apply Res_bind_Ok in H as (c3 & H3 & H).
  apply Res_bind_Ok in H as (c4 & H4 & H).
  apply Res_bind_Ok in H as (c5 & H5 & H).
  apply Res_bind_Ok in H as (c6 & H6 & H).
  apply Res_bind_Ok in H as (c7 & H7 & H).
  injection H as <-. cbn [title event_type participant location comment
                          start_datetime end_datetime].
  apply getitem_Ok in H3, H4, H5, H6, H7.
  apply timedelta_new_spec in Hwtd as [_ Uw].
  pose proof (add_valid _ _ _ Hsd) as Vs. pose proof (add_valid _ _ _ Hed) as Ve.
  apply add_spec in Hsw as (Tsw & _ & _ & _ & Isw).
  apply add_spec in Hsd as (Tsd & _ & _ & _ & Isd).
  apply add_spec in Hew as (Tew & _ & _ & _ & Iew).
  apply add_spec in Hed as (Ted & _ & _ & _ & Ied).
  exists w. repeat split; try assumption; try apply Vs; try apply Ve;
    try congruence; unfold week_offset_us, DAY_US; lia.
Qed.

Lemma week_event_total {TXT : PyText} self cols wd std etd tok w c3 c4 c5 c6 c7 :
  valid (start_datetime_of_academic_year self) ->
  to_int tok = Ok w ->
  cols !! 3%nat = Some c3 -> cols !! 4%nat = Some c4 ->
  cols !! 5%nat = Some c5 -> cols !! 6%nat = Some c6 ->
  cols !! 7%nat = Some c7 ->
  let base := instant_us (start_datetime_of_academic_year self) in
  in_calendar (base + week_offset_us w wd) ->
  in_calendar (base + week_offset_us w wd + timedelta_us std) ->
  in_calendar (base + week_offset_us w wd + timedelta_us etd) ->
  exists ev, week_event self cols wd std etd tok = Ok ev.
Proof.
  intros Hv Hw H3 H4 H5 H6 H7 base Cw Cs Ce. subst base.
  pose proof (valid_in_calendar _ Hv) as Cb.
  unfold week_event. rewrite Hw. cbn [mbind Res_bind].
  destruct (datetime.timedelta_new (w - 1) wd 0 0 0 0) as [wtd|e] eqn:Hwtd.
  2: { exfalso. unfold datetime.timedelta_new in Hwtd. cbv zeta in Hwtd.
       change (0 * 3600 + 0 * 60 + 0 + 0 / 1000000) with 0 in Hwtd.
       change (0 / 86400) with 0 in Hwtd.
       destruct (Z.ltb_spec 999999999 (Z.abs ((w - 1) * 7 + wd + 0)))
         as [Hov|]; [|discriminate].
       unfold in_calendar, week_offset_us, DAY_US, datetime.MAXORDINAL in *.
       lia. }
  cbn [mbind Res_bind].
  pose proof (timedelta_new_spec _ _ _ _ _ _ _ Hwtd) as [_ Uw].
  assert (timedelta_us wtd = week_offset_us w wd) as Uw'
    by (rewrite Uw; unfold week_offset_us, DAY_US; lia).
  destruct (add_ok (start_datetime_of_academic_year self) wtd Hv) as [sw Hsw];
    [rewrite Uw'; exact Cw|].
  rewrite Hsw. cbn [mbind Res_bind].
  pose proof (add_valid _ _ _ Hsw) as Vsw.
  pose proof (add_spec _ _ _ Hsw) as (_ & _ & _ & _ & Isw).
  destruct (add_ok sw std Vsw) as [sd Hsd]; [rewrite Isw, Uw'; exact Cs|].
  rewrite Hsd. cbn [mbind Res_bind].
  destruct (add_ok sw etd Vsw) as [ed Hed]; [rewrite Isw, Uw'; exact Ce|].
  rewrite Hed. cbn [mbind Res_bind].
  unfold getitem. rewrite H3, H4, H5, H6, H7. cbn [mbind Res_bind]. eauto.
Qed.

Lemma weeks_loop_cons f tok toks :
  weeks_loop f (tok :: toks)
  = match f tok with
    | Ok ev => mkGen (ev :: yielded (weeks_loop f toks))
                     (outcome (weeks_loop f toks))
    | Raise e => mkGen [] (Raise e)
    end.
Proof.
  unfold weeks_loop. cbn [for_each]. destruct (f tok) as [ev|e]; reflexivity.
Qed.

Lemma weeks_loop_yielded f toks e :
  e ∈ yielded (weeks_loop f toks) -> exists tok, tok ∈ toks /\ f tok = Ok e.
Proof.
  induction toks as [|tok toks IH].
  - intros H. cbn in H. apply elem_of_nil in H. destruct H.
  - rewrite weeks_loop_cons. destruct (f tok) as [ev|err] eqn:Ef; cbn.
    + intros H. apply elem_of_cons in H as [->|H].
      * exists tok. split; [apply list_elem_of_here | exact Ef].
      * destruct (IH H) as (t & Ht & Hf). exists t.
        split; [apply list_elem_of_further; exact Ht | exact Hf].
    + intros H. apply elem_of_nil in H. destruct H.
Qed.

Lemma weeks_loop_all f toks evs :
  Forall2 (fun tok ev => f tok = Ok ev) toks evs ->
  weeks_loop f toks = mkGen evs (Ok tt).
Proof.
  induction 1 as [|tok ev toks evs Hf _ IH]; [reflexivity|].
  rewrite weeks_loop_cons, Hf, IH. reflexivity.
Qed.

Lemma data_row_unfold {TXT : PyText} self wd row c1 c2 st et std etd :
  row_columns row !! 1%nat = Some c1 ->
  parse_times c1 = Ok (st, et) ->
  time_timedelta st = Ok std -> time_timedelta et = Ok etd ->
  row_columns row !! 2%nat = Some c2 ->
  data_row self wd row
  = weeks_loop (week_event self (row_columns row) wd std etd)
               (split_blank c2).
Proof.
  intros H1 Hp Hs He H2. unfold data_row, getitem.
  rewrite H1. cbn [mbind Res_bind]. rewrite Hp, gen_bind_lift_Ok.
  cbn [fst snd]. rewrite Hs, gen_bind_lift_Ok, He, gen_bind_lift_Ok, H2.
  cbn [fmap Res_fmap]. rewrite gen_bind_lift_Ok. reflexivity.
Qed.

Lemma data_row_yielded {TXT : PyText} self wd row e :
  e ∈ yielded (data_row self wd row) ->
  exists c1 st et std etd c2 tok,
    row_columns row !! 1%nat = Some c1
    /\ parse_times c1 = Ok (st, et)
    /\ time_timedelta st = Ok std /\ time_timedelta et = Ok etd
    /\ row_columns row !! 2%nat = Some c2
    /\ tok ∈ split_blank c2
    /\ week_event self (row_columns row) wd std etd tok = Ok e.
Proof.
  intros H.
  destruct (row_columns row !! 1%nat) as [c1|] eqn:H1.
  2: { unfold data_row, getitem in H. rewrite H1 in H. cbn in H.
       apply elem_of_nil in H. destruct H. }
  destruct (parse_times c1) as [[st et]|err] eqn:Hp.
  2: { unfold data_row, getitem in H. rewrite H1 in H.
       cbn [mbind Res_bind] in H. rewrite Hp in H. cbn in H.
       apply elem_of_nil in H. destruct H. }
  destruct (time_timedelta st) as [std|err] eqn:Hs.
  2: { unfold data_row, getitem in H. rewrite H1 in H.
       cbn [mbind Res_bind] in H. rewrite Hp, gen_bind_lift_Ok in H.
       cbn [fst snd] in H. rewrite Hs in H. cbn in H.
       apply elem_of_nil in H. destruct H. }
  destruct (time_timedelta et) as [etd|err] eqn:He.
  2: { unfold data_row, getitem in H. rewrite H1 in H.
       cbn [mbind Res_bind] in H. rewrite Hp, gen_bind_lift_Ok in H.
       cbn [fst snd] in H. rewrite Hs, gen_bind_lift_Ok, He in H. cbn in H.
       apply elem_of_nil in H. destruct H. }
  destruct (row_columns row !! 2%nat) as [c2|] eqn:H2.
  2: { unfold data_row, getitem in H. rewrite H1 in H.
       cbn [mbind Res_bind] in H. rewrite Hp, gen_bind_lift_Ok in H.
       cbn [fst snd] in H. rewrite Hs, gen_bind_lift_Ok, He, gen_bind_lift_Ok,
         H2 in H. cbn in H. apply elem_of_nil in H. destruct H. }
  rewrite (data_row_unfold self wd row c1 c2 st et std etd H1 Hp Hs He H2) in H.
  apply weeks_loop_yielded in H as (tok & Ht & Hf).
  exists c1, st, et, std, etd, c2, tok. auto 10.
Qed.

Lemma process_row_yielded {TXT : PyText} self wd row e :
  e ∈ yielded (process_row self wd row) ->
  exists k cl,
    row_class row = Some cl /\ ("noinfo" ∉ cl)
    /\ header_weekday wd row = Ok k
    /\ e ∈ yielded (data_row self k row).
Proof.
  intros H.
  destruct (header_weekday wd row) as [k|err] eqn:Hk.
  2: { unfold process_row in H. rewrite Hk in H. cbn in H.
       apply elem_of_nil in H. destruct H. }
  destruct (row_class row) as [cl|] eqn:Hc.
  2: { unfold header_weekday in Hk. rewrite Hc in Hk. discriminate Hk. }
  destruct (decide ("noinfo" ∈ cl)) as [Hin|Hin].
  - rewrite (process_row_yielded_noinfo self wd row cl Hc Hin) in H.
    apply elem_of_nil in H. destruct H.
  - rewrite (process_row_data self wd row cl k Hc Hin Hk) in H.
    rewrite gen_bind_yielded in H.
    destruct (outcome (data_row self k row)); cbn in H;
      rewrite app_nil_r in H; eauto 10.
Qed.

Lemma for_each_yielded {A S} (body : S -> A -> Gen S) l acc e :
  e ∈ yielded (for_each body acc l) ->
  exists x acc', x ∈ l /\ e ∈ yielded (body acc' x).
Proof.
  revert acc. induction l as [|x l IH]; intros acc H.
  - cbn in H. apply elem_of_nil in H. destruct H.
  - cbn [for_each] in H. rewrite gen_bind_yielded in H.
    apply elem_of_app in H as [H|H].
    + exists x, acc. split; [apply list_elem_of_here | exact H].
    + destruct (outcome (body acc x)) as [acc'|err].
      * destruct (IH acc' H) as (y & a & Hy & He). exists y, a.
        split; [apply list_elem_of_further; exact Hy | exact He].
      * apply elem_of_nil in H. destruct H.
Qed.

Lemma get_events_yielded {TXT : PyText} self semester_type session base_url request_timeout
      today e :
  e ∈ yielded (get_events self semester_type session base_url request_timeout
                          today) ->
  exists st response,
    resolve_semester_type semester_type today = Ok st
    /\ session (mkRequest base_url API_PATH (fetch_params self st)
                          request_timeout) = Ok response
    /\ raise_for_status response = Ok tt
    /\ e ∈ yielded (for_each (process_row self) 0 (tbody_rows response)).
Proof.
  unfold get_events. intros H.
  destruct (resolve_semester_type semester_type today) as [st|err];
    [|cbn in H; apply elem_of_nil in H; destruct H].
  rewrite gen_bind_lift_Ok in H.
  destruct (session _) as [response|err] eqn:Hs;
    [|cbn in H; apply elem_of_nil in H; destruct H].
  rewrite gen_bind_lift_Ok in H.
  destruct (raise_for_status response) as [[]|err] eqn:Hr;
    [|cbn in H; apply elem_of_nil in H; destruct H].
  rewrite gen_bind_lift_Ok in H. rewrite gen_bind_yielded in H.
  exists st, response. repeat split; try assumption.
  destruct (outcome (for_each _ _ _)); cbn in H; rewrite app_nil_r in H;
    exact H.
Qed.

(** C3, as amended: [get_events] does not compare the two halves of the time
    column; an Event it yields comes from a row of the table, and it starts
    before it ends exactly when the hours and minutes before the dash of that
    row's time column are an earlier time than those after it. *)
Theorem C3_start_before_end {TXT : PyText}
    (self : Schedule) (semester_type : option Z) (session : Session)
    (base_url : string) (request_timeout : Z) (today : datetime.date)
    (e : Event) :
  e ∈ yielded (get_events self semester_type session base_url request_timeout
                          today) ->
  exists st response row wd c1 start_time end_time h1 m1 h2 m2,
    resolve_semester_type semester_type today = Ok st
    /\ session (mkRequest base_url API_PATH (fetch_params self st)
                          request_timeout) = Ok response
    /\ row ∈ tbody_rows response
    /\ e ∈ yielded (process_row self wd row)
    /\ row_columns row !! 1%nat = Some c1
    /\ parse_times c1 = Ok (start_time, end_time)
    /\ start_time !! 0%nat = Some h1 /\ start_time !! 1%nat = Some m1
    /\ end_time !! 0%nat = Some h2 /\ end_time !! 1%nat = Some m2
    /\ (datetime.lt (start_datetime e) (end_datetime e) = true
        <-> h1 * 60 + m1 < h2 * 60 + m2).
Proof.
  intros H.
  apply get_events_yielded in H as (st & response & Hst & Hs & _ & H).
  apply for_each_yielded in H as (row & wd & Hrow & Hin).
  pose proof (process_row_yielded _ _ _ _ Hin) as (k & cl & _ & _ & _ & H).
  apply data_row_yielded in H
    as (c1 & start_time & end_time & std & etd & c2 & tok
        & H1 & Hp & Hstd & Hetd & _ & _ & Hev).
  apply time_timedelta_Ok in Hstd as (h1 & m1 & Hh1 & Hm1 & Us).
  apply time_timedelta_Ok in Hetd as (h2 & m2 & Hh2 & Hm2 & Ue).
  apply week_event_Ok in Hev
    as (w & _ & _ & _ & _ & _ & _ & Vs & Ve & _ & _ & Is & Ie).
  exists st, response, row, wd, c1, start_time, end_time, h1, m1, h2, m2.
  repeat (split; [assumption|]).
  rewrite (lt_instant _ _ Vs Ve), Is, Ie, Us, Ue. lia.
Qed.

(** C3 as stated fails: a row whose time column reads "09:20-08:00" yields an
    Event that starts after it ends. *)
Lemma C3_counterexample :
  get_events schedule_2023 (Some 1)
             (fun _ => Ok (mkResponse 200 backwards_rows))
             DEFAULT_BASE_URL 60 (datetime.mkdate 2023 10 1)
  = mkGen [backwards_event] (Ok tt)
  /\ datetime.lt (start_datetime backwards_event)
                 (end_datetime backwards_event) = false.
Proof. split; vm_compute; reflexivity. Qed.

Lemma test_get_schedule_events :
  get_events schedule_2023 None test_session DEFAULT_BASE_URL 60
             (datetime.mkdate 2023 10 1)
  = mkGen [test_event0; test_event1] (Ok tt).
Proof. vm_compute. reflexivity. Qed.

Lemma C3_start_before_end_witness :
  exists st response row wd c1 start_time end_time h1 m1 h2 m2,
    resolve_semester_type None (datetime.mkdate 2023 10 1) = Ok st
    /\ test_session (mkRequest DEFAULT_BASE_URL API_PATH
                               (fetch_params schedule_2023 st) 60)
       = Ok response
    /\ row ∈ tbody_rows response
    /\ test_event0 ∈ yielded (process_row schedule_2023 wd row)
    /\ row_columns row !! 1%nat = Some c1
    /\ parse_times c1 = Ok (start_time, end_time)
    /\ start_time !! 0%nat = Some h1 /\ start_time !! 1%nat = Some m1
    /\ end_time !! 0%nat = Some h2 /\ end_time !! 1%nat = Some m2
    /\ (datetime.lt (start_datetime test_event0) (end_datetime test_event0)
        = true
        <-> h1 * 60 + m1 < h2 * 60 + m2).
Proof.
  apply (C3_start_before_end schedule_2023 None test_session DEFAULT_BASE_URL
                             60 (datetime.mkdate 2023 10 1) test_event0).
  rewrite test_get_schedule_events. apply list_elem_of_here.
Defined.

Lemma mapM_Res_Ok {A B} (f : A -> Res B) l k :
  mapM f l = Ok k -> Forall2 (fun x y => f x = Ok y) l k.
Proof.
  revert k. induction l as [|x l IH]; intros k H.
  - cbn in H. injection H as <-. constructor.
  - cbn [mapM] in H. apply Res_bind_Ok in H as (y & Hy & H).
    apply Res_bind_Ok in H as (k' & Hk' & H). injection H as <-.
    constructor; [exact Hy | apply IH; exact Hk'].
Qed.

Lemma Schedule_init_valid pt pid y self :
  Schedule_init pt pid y = Ok self ->
  valid (start_datetime_of_academic_year self) /\ academic_year self = y
  /\ 1 <= y <= 9999.
Proof.
  unfold Schedule_init. intros H.
  apply Res_bind_Ok in H as (p & _ & H).
  apply Res_bind_Ok in H as (start & Hstart & H). injection H as <-.
  cbn [start_datetime_of_academic_year academic_year].
  pose proof (start_of_academic_year_Ok y start Hstart) as Hy.
  destruct (start_of_academic_year_spec y Hy) as (r & Hr & Hv & _).
  rewrite Hr in Hstart. injection Hstart as <-. auto.
Qed.

Lemma sub_whole_days a b n :
  valid a -> valid b -> instant_us a - instant_us b = n * DAY_US ->
  datetime.sub a b = Ok (datetime.mktimedelta n 0 0).
Proof.
  intros Ha Hb E. destruct (sub_spec a b Ha Hb) as (r & -> & Hn & Hu).
  f_equal. apply timedelta_normal_unique; [exact Hn | | ].
  - unfold timedelta_normal. simpl. lia.
  - rewrite Hu, E. unfold timedelta_us, DAY_US. simpl. lia.
Qed.

Lemma days_before_year_9998 : datetime.days_before_year 9998 = 3651329.
Proof. reflexivity. Qed.

(** The in-calendar conditions of C7 hold for every schedule of a year up
    to 9998, every weekday index, the weeks 1 to 53 and every time of day. *)
Lemma academic_weeks_in_calendar pt pid y self k w td :
  Schedule_init pt pid y = Ok self -> y <= 9998 ->
  0 <= k <= 6 -> 1 <= w <= 53 -> 0 <= timedelta_us td < DAY_US ->
  in_calendar (instant_us (start_datetime_of_academic_year self)
               + week_offset_us w k)
  /\ in_calendar (instant_us (start_datetime_of_academic_year self)
                  + week_offset_us w k + timedelta_us td).
Proof.
  unfold Schedule_init. intros H Hy Hk Hw Htd.
  apply Res_bind_Ok in H as (p & _ & H).
  apply Res_bind_Ok in H as (start & Hstart & H). injection H as <-.
  cbn [start_datetime_of_academic_year].
  pose proof (start_of_academic_year_Ok y start Hstart) as Hy1.
  destruct (start_of_academic_year_spec y Hy1)
    as (r & Hr & Hv & _ & Hh & Hmi & Hs & Hus & Hord).
  rewrite Hr in Hstart. injection Hstart as <-.
  pose proof (toordinal_range _ (proj1 Hv)) as Ho.
  change (datetime.date_toordinal (datetime.date_of r))
    with (datetime.toordinal r) in Ho.
  pose proof (days_before_year_mono y 9998 Hy) as M.
  rewrite days_before_year_9998 in M.
  pose proof (ymd2ord_sep1 y) as S1.
  assert (leap_days (datetime.is_leap y) <= 1)
    by (unfold leap_days; destruct (datetime.is_leap y); lia).
  assert (0 <= (datetime.ymd2ord y 9 1 + 6) mod 7 < 7)
    by (apply Z.mod_pos_bound; lia).
  unfold in_calendar, week_offset_us, instant_us, DAY_US,
    datetime.MAXORDINAL in *.
  rewrite Hh, Hmi, Hs, Hus. lia.
Qed.



Lemma Schedule_init_2023 pt pid self :
  Schedule_init pt pid 2023 = Ok self ->
  exists p, self = mkSchedule p pid 2023 (local_datetime 2023 8 28 0 0).
Proof.
  unfold Schedule_init. intros H.
  apply Res_bind_Ok in H as (p & _ & H).
  apply Res_bind_Ok in H as (start & Hstart & H). injection H as <-.
  exists p. vm_compute in Hstart. injection Hstart as <-. reflexivity.
Qed.

(** C2, as amended: for a schedule of academic year 2023, the row with time
    column "22:55-23:00" and week column "52" under a Пятница (Friday)
    dayheader yields an Event that starts on 2024-08-23 at 22:55 in
    Asia/Yekaterinburg, a Friday; the start 2024-08-24T22:55, a Saturday, is
    what the same row yields under a Суббота dayheader. *)
Theorem C2_week_52_row
    (pt pid : Z) (self : Schedule) (base_url : string) (request_timeout : Z)
    (today : datetime.date) :
  Schedule_init pt pid 2023 = Ok self ->
  get_events self (Some 1) (fun _ => Ok (mkResponse 200 (week52_rows "Пятница")))
             base_url request_timeout today
  = mkGen [week52_event 23] (Ok tt)
  /\ get_events self (Some 1)
                (fun _ => Ok (mkResponse 200 (week52_rows "Суббота")))
                base_url request_timeout today
     = mkGen [week52_event 24] (Ok tt)
  /\ start_datetime (week52_event 23)
     = datetime.mkdatetime (datetime.mkdate 2024 8 23) 22 55 0 0
                           (Some "Asia/Yekaterinburg")
  /\ datetime.weekday (start_datetime (week52_event 23)) = 4
  /\ list_index "Пятница" WEEKDAY_NAMES = Ok 4
  /\ datetime.weekday (start_datetime (week52_event 24)) = 5
  /\ list_index "Суббота" WEEKDAY_NAMES = Ok 5.
Proof.
  intros Hinit. apply Schedule_init_2023 in Hinit as [p ->].
  repeat split; vm_compute; reflexivity.
Qed.

Lemma C2_week_52_row_witness :
  get_events schedule_2023 (Some 1)
             (fun _ => Ok (mkResponse 200 (week52_rows "Пятница")))
             DEFAULT_BASE_URL 60 (datetime.mkdate 2023 10 1)
  = mkGen [week52_event 23] (Ok tt).
Proof.
  apply (C2_week_52_row 1 2575 schedule_2023 DEFAULT_BASE_URL 60
                        (datetime.mkdate 2023 10 1)).
  exact schedule_2023_init.
Defined.

(** C2 as stated fails: under the Пятница header the Event starts on
    2024-08-23, not on 2024-08-24. *)
Lemma C2_counterexample :
  exists ev,
    get_events schedule_2023 (Some 1)
               (fun _ => Ok (mkResponse 200 (week52_rows "Пятница")))
               DEFAULT_BASE_URL 60 (datetime.mkdate 2023 10 1)
    = mkGen [ev] (Ok tt)
    /\ start_datetime ev
       <> datetime.mkdatetime (datetime.mkdate 2024 8 24) 22 55 0 0
                              (Some "Asia/Yekaterinburg").
Proof.
  exists (week52_event 23). split; [vm_compute; reflexivity | discriminate].
Qed.

(* ===================================================================== *)
(** ** Further facts about the program *)
(* ===================================================================== *)

(** *** The constructor *)

Lemma ParticipantType_of_int_Ok v p :
  ParticipantType_of_int v = Ok p <-> ParticipantType_value p = v.
Proof.
  unfold ParticipantType_of_int.
  destruct (Z.eqb_spec v 1) as [->|H1]; [destruct p; split; (discriminate || reflexivity)|].
  destruct (Z.eqb_spec v 2) as [->|H2]; [destruct p; split; (discriminate || reflexivity)|].
  destruct (Z.eqb_spec v 3) as [->|H3]; [destruct p; split; (discriminate || reflexivity)|].
  split; [discriminate|]. destruct p; simpl; intros <-; congruence.
Qed.

Lemma ParticipantType_of_int_Raise v e :
  ParticipantType_of_int v = Raise e <-> e = ValueError /\ ~ (1 <= v <= 3).
Proof.
  unfold ParticipantType_of_int.
  destruct (Z.eqb_spec v 1) as [->|H1]; [split; [discriminate | lia]|].
  destruct (Z.eqb_spec v 2) as [->|H2]; [split; [discriminate | lia]|].
  destruct (Z.eqb_spec v 3) as [->|H3]; [split; [discriminate | lia]|].
  split; [intros [= <-]; split; [reflexivity | lia] | intros [-> _]; reflexivity].
Qed.

(** The start of an academic year is a Monday at midnight, at most six days
    before September 1. *)
Lemma start_of_academic_year_monday y r :
  1 <= y <= 9999 ->
  get_start_datetime_of_academic_year y = Ok r ->
  valid r /\ datetime.tzinfo r = TZ_INFO
  /\ datetime.weekday r = 0
  /\ instant_us r = datetime.toordinal r * DAY_US
  /\ datetime.ymd2ord y 9 1 - 6 <= datetime.toordinal r
     <= datetime.ymd2ord y 9 1.
Proof.
  intros Hy Hr.
  destruct (start_of_academic_year_spec y Hy)
    as (r' & Hr' & Hv & Htz & Hh & Hmi & Hs & Hus & Hord).
  rewrite Hr in Hr'. injection Hr' as <-.
  repeat split; try assumption; try apply Hv.
  - unfold datetime.weekday, datetime.date_weekday.
    change (datetime.date_toordinal (datetime.date_of r))
      with (datetime.toordinal r).
    rewrite Hord. Z.div_mod_to_equations. lia.
  - unfold instant_us, DAY_US. rewrite Hh, Hmi, Hs, Hus. lia.
  - rewrite Hord. Z.div_mod_to_equations. lia.
  - rewrite Hord. Z.div_mod_to_equations. lia.
Qed.

(** X1: [Schedule(participant_type, participant_id, academic_year)] is built
    exactly when the participant type is 1, 2 or 3 and the year is between 1
    and 9999; the object then holds the enum member with that code, the id
    and the year as given, and the Monday that starts the academic year.  A
    participant type outside 1..3 raises ValueError whatever the year is;
    with a good participant type, a year outside 1..9999 raises ValueError
    when it is a C int and OverflowError when it is not. *)
Theorem X1_Schedule_init (pt pid y : Z) :
  (1 <= pt <= 3 -> 1 <= y <= 9999 ->
   exists p start,
     Schedule_init pt pid y = Ok (mkSchedule p pid y start)
     /\ ParticipantType_value p = pt
     /\ get_start_datetime_of_academic_year y = Ok start
     /\ datetime.weekday start = 0)
  /\ (~ (1 <= pt <= 3) -> Schedule_init pt pid y = Raise ValueError)
  /\ (1 <= pt <= 3 -> ~ (1 <= y <= 9999) ->
      Schedule_init pt pid y
      = if decide (- 2 ^ 31 <= y < 2 ^ 31) then Raise ValueError
        else Raise OverflowError)
  /\ (forall self,
        Schedule_init pt pid y = Ok self ->
        1 <= pt <= 3 /\ 1 <= y <= 9999
        /\ ParticipantType_value (participant_type self) = pt
        /\ participant_id self = pid /\ academic_year self = y
        /\ get_start_datetime_of_academic_year y
           = Ok (start_datetime_of_academic_year self)).
Proof.
  split; [|split; [|split]].
  - intros Hpt Hy.
    destruct (ParticipantType_of_int pt) as [p|e] eqn:Ep.
    2: { apply ParticipantType_of_int_Raise in Ep. lia. }
    destruct (start_of_academic_year_spec y Hy) as (start & Hs & _).
    destruct (start_of_academic_year_monday y start Hy Hs)
      as (_ & _ & Hwd & _).
    exists p, start. unfold Schedule_init. rewrite Ep, Hs.
    repeat split; try assumption. apply ParticipantType_of_int_Ok. exact Ep.
  - intros Hbad. unfold Schedule_init.
    destruct (ParticipantType_of_int pt) as [p|e] eqn:Ep.
    + apply ParticipantType_of_int_Ok in Ep. destruct p; simpl in Ep; lia.
    + apply ParticipantType_of_int_Raise in Ep as [-> _]. reflexivity.
  - intros Hpt Hy. unfold Schedule_init.
    destruct (ParticipantType_of_int pt) as [p|e] eqn:Ep.
    2: { apply ParticipantType_of_int_Raise in Ep. lia. }
    cbn [mbind Res_bind].
    destruct (decide (- 2 ^ 31 <= y < 2 ^ 31)) as [Hc|Hc];
      change (2 ^ 31) with 2147483648 in Hc.
    + rewrite start_of_academic_year_error by lia. reflexivity.
    + rewrite start_of_academic_year_overflow by lia. reflexivity.
  - intros self H. unfold Schedule_init in H.
    apply Res_bind_Ok in H as (p & Hp & H).
    apply Res_bind_Ok in H as (start & Hs & H). injection H as <-.
    cbn [participant_type participant_id academic_year
         start_datetime_of_academic_year].
    apply ParticipantType_of_int_Ok in Hp.
    pose proof (start_of_academic_year_Ok y start Hs) as Hy.
    repeat split; try assumption; try lia; destruct p; simpl in Hp; lia.
Qed.

Lemma X1_Schedule_init_witness :
  exists p start,
    Schedule_init 2 17 2024 = Ok (mkSchedule p 17 2024 start)
    /\ ParticipantType_value p = 2
    /\ get_start_datetime_of_academic_year 2024 = Ok start
    /\ datetime.weekday start = 0.
Proof. apply (proj1 (X1_Schedule_init 2 17 2024)); lia. Defined.

(** *** Semesters and academic years *)

Lemma get_semester_type_last_year d today :
  datetime.year d = 9999 ->
  get_semester_type (Some d) today = Raise ValueError.
Proof.
  intros Hy. unfold get_semester_type, default, from_option, id.
  cbv zeta beta iota. rewrite Hy.
  destruct (start_of_academic_year_spec 9999 ltac:(lia)) as (y0 & -> & _).
  cbn [mbind Res_bind].
  rewrite (start_of_academic_year_error (9999 + 1)) by lia. reflexivity.
Qed.

(** X2: for a date of the calendar, [get_semester_type] never raises
    [SemesterTypeNotFoundError]: up to year 9998 it returns AUTUMN or SPRING,
    and in year 9999 it raises the plain ValueError of the datetime
    constructor. *)
Theorem X2_semester_error_unreachable (d today : datetime.date) :
  date_valid d ->
  get_semester_type (Some d) today <> Raise SemesterTypeNotFoundError
  /\ (datetime.year d <= 9998 ->
      get_semester_type (Some d) today = Ok AUTUMN
      \/ get_semester_type (Some d) today = Ok SPRING)
  /\ (datetime.year d = 9999 ->
      get_semester_type (Some d) today = Raise ValueError).
Proof.
  intros Hd. pose proof (proj1 (date_valid_spec d) Hd) as (Hy & _).
  assert (datetime.year d = 9999 ->
          get_semester_type (Some d) today = Raise ValueError) as H9
    by apply get_semester_type_last_year.
  split; [|split; [|exact H9]].
  - destruct (Z_le_dec (datetime.year d) 9998) as [Hle|Hgt].
    + destruct (get_semester_type_total d today Hd Hle) as [-> | ->];
        discriminate.
    + rewrite H9 by lia. discriminate.
  - intros Hle. apply get_semester_type_total; assumption.
Qed.

Lemma X2_semester_error_unreachable_witness :
  get_semester_type (Some (datetime.mkdate 2024 2 29))
                    (datetime.mkdate 2023 10 1)
  <> Raise SemesterTypeNotFoundError.
Proof.
  apply (X2_semester_error_unreachable (datetime.mkdate 2024 2 29)
                                       (datetime.mkdate 2023 10 1)).
  reflexivity.
Defined.

Lemma date_lt_sep1 d :
  9 <= datetime.month d -> 1 <= datetime.day d ->
  datetime.date_lt d (datetime.mkdate (datetime.year d) 9 1) = false.
Proof.
  intros Hm Hd. unfold datetime.date_lt, datetime.date_cmp. simpl.
  rewrite Z.compare_refl.
  destruct (Z.compare_spec (datetime.month d) 9) as [E|L|G];
    [|exfalso; lia|reflexivity].
  destruct (Z.compare_spec (datetime.day d) 1);
    [reflexivity|exfalso; lia|reflexivity].
Qed.

(** X3: in the years 1 to 9998 every date from September to December is
    AUTUMN and every date from January 1 to August 25 is SPRING; only the
    dates from August 26 to August 31 depend on the weekday of September
    1. *)
Theorem X3_semester_by_month (d today : datetime.date) :
  date_valid d -> datetime.year d <= 9998 ->
  (9 <= datetime.month d -> get_semester_type (Some d) today = Ok AUTUMN)
  /\ (datetime.month d <= 7
      \/ (datetime.month d = 8 /\ datetime.day d <= 25) ->
      get_semester_type (Some d) today = Ok SPRING).
Proof.
  intros Hd Hy. pose proof (proj1 (date_valid_spec d) Hd) as (Hy1 & Hm & Hday).
  destruct (get_semester_type_unfold d today ltac:(lia))
    as (y0 & y1 & E0 & E1 & V0 & V1 & Hlt & ->).
  destruct (start_of_academic_year_monday (datetime.year d) y0 ltac:(lia) E0)
    as (_ & _ & _ & _ & Hlo & Hhi).
  change (datetime.toordinal y0)
    with (datetime.date_toordinal (datetime.date_of y0)) in *.
  change (datetime.toordinal y1)
    with (datetime.date_toordinal (datetime.date_of y1)) in *.
  pose proof (sep1_valid (datetime.year d) ltac:(lia)) as Vs.
  pose proof (aug25_valid (datetime.year d) ltac:(lia)) as Va.
  split.
  - intros Hm9. unfold datetime.date_ge.
    assert (datetime.date_lt d (datetime.date_of y0) = false) as ->;
      [|reflexivity].
    apply not_true_iff_false. intros Hc.
    apply (date_lt_toordinal d _ Hd (proj1 V0)) in Hc.
    pose proof (date_lt_sep1 d Hm9 ltac:(lia)) as Hs.
    apply not_true_iff_false in Hs. apply Hs.
    apply (date_lt_toordinal d _ Hd Vs).
    unfold datetime.date_toordinal at 2. simpl. lia.
  - intros Hearly. unfold datetime.date_ge.
    assert (datetime.date_le d (datetime.mkdate (datetime.year d) 8 25) = true)
      as Hle.
    { unfold datetime.date_le, datetime.date_cmp. simpl.
      rewrite Z.compare_refl.
      destruct (Z.compare_spec (datetime.month d) 8) as [E|L|G];
        [|reflexivity|exfalso; lia].
      destruct (Z.compare_spec (datetime.day d) 25) as [E'|L'|G'];
        [reflexivity|reflexivity|exfalso; lia]. }
    apply (date_le_toordinal d _ Hd Va) in Hle.
    unfold datetime.date_toordinal at 2 in Hle. simpl in Hle.
    rewrite ymd2ord_aug25 in Hle.
    assert (datetime.date_lt d (datetime.date_of y0) = true) as ->
      by (apply (date_lt_toordinal d _ Hd (proj1 V0)); lia).
    assert (datetime.date_lt d (datetime.date_of y1) = true) as ->
      by (apply (date_lt_toordinal d _ Hd (proj1 V1)); lia).
    reflexivity.
Qed.

Lemma X3_semester_by_month_witness :
  get_semester_type (Some (datetime.mkdate 2024 12 31))
                    (datetime.mkdate 2023 10 1) = Ok AUTUMN.
Proof.
  apply (proj1 (X3_semester_by_month (datetime.mkdate 2024 12 31)
                                     (datetime.mkdate 2023 10 1)
                                     eq_refl ltac:(simpl; lia))).
  simpl. lia.
Defined.

Lemma academic_year_days y s0 s1 :
  1 <= y <= 9998 ->
  get_start_datetime_of_academic_year y = Ok s0 ->
  get_start_datetime_of_academic_year (y + 1) = Ok s1 ->
  datetime.toordinal s1 - datetime.toordinal s0 = 364
  \/ datetime.toordinal s1 - datetime.toordinal s0 = 371.
Proof.
  intros Hy E0 E1.
  destruct (start_of_academic_year_monday y s0 ltac:(lia) E0)
    as (V0 & _ & W0 & I0 & B0).
  destruct (start_of_academic_year_monday (y + 1) s1 ltac:(lia) E1)
    as (V1 & _ & W1 & I1 & B1).
  unfold datetime.weekday, datetime.date_weekday in W0, W1.
  change (datetime.date_toordinal (datetime.date_of s0))
    with (datetime.toordinal s0) in W0.
  change (datetime.date_toordinal (datetime.date_of s1))
    with (datetime.toordinal s1) in W1.
  rewrite !ymd2ord_sep1, days_before_year_succ in B1.
  rewrite ymd2ord_sep1 in B0.
  assert (0 <= leap_days (datetime.is_leap (y + 1)) <= 1)
    by (unfold leap_days; destruct (datetime.is_leap (y + 1)); lia).
  revert W0 W1. Z.div_mod_to_equations. lia.
Qed.

(** X4: two consecutive academic years start exactly 52 or 53 weeks
    apart. *)
Theorem X4_academic_year_length (y : Z) :
  1 <= y <= 9998 ->
  exists s0 s1,
    get_start_datetime_of_academic_year y = Ok s0
    /\ get_start_datetime_of_academic_year (y + 1) = Ok s1
    /\ (datetime.sub s1 s0 = Ok (datetime.mktimedelta 364 0 0)
        \/ datetime.sub s1 s0 = Ok (datetime.mktimedelta 371 0 0)).
Proof.
  intros Hy.
  destruct (start_of_academic_year_spec y ltac:(lia)) as (s0 & E0 & _).
  destruct (start_of_academic_year_spec (y + 1) ltac:(lia)) as (s1 & E1 & _).
  destruct (start_of_academic_year_monday y s0 ltac:(lia) E0)
    as (V0 & _ & _ & I0 & _).
  destruct (start_of_academic_year_monday (y + 1) s1 ltac:(lia) E1)
    as (V1 & _ & _ & I1 & _).
  exists s0, s1. split; [exact E0|]. split; [exact E1|].
  destruct (academic_year_days y s0 s1 Hy E0 E1) as [D|D].
  - left. apply sub_whole_days; try assumption. lia.
  - right. apply sub_whole_days; try assumption. lia.
Qed.

Lemma X4_academic_year_length_witness :
  exists s0 s1,
    get_start_datetime_of_academic_year 2023 = Ok s0
    /\ get_start_datetime_of_academic_year (2023 + 1) = Ok s1
    /\ (datetime.sub s1 s0 = Ok (datetime.mktimedelta 364 0 0)
        \/ datetime.sub s1 s0 = Ok (datetime.mktimedelta 371 0 0)).
Proof. apply (X4_academic_year_length 2023). lia. Defined.

(** *** The request *)

(** X5: the query parameters are [WhatShow] with the participant-type code,
    [schedule_semestr_id], [weeks] with 0, and the participant id under
    [student_group_id] for a group or under [teacher] for a teacher; for a
    room no id is sent; there is no other parameter. *)
Theorem X5_fetch_params (self : Schedule) (st : SemesterType) :
  fetch_params self st !! "WhatShow"
  = Some (PInt (ParticipantType_value (participant_type self)))
  /\ fetch_params self st !! "weeks" = Some (PInt 0)
  /\ fetch_params self st !! "student_group_id"
     = (if decide (participant_type self = GROUP)
        then Some (PInt (participant_id self)) else None)
  /\ fetch_params self st !! "teacher"
     = (if decide (participant_type self = TEACHER)
        then Some (PInt (participant_id self)) else None)
  /\ (forall key,
        is_Some (fetch_params self st !! key) ->
        key ∈ ["WhatShow"; "schedule_semestr_id"; "weeks";
               "student_group_id"; "teacher"]).
Proof.
  unfold fetch_params.
  repeat split.
  - destruct (participant_type self);
      repeat (rewrite lookup_insert_ne by discriminate);
      apply lookup_insert_eq.
  - destruct (participant_type self);
      repeat (rewrite lookup_insert_ne by discriminate);
      apply lookup_insert_eq.
  - destruct (participant_type self); cbn [decide];
      try (rewrite lookup_insert_eq; reflexivity);
      repeat (rewrite lookup_insert_ne by discriminate);
      apply lookup_empty.
  - destruct (participant_type self); cbn [decide];
      try (rewrite lookup_insert_eq; reflexivity);
      repeat (rewrite lookup_insert_ne by discriminate);
      apply lookup_empty.
  - intros key [v Hv].
    destruct (decide (key = "WhatShow")) as [->|N1];
      [apply list_elem_of_In; simpl; auto|].
    destruct (decide (key = "schedule_semestr_id")) as [->|N2];
      [apply list_elem_of_In; simpl; auto|].
    destruct (decide (key = "weeks")) as [->|N3];
      [apply list_elem_of_In; simpl; auto|].
    destruct (decide (key = "student_group_id")) as [->|N4];
      [apply list_elem_of_In; simpl; auto 6|].
    destruct (decide (key = "teacher")) as [->|N5];
      [apply list_elem_of_In; simpl; auto 6|].
    exfalso.
    destruct (participant_type self);
      repeat (rewrite lookup_insert_ne in Hv by congruence);
      rewrite lookup_empty in Hv; discriminate Hv.
Qed.

Lemma X5_fetch_params_witness :
  "teacher" ∈ ["WhatShow"; "schedule_semestr_id"; "weeks";
               "student_group_id"; "teacher"].
Proof.
  apply (proj2 (proj2 (proj2 (proj2
    (X5_fetch_params
       (mkSchedule TEACHER 17 2023 (local_datetime 2023 8 28 0 0))
       AUTUMN))))).
  exists (PInt 17). reflexivity.
Defined.

(** X6: when the transport raises, or answers with a status from 400 to 599,
    the generator yields nothing and ends with that exception, whatever the
    body holds; no row is parsed. *)
Theorem X6_transport_errors {TXT : PyText}
    (self : Schedule) (semester_type : option Z) (session : Session)
    (base_url : string) (request_timeout : Z) (today : datetime.date)
    (st : SemesterType) :
  resolve_semester_type semester_type today = Ok st ->
  (forall e,
     session (mkRequest base_url API_PATH (fetch_params self st)
                        request_timeout) = Raise e ->
     get_events self semester_type session base_url request_timeout today
     = mkGen [] (Raise e))
  /\ (forall response,
        session (mkRequest base_url API_PATH (fetch_params self st)
                           request_timeout) = Ok response ->
        400 <= status_code response < 600 ->
        get_events self semester_type session base_url request_timeout today
        = mkGen [] (Raise RequestException))
  /\ (forall response,
        session (mkRequest base_url API_PATH (fetch_params self st)
                           request_timeout) = Ok response ->
        ~ (400 <= status_code response < 600) ->
        yielded (get_events self semester_type session base_url
                            request_timeout today)
        = yielded (for_each (process_row self) 0 (tbody_rows response))
        /\ outcome (get_events self semester_type session base_url
                               request_timeout today)
           = (fun _ => tt)
               <$> outcome (for_each (process_row self) 0
                                     (tbody_rows response))).
Proof.
  intros Hst. unfold get_events. rewrite Hst, gen_bind_lift_Ok.
  split; [|split].
  - intros e He. rewrite He. reflexivity.
  - intros response Hr Hs. rewrite Hr, gen_bind_lift_Ok.
    unfold raise_for_status.
    destruct (Z.leb_spec 400 (status_code response)); [|lia].
    destruct (Z.ltb_spec (status_code response) 600); [|lia].
    reflexivity.
  - intros response Hr Hs. rewrite Hr, gen_bind_lift_Ok.
    assert (raise_for_status response = Ok tt) as ->.
    { unfold raise_for_status.
      destruct (Z.leb_spec 400 (status_code response));
        destruct (Z.ltb_spec (status_code response) 600);
        try reflexivity. lia. }
    rewrite gen_bind_lift_Ok, gen_bind_yielded, gen_bind_outcome.
    destruct (outcome (for_each _ _ _)); cbn; rewrite ?app_nil_r; auto.
Qed.

Lemma X6_transport_errors_witness :
  get_events schedule_2023 (Some 1)
             (fun _ => Ok (mkResponse 404 test_rows))
             DEFAULT_BASE_URL 60 (datetime.mkdate 2023 10 1)
  = mkGen [] (Raise RequestException).
Proof.
  refine (proj1 (proj2
            (X6_transport_errors schedule_2023 (Some 1)
               (fun _ => Ok (mkResponse 404 test_rows))
               DEFAULT_BASE_URL 60 (datetime.mkdate 2023 10 1) AUTUMN _))
            (mkResponse 404 test_rows) _ _).
  - reflexivity.
  - reflexivity.
  - simpl. lia.
Defined.

(** *** The loop over the rows *)

Lemma gen_bind_assoc {A B C} (m : Gen A) (f : A -> Gen B) (g : B -> Gen C) :
  (m ≫= f) ≫= g = m ≫= (fun a => f a ≫= g).
Proof.
  destruct m as [ys [a|e]]; unfold mbind, Gen_bind; cbn; [|reflexivity].
  destruct (f a) as [zs [b|e]]; cbn; [|reflexivity].
  destruct (g b) as [ws o]; cbn. rewrite app_assoc. reflexivity.
Qed.

Lemma gen_bind_ext {A B} (m : Gen A) (f g : A -> Gen B) :
  (forall a, f a = g a) -> m ≫= f = m ≫= g.
Proof.
  intros H. destruct m as [ys [a|e]]; unfold mbind, Gen_bind; cbn;
    [rewrite H|]; reflexivity.
Qed.

Lemma for_each_app {A S} (body : S -> A -> Gen S) acc l1 l2 :
  for_each body acc (l1 ++ l2)
  = for_each body acc l1 ≫= fun acc' => for_each body acc' l2.
Proof.
  revert acc. induction l1 as [|x l1 IH]; intros acc.
  - cbn [for_each app]. symmetry.
    apply (gen_bind_lift_Ok acc (fun acc' => for_each body acc' l2)).
  - cbn [for_each app]. rewrite gen_bind_assoc.
    apply gen_bind_ext. intros a. apply IH.
Qed.

Lemma weekday_name_index name k :
  list_index name WEEKDAY_NAMES = Ok k -> 0 <= k <= 6.
Proof.
  intros H. apply list_index_Ok in H as (Hk & Hl & _).
  apply lookup_lt_Some in Hl. simpl in Hl. lia.
Qed.

Lemma header_weekday_range wd row k :
  0 <= wd <= 6 -> header_weekday wd row = Ok k -> 0 <= k <= 6.
Proof.
  intros Hwd. unfold header_weekday.
  destruct (row_class row) as [cl|]; [|discriminate]. cbn.
  destruct (decide ("dayheader" ∈ cl)); [|intros [= <-]; exact Hwd].
  intros H. apply Res_bind_Ok in H as (c0 & _ & H).
  exact (weekday_name_index c0 k H).
Qed.

Lemma process_row_outcome {TXT : PyText} self wd row k :
  outcome (process_row self wd row) = Ok k -> header_weekday wd row = Ok k.
Proof.
  unfold process_row.
  destruct (header_weekday wd row) as [k'|e]; [|discriminate].
  rewrite gen_bind_lift_Ok.
  destruct (row_class row) as [cl|]; [|discriminate]. cbn [from_option].
  rewrite gen_bind_lift_Ok.
  destruct (decide ("noinfo" ∈ cl)); [intros [= <-]; reflexivity|].
  rewrite gen_bind_outcome.
  destruct (outcome (data_row self k' row)); [|discriminate].
  intros [= <-]. reflexivity.
Qed.

(** X8: [weekday_index] stays an index into the seven weekday names: from a
    value between 0 and 6, as the initial 0 is, every table that is read to
    its end leaves a value between 0 and 6, and a table without any
    [dayheader] row leaves it as it was. *)
Theorem X8_weekday_index_invariant {TXT : PyText}
    (self : Schedule) (wd : Z) (rows : list Row) (k : Z) :
  0 <= wd <= 6 ->
  outcome (for_each (process_row self) wd rows) = Ok k ->
  0 <= k <= 6
  /\ ((forall row cl, row ∈ rows -> row_class row = Some cl ->
                      "dayheader" ∉ cl) ->
      k = wd).
Proof.
  revert wd. induction rows as [|row rows IH]; intros wd Hwd H.
  - cbn in H. injection H as <-. auto.
  - cbn [for_each] in H. rewrite gen_bind_outcome in H.
    destruct (outcome (process_row self wd row)) as [wd'|e] eqn:Hrow;
      [|discriminate].
    apply process_row_outcome in Hrow.
    pose proof (header_weekday_range wd row wd' Hwd Hrow) as Hwd'.
    destruct (IH wd' Hwd' H) as [Hk Hplain]. split; [exact Hk|].
    intros Hno.
    assert (wd' = wd) as ->.
    { unfold header_weekday in Hrow.
      destruct (row_class row) as [cl|] eqn:Hc; [|discriminate]. cbn in Hrow.
      destruct (decide ("dayheader" ∈ cl)) as [Hin|Hin];
        [|congruence].
      exfalso. apply (Hno row cl (list_elem_of_here _ _) Hc Hin). }
    apply Hplain. intros r cl Hr. apply Hno. apply list_elem_of_further.
    exact Hr.
Qed.

Lemma X8_weekday_index_invariant_witness :
  0 <= 5 <= 6
  /\ ((forall row cl, row ∈ test_rows -> row_class row = Some cl ->
                      "dayheader" ∉ cl) ->
      5 = 0).
Proof.
  apply (X8_weekday_index_invariant schedule_2023 0 test_rows 5).
  - lia.
  - vm_compute. reflexivity.
Defined.

Lemma Schedule_init_start pt pid y self :
  Schedule_init pt pid y = Ok self ->
  valid (start_datetime_of_academic_year self)
  /\ datetime.tzinfo (start_datetime_of_academic_year self) = TZ_INFO
  /\ datetime.weekday (start_datetime_of_academic_year self) = 0
  /\ instant_us (start_datetime_of_academic_year self)
     = datetime.toordinal (start_datetime_of_academic_year self) * DAY_US.
Proof.
  unfold Schedule_init. intros H.
  apply Res_bind_Ok in H as (p & _ & H).
  apply Res_bind_Ok in H as (start & Hstart & H). injection H as <-.
  cbn [start_datetime_of_academic_year].
  pose proof (start_of_academic_year_Ok y start Hstart) as Hy.
  destruct (start_of_academic_year_monday y start Hy Hstart)
    as (? & ? & ? & ? & _).
  auto.
Qed.

Lemma lands_at_intro self k w h m td x :
  valid x ->
  datetime.tzinfo x = TZ_INFO ->
  instant_us (start_datetime_of_academic_year self)
  = datetime.toordinal (start_datetime_of_academic_year self) * DAY_US ->
  timedelta_us td = (h * 3600 + m * 60) * 1000000 ->
  instant_us x
  = instant_us (start_datetime_of_academic_year self)
    + week_offset_us w k + timedelta_us td ->
  lands_at self k w (h * 60 + m) x.
Proof.
  intros Hv Htz Hb Htd Hi. rewrite Hb, Htd in Hi.
  unfold week_offset_us, DAY_US in Hi.
  set (T := h * 60 + m) in *.
  destruct (instant_fields x
              (datetime.toordinal (start_datetime_of_academic_year self)
               + 7 * (w - 1) + k + T / 1440)
              (T mod 1440 / 60) (T mod 60) 0 0 Hv)
    as (Ho & Hh & Hmi & Hs & Hus);
    [subst T; Z.div_mod_to_equations; lia
    |subst T; Z.div_mod_to_equations; lia
    |lia | lia
    |rewrite Hi; subst T; Z.div_mod_to_equations; lia |].
  unfold lands_at. fold T.
  split; [exact Ho|]. split; [exact Hh|]. split; [exact Hmi|].
  split; [exact Hs|]. split; [exact Hus|]. split; [exact Htz | exact Hv].
Qed.

Lemma week_event_lands {TXT : PyText} pt pid y self cols k std etd tok e h1 m1 h2 m2 :
  Schedule_init pt pid y = Ok self ->
  timedelta_us std = (h1 * 3600 + m1 * 60) * 1000000 ->
  timedelta_us etd = (h2 * 3600 + m2 * 60) * 1000000 ->
  week_event self cols k std etd tok = Ok e ->
  exists w,
    to_int tok = Ok w
    /\ lands_at self k w (h1 * 60 + m1) (start_datetime e)
    /\ lands_at self k w (h2 * 60 + m2) (end_datetime e).
Proof.
  intros Hinit Hs He Hev.
  apply Schedule_init_start in Hinit as (_ & Htz & _ & Hb).
  apply week_event_Ok in Hev
    as (w & Hw & _ & _ & _ & _ & _ & Vs & Ve & Ts & Te & Is & Ie).
  exists w. split; [exact Hw|].
  split; eapply lands_at_intro; eauto; congruence.
Qed.

(** Where the Events of a table come from. *)
Lemma rows_yielded_origin {TXT : PyText} pt pid y self wd rows e :
  Schedule_init pt pid y = Ok self ->
  0 <= wd <= 6 ->
  e ∈ yielded (for_each (process_row self) wd rows) ->
  exists row wd' k c1 c2 st et h1 m1 h2 m2 tok w,
    row ∈ rows /\ 0 <= wd' <= 6
    /\ e ∈ yielded (process_row self wd' row)
    /\ header_weekday wd' row = Ok k /\ 0 <= k <= 6
    /\ row_columns row !! 1%nat = Some c1
    /\ parse_times c1 = Ok (st, et)
    /\ st !! 0%nat = Some h1 /\ st !! 1%nat = Some m1
    /\ et !! 0%nat = Some h2 /\ et !! 1%nat = Some m2
    /\ row_columns row !! 2%nat = Some c2
    /\ tok ∈ split_blank c2 /\ to_int tok = Ok w
    /\ lands_at self k w (h1 * 60 + m1) (start_datetime e)
    /\ lands_at self k w (h2 * 60 + m2) (end_datetime e).
Proof.
  intros Hinit. revert wd. induction rows as [|row rows IH]; intros wd Hwd H.
  - cbn in H. apply elem_of_nil in H. destruct H.
  - cbn [for_each] in H. rewrite gen_bind_yielded in H.
    apply elem_of_app in H as [H|H].
    + pose proof (process_row_yielded _ _ _ _ H)
        as (k & cl & _ & _ & Hk & Hd).
      apply data_row_yielded in Hd
        as (c1 & st & et & std & etd & c2 & tok
            & H1 & Hp & Hstd & Hetd & H2 & Htok & Hev).
      apply time_timedelta_Ok in Hstd as (h1 & m1 & Hh1 & Hm1 & Us).
      apply time_timedelta_Ok in Hetd as (h2 & m2 & Hh2 & Hm2 & Ue).
      destruct (week_event_lands _ _ _ _ _ _ _ _ _ _ _ _ _ _ Hinit Us Ue Hev)
        as (w & Hw & Ls & Le).
      exists row, wd, k, c1, c2, st, et, h1, m1, h2, m2, tok, w.
      pose proof (header_weekday_range wd row k Hwd Hk).
      repeat (split; [first [assumption | apply list_elem_of_here | lia]|]).
      assumption.
    + destruct (outcome (process_row self wd row)) as [wd'|err] eqn:Hrow;
        [|apply elem_of_nil in H; destruct H].
      apply process_row_outcome in Hrow.
      pose proof (header_weekday_range wd row wd' Hwd Hrow) as Hwd'.
      destruct (IH wd' Hwd' H)
        as (r & a & k & c1 & c2 & st & et & h1 & m1 & h2 & m2 & tok & w
            & Hr & Hrest).
      exists r, a, k, c1, c2, st, et, h1, m1, h2, m2, tok, w.
      split; [apply list_elem_of_further; exact Hr | exact Hrest].
Qed.

Lemma get_events_yielded_origin {TXT : PyText} pt pid y self semester_type session base_url
      request_timeout today e :
  Schedule_init pt pid y = Ok self ->
  e ∈ yielded (get_events self semester_type session base_url request_timeout
                          today) ->
  exists response row wd k c1 c2 st et h1 m1 h2 m2 tok w,
    (exists s, session (mkRequest base_url API_PATH (fetch_params self s)
                                  request_timeout) = Ok response)
    /\ row ∈ tbody_rows response /\ 0 <= wd <= 6
    /\ e ∈ yielded (process_row self wd row)
    /\ header_weekday wd row = Ok k /\ 0 <= k <= 6
    /\ row_columns row !! 1%nat = Some c1
    /\ parse_times c1 = Ok (st, et)
    /\ st !! 0%nat = Some h1 /\ st !! 1%nat = Some m1
    /\ et !! 0%nat = Some h2 /\ et !! 1%nat = Some m2
    /\ row_columns row !! 2%nat = Some c2
    /\ tok ∈ split_blank c2 /\ to_int tok = Ok w
    /\ lands_at self k w (h1 * 60 + m1) (start_datetime e)
    /\ lands_at self k w (h2 * 60 + m2) (end_datetime e).
Proof.
  intros Hinit H.
  apply get_events_yielded in H as (s & response & _ & Hs & _ & H).
  destruct (rows_yielded_origin pt pid y self 0 _ e Hinit ltac:(lia) H)
    as (row & wd & k & c1 & c2 & st & et & h1 & m1 & h2 & m2 & tok & w
        & Hrest).
  exists response, row, wd, k, c1, c2, st, et, h1, m1, h2, m2, tok, w.
  split; [exists s; exact Hs | exact Hrest].
Qed.

(** X9: every Event that [get_events] yields for a constructed schedule has
    valid start and end datetimes, both in Asia/Yekaterinburg and both on a
    whole minute (seconds and microseconds are 0). *)
Theorem X9_event_invariants {TXT : PyText}
    (pt pid y : Z) (self : Schedule) (semester_type : option Z)
    (session : Session) (base_url : string) (request_timeout : Z)
    (today : datetime.date) (e : Event) :
  Schedule_init pt pid y = Ok self ->
  e ∈ yielded (get_events self semester_type session base_url request_timeout
                          today) ->
  valid (start_datetime e) /\ valid (end_datetime e)
  /\ datetime.tzinfo (start_datetime e) = Some "Asia/Yekaterinburg"
  /\ datetime.tzinfo (end_datetime e) = Some "Asia/Yekaterinburg"
  /\ datetime.second (start_datetime e) = 0
  /\ datetime.microsecond (start_datetime e) = 0
  /\ datetime.second (end_datetime e) = 0
  /\ datetime.microsecond (end_datetime e) = 0.
Proof.
  intros Hinit H.
  destruct (get_events_yielded_origin _ _ _ _ _ _ _ _ _ _ Hinit H)
    as (response & row & wd & k & c1 & c2 & st & et & h1 & m1 & h2 & m2
        & tok & w & _ & _ & _ & _ & _ & _ & _ & _ & _ & _ & _ & _ & _ & _
        & _ & Ls & Le).
  destruct Ls as (_ & _ & _ & Ss & Us & Ts & Vs).
  destruct Le as (_ & _ & _ & Se & Ue & Te & Ve).
  auto 10.
Qed.

Lemma test_event0_yielded :
  test_event0
  ∈ yielded (get_events schedule_2023 None test_session DEFAULT_BASE_URL 60
                        (datetime.mkdate 2023 10 1)).
Proof. rewrite test_get_schedule_events. apply list_elem_of_here. Qed.

Lemma X9_event_invariants_witness :
  valid (start_datetime test_event0) /\ valid (end_datetime test_event0)
  /\ datetime.tzinfo (start_datetime test_event0) = Some "Asia/Yekaterinburg"
  /\ datetime.tzinfo (end_datetime test_event0) = Some "Asia/Yekaterinburg"
  /\ datetime.second (start_datetime test_event0) = 0
  /\ datetime.microsecond (start_datetime test_event0) = 0
  /\ datetime.second (end_datetime test_event0) = 0
  /\ datetime.microsecond (end_datetime test_event0) = 0.
Proof.
  apply (X9_event_invariants 1 2575 2023 schedule_2023 None test_session
           DEFAULT_BASE_URL 60 (datetime.mkdate 2023 10 1) test_event0).
  - exact schedule_2023_init.
  - exact test_event0_yielded.
Defined.

Lemma lands_at_weekday pt pid y self k w minutes x :
  Schedule_init pt pid y = Ok self ->
  lands_at self k w minutes x ->
  datetime.weekday x = (k + minutes / 1440) mod 7.
Proof.
  intros Hinit (Ho & _). apply Schedule_init_start in Hinit as (_ & _ & Hm & _).
  unfold datetime.weekday, datetime.date_weekday in *.
  change (datetime.date_toordinal (datetime.date_of x))
    with (datetime.toordinal x).
  change (datetime.date_toordinal
            (datetime.date_of (start_datetime_of_academic_year self)))
    with (datetime.toordinal (start_datetime_of_academic_year self)) in Hm.
  rewrite Ho. revert Hm. Z.div_mod_to_equations. lia.
Qed.



(** X11: the daily number of an Event of [get_events] is decided by the start
    time of its row: when that is a time of day [h1:m1], the daily number is
    the position of [h1:m1] among the ten slot starts, counted from 1, and
    the lookup fails when [h1:m1] is no slot start. *)
Theorem X11_daily_number_of_row {TXT : PyText}
    (pt pid y : Z) (self : Schedule) (semester_type : option Z)
    (session : Session) (base_url : string) (request_timeout : Z)
    (today : datetime.date) (e : Event) :
  Schedule_init pt pid y = Ok self ->
  e ∈ yielded (get_events self semester_type session base_url request_timeout
                          today) ->
  exists response row wd c1 st et h1 m1,
    (exists s, session (mkRequest base_url API_PATH (fetch_params self s)
                                  request_timeout) = Ok response)
    /\ row ∈ tbody_rows response
    /\ e ∈ yielded (process_row self wd row)
    /\ row_columns row !! 1%nat = Some c1
    /\ parse_times c1 = Ok (st, et)
    /\ st !! 0%nat = Some h1 /\ st !! 1%nat = Some m1
    /\ (0 <= h1 <= 23 -> 0 <= m1 <= 59 ->
        get_daily_number e
        = (fun i => i + 1) <$> list_index (h1, m1) DAILY_START_HM).
Proof.
  intros Hinit H.
  destruct (get_events_yielded_origin _ _ _ _ _ _ _ _ _ _ Hinit H)
    as (response & row & wd & k & c1 & c2 & st & et & h1 & m1 & h2 & m2
        & tok & w & Hs & Hrow & _ & Hin & _ & _ & H1 & Hp & Hh1 & Hm1
        & _ & _ & _ & _ & _ & Ls & _).
  destruct Ls as (_ & Hh & Hmi & _).
  exists response, row, wd, c1, st, et, h1, m1.
  repeat (split; [assumption|]).
  intros Hhr Hmr. unfold get_daily_number, datetime.strftime_HM.
  assert (datetime.hour (start_datetime e) = h1) as ->
    by (rewrite Hh; Z.div_mod_to_equations; lia).
  assert (datetime.minute (start_datetime e) = m1) as ->
    by (rewrite Hmi; Z.div_mod_to_equations; lia).
  rewrite (daily_lookup_hm h1 m1 Hhr Hmr). reflexivity.
Qed.

Lemma X11_daily_number_of_row_witness :
  exists response row wd c1 st et h1 m1,
    (exists s, test_session
                 (mkRequest DEFAULT_BASE_URL API_PATH
                            (fetch_params schedule_2023 s) 60) = Ok response)
    /\ row ∈ tbody_rows response
    /\ test_event0 ∈ yielded (process_row schedule_2023 wd row)
    /\ row_columns row !! 1%nat = Some c1
    /\ parse_times c1 = Ok (st, et)
    /\ st !! 0%nat = Some h1 /\ st !! 1%nat = Some m1
    /\ (0 <= h1 <= 23 -> 0 <= m1 <= 59 ->
        get_daily_number test_event0
        = (fun i => i + 1) <$> list_index (h1, m1) DAILY_START_HM).
Proof.
  apply (X11_daily_number_of_row 1 2575 2023 schedule_2023 None test_session
           DEFAULT_BASE_URL 60 (datetime.mkdate 2023 10 1) test_event0).
  - exact schedule_2023_init.
  - exact test_event0_yielded.
Defined.

(** *** Rows that are short, blank or malformed *)

(** X12: a row parsed as a data row whose week column holds no week number
    (it is empty or blank) yields no Event and raises nothing, also when the
    row has no cells for the title, type, participant, location and comment:
    those cells are read only inside the loop over the week numbers. *)
Theorem X12_blank_week_column {TXT : PyText}
    (self : Schedule) (wd k : Z) (row : Row) (cl : list string)
    (c1 c2 : string) (st et : list Z) (std etd : datetime.timedelta) :
  row_class row = Some cl -> "noinfo" ∉ cl -> header_weekday wd row = Ok k ->
  row_columns row !! 1%nat = Some c1 ->
  parse_times c1 = Ok (st, et) ->
  time_timedelta st = Ok std -> time_timedelta et = Ok etd ->
  row_columns row !! 2%nat = Some c2 ->
  split_blank c2 = [] ->
  process_row self wd row = mkGen [] (Ok k).
Proof.
  intros Hc Hn Hk H1 Hp Hs He H2 Hblank.
  rewrite (process_row_data self wd row cl k Hc Hn Hk).
  rewrite (data_row_unfold self k row c1 c2 st et std etd H1 Hp Hs He H2).
  rewrite Hblank. reflexivity.
Qed.

Lemma X12_blank_week_column_witness :
  process_row schedule_2023 3 (mkRow (Some ["extra"]) [""; "08:00-09:20"; "  "])
  = mkGen [] (Ok 3).
Proof.
  apply (X12_blank_week_column schedule_2023 3 3
           (mkRow (Some ["extra"]) [""; "08:00-09:20"; "  "]) ["extra"]
           "08:00-09:20" "  " [8; 0] [9; 20]
           (datetime.mktimedelta 0 28800 0) (datetime.mktimedelta 0 33600 0)).
  - reflexivity.
  - intros H. apply list_elem_of_In in H. simpl in H.
    destruct H as [H|[]]. discriminate H.
  - reflexivity.
  - reflexivity.
  - vm_compute. reflexivity.
  - vm_compute. reflexivity.
  - vm_compute. reflexivity.
  - reflexivity.
  - reflexivity.
Defined.

(** X13: a row with fewer than eight cells never yields an Event; a row
    parsed as a data row with fewer than two cells ends the generator with
    IndexError, and so does one with exactly two cells whose time column is
    well formed. *)
Theorem X13_short_row {TXT : PyText} (self : Schedule) (wd : Z) (row : Row) :
  ((length (row_columns row) < 8)%nat ->
   yielded (process_row self wd row) = [])
  /\ (forall cl k,
        row_class row = Some cl -> "noinfo" ∉ cl ->
        header_weekday wd row = Ok k ->
        (length (row_columns row) < 2)%nat ->
        process_row self wd row = mkGen [] (Raise IndexError))
  /\ (forall cl k c1 st et std etd,
        row_class row = Some cl -> "noinfo" ∉ cl ->
        header_weekday wd row = Ok k ->
        row_columns row !! 1%nat = Some c1 ->
        parse_times c1 = Ok (st, et) ->
        time_timedelta st = Ok std -> time_timedelta et = Ok etd ->
        length (row_columns row) = 2%nat ->
        process_row self wd row = mkGen [] (Raise IndexError)).
Proof.
  split; [|split].
  - intros Hlen.
    destruct (yielded (process_row self wd row)) as [|e evs] eqn:Hy;
      [reflexivity|exfalso].
    assert (e ∈ yielded (process_row self wd row)) as Hin
      by (rewrite Hy; apply list_elem_of_here).
    apply process_row_yielded in Hin as (k & cl & _ & _ & _ & Hd).
    apply data_row_yielded in Hd
      as (c1 & st & et & std & etd & c2 & tok & _ & _ & _ & _ & _ & _ & Hev).
    apply week_event_Ok in Hev as (w & _ & _ & _ & _ & _ & H7 & _).
    apply lookup_lt_Some in H7. lia.
  - intros cl k Hc Hn Hk Hlen.
    rewrite (process_row_data self wd row cl k Hc Hn Hk).
    unfold data_row, getitem.
    rewrite (lookup_ge_None_2 (row_columns row) 1) by lia. reflexivity.
  - intros cl k c1 st et std etd Hc Hn Hk H1 Hp Hs He Hlen.
    rewrite (process_row_data self wd row cl k Hc Hn Hk).
    unfold data_row, getitem. rewrite H1. cbn [mbind Res_bind].
    rewrite Hp, gen_bind_lift_Ok. cbn [fst snd].
    rewrite Hs, gen_bind_lift_Ok, He, gen_bind_lift_Ok.
    rewrite (lookup_ge_None_2 (row_columns row) 2) by lia. reflexivity.
Qed.

Lemma X13_short_row_witness :
  yielded (process_row schedule_2023 0
             (mkRow (Some ["extra"])
                    [""; "08:00-09:20"; "1"; "name"; "type"; "fio"; "room"]))
  = [].
Proof.
  apply (proj1 (X13_short_row schedule_2023 0
                  (mkRow (Some ["extra"])
                     [""; "08:00-09:20"; "1"; "name"; "type"; "fio";
                      "room"]))).
  simpl. lia.
Defined.

(** X14: a row without a class attribute ends the generator with KeyError:
    the Events of the rows before it are delivered, the row itself and the
    rows after it give nothing. *)
Theorem X14_row_without_class {TXT : PyText}
    (self : Schedule) (wd : Z) (rows1 rows2 : list Row) (row : Row) :
  row_class row = None ->
  yielded (for_each (process_row self) wd (rows1 ++ row :: rows2))
  = yielded (for_each (process_row self) wd rows1)
  /\ outcome (for_each (process_row self) wd (rows1 ++ row :: rows2))
     = match outcome (for_each (process_row self) wd rows1) with
       | Ok _ => Raise KeyError
       | Raise e => Raise e
       end.
Proof.
  intros Hc.
  assert (forall k, for_each (process_row self) k (row :: rows2)
                    = mkGen [] (Raise KeyError)) as Hrow.
  { intros k. cbn [for_each]. unfold process_row, header_weekday.
    rewrite Hc. reflexivity. }
  rewrite for_each_app, gen_bind_yielded, gen_bind_outcome.
  destruct (outcome (for_each (process_row self) wd rows1)) as [k|e];
    rewrite ?Hrow; cbn; rewrite app_nil_r; auto.
Qed.

Lemma X14_row_without_class_witness :
  yielded (for_each (process_row schedule_2023) 0
             (test_rows ++ mkRow None [] :: test_rows))
  = yielded (for_each (process_row schedule_2023) 0 test_rows)
  /\ outcome (for_each (process_row schedule_2023) 0
                (test_rows ++ mkRow None [] :: test_rows))
     = match outcome (for_each (process_row schedule_2023) 0 test_rows) with
       | Ok _ => Raise KeyError
       | Raise e => Raise e
       end.
Proof.
  apply (X14_row_without_class schedule_2023 0 test_rows test_rows
                               (mkRow None [])).
  reflexivity.
Defined.

(** X15: a [dayheader] row whose first cell is none of the seven weekday
    names ends the generator with ValueError, and one without any cell with
    IndexError; this holds for [noinfo] rows too, since the header is read
    before the [noinfo] test, and nothing is yielded from the row. *)
Theorem X15_bad_dayheader {TXT : PyText}
    (self : Schedule) (wd : Z) (row : Row) (cl : list string) :
  row_class row = Some cl -> "dayheader" ∈ cl ->
  (forall name,
     row_columns row !! 0%nat = Some name -> name ∉ WEEKDAY_NAMES ->
     process_row self wd row = mkGen [] (Raise ValueError))
  /\ (row_columns row = [] ->
      process_row self wd row = mkGen [] (Raise IndexError)).
Proof.
  intros Hc Hh. split.
  - intros name H0 Hname.
    assert (header_weekday wd row = Raise ValueError) as E.
    { unfold header_weekday. rewrite Hc. cbn [from_option mbind Res_bind].
      destruct (decide ("dayheader" ∈ cl)); [|contradiction].
      unfold getitem. rewrite H0. cbn [mbind Res_bind].
      apply list_index_Raise. auto. }
    unfold process_row. rewrite E. reflexivity.
  - intros Hnil.
    assert (header_weekday wd row = Raise IndexError) as E.
    { unfold header_weekday. rewrite Hc. cbn [from_option mbind Res_bind].
      destruct (decide ("dayheader" ∈ cl)); [|contradiction].
      unfold getitem. rewrite Hnil. reflexivity. }
    unfold process_row. rewrite E. reflexivity.
Qed.

Lemma X15_bad_dayheader_witness :
  process_row schedule_2023 0
              (mkRow (Some ["noinfo"; "dayheader"]) ["Monday"])
  = mkGen [] (Raise ValueError).
Proof.
  refine (proj1 (X15_bad_dayheader schedule_2023 0
                   (mkRow (Some ["noinfo"; "dayheader"]) ["Monday"])
                   ["noinfo"; "dayheader"] _ _) "Monday" _ _).
  - reflexivity.
  - apply list_elem_of_In. simpl. auto.
  - reflexivity.
  - intros H. apply list_elem_of_In in H. simpl in H.
    repeat (destruct H as [H|H]; [discriminate H|]). exact H.
Defined.

(** *** The time column *)

Lemma to_int_Raise {TXT : PyText} s e : to_int s = Raise e -> e = ValueError.
Proof.
  unfold to_int. destruct (int_of_str s); congruence.
Qed.

Lemma mapM_Res_Raise {A B} (f : A -> Res B) l e :
  mapM f l = Raise e -> exists x, x ∈ l /\ f x = Raise e.
Proof.
  induction l as [|x l IH]; [discriminate|].
  cbn [mapM]. destruct (f x) as [y|e'] eqn:Ex; cbn [mbind Res_bind].
  - destruct (mapM f l) as [k|e'] eqn:El; cbn [mbind Res_bind];
      [discriminate|].
    intros [= <-]. destruct (IH eq_refl) as (x' & Hx' & Hf).
    exists x'. split; [apply list_elem_of_further; exact Hx' | exact Hf].
  - intros [= <-]. exists x. split; [apply list_elem_of_here | exact Ex].
Qed.

Lemma parse_time_Raise {TXT : PyText} s e : parse_time s = Raise e -> e = ValueError.
Proof.
  unfold parse_time. intros H.
  apply mapM_Res_Raise in H as (x & _ & Hx). eapply to_int_Raise; eauto.
Qed.

Lemma parse_times_Raise {TXT : PyText} text e : parse_times text = Raise e -> e = ValueError.
Proof.
  unfold parse_times.
  destruct (mapM parse_time (pystr.split "-" text)) as [parts|e'] eqn:E;
    cbn [mbind Res_bind].
  - destruct parts as [|a [|b [|c parts]]]; congruence.
  - intros [= <-]. apply mapM_Res_Raise in E as (x & _ & Hx).
    eapply parse_time_Raise; eauto.
Qed.

(** X16: the time column must split into exactly two parts at its dashes,
    each a colon-separated list of integers: a text with no dash or with more
    than one, or with a part that is no integer, makes the row raise
    ValueError, and ValueError is the only exception of this step. *)
Theorem X16_time_column_errors {TXT : PyText} (text : string) :
  (forall e, parse_times text = Raise e -> e = ValueError)
  /\ (length (pystr.split "-" text) <> 2%nat ->
      parse_times text = Raise ValueError)
  /\ (forall part piece,
        part ∈ pystr.split "-" text -> piece ∈ pystr.split ":" part ->
        to_int piece = Raise ValueError ->
        parse_times text = Raise ValueError)
  /\ (forall start_time end_time,
        parse_times text = Ok (start_time, end_time) ->
        exists a b,
          pystr.split "-" text = [a; b]
          /\ mapM to_int (pystr.split ":" a) = Ok start_time
          /\ mapM to_int (pystr.split ":" b) = Ok end_time).
Proof.
  split; [apply parse_times_Raise|]. split; [|split].
  - intros Hlen.
    destruct (parse_times text) as [[st et]|e] eqn:E;
      [|f_equal; eapply parse_times_Raise; eauto].
    exfalso. unfold parse_times in E.
    apply Res_bind_Ok in E as (parts & Hparts & E).
    apply mapM_Res_Ok, Forall2_length in Hparts.
    destruct parts as [|a [|b [|c parts]]]; try discriminate E.
    simpl in Hparts. lia.
  - intros part piece Hpart Hpiece Hbad.
    destruct (parse_times text) as [[st et]|e] eqn:E;
      [|f_equal; eapply parse_times_Raise; eauto].
    exfalso. unfold parse_times in E.
    apply Res_bind_Ok in E as (parts & Hparts & _).
    apply mapM_Res_Ok in Hparts.
    apply list_elem_of_lookup in Hpart as [i Hi].
    destruct (Forall2_lookup_l _ _ _ _ _ Hparts Hi) as (ints & _ & Hints).
    unfold parse_time in Hints. apply mapM_Res_Ok in Hints.
    apply list_elem_of_lookup in Hpiece as [j Hj].
    destruct (Forall2_lookup_l _ _ _ _ _ Hints Hj) as (n & _ & Hn).
    congruence.
  - intros st et E. unfold parse_times in E.
    apply Res_bind_Ok in E as (parts & Hparts & E).
    destruct parts as [|x [|y [|z parts]]]; try discriminate E.
    injection E as <- <-.
    destruct (pystr.split "-" text) as [|a [|b [|c l]]] eqn:Hsplit;
      try discriminate Hparts.
    + cbn [mapM] in Hparts. destruct (parse_time a); discriminate Hparts.
    + exists a, b. split; [reflexivity|].
      cbn [mapM] in Hparts.
      fold (parse_time a). fold (parse_time b).
      destruct (parse_time a) as [pa|]; [|discriminate Hparts].
      destruct (parse_time b) as [pb|]; [|discriminate Hparts].
      cbn in Hparts. injection Hparts as <- <-. auto.
    + exfalso. apply mapM_Res_Ok, Forall2_length in Hparts.
      simpl in Hparts. lia.
Qed.

Lemma X16_time_column_errors_witness :
  parse_times "08:00" = Raise ValueError.
Proof.
  apply (proj1 (proj2 (X16_time_column_errors "08:00"))).
  vm_compute. lia.
Defined.

Lemma split_no_sep sep s : has_char sep s = false -> pystr.split sep s = [s].
Proof.
  induction s as [|c s IH]; [reflexivity|]. simpl.
  intros H. apply orb_false_iff in H as [Hc Hs]. rewrite Hc, (IH Hs).
  reflexivity.
Qed.

Lemma split_app_sep sep s1 s2 :
  has_char sep s1 = false ->
  pystr.split sep (String.append s1 (String sep s2))
  = s1 :: pystr.split sep s2.
Proof.
  induction s1 as [|c s1 IH]; simpl.
  - intros _. rewrite Ascii.eqb_refl. reflexivity.
  - intros H. apply orb_false_iff in H as [Hc Hs]. rewrite Hc, (IH Hs).
    reflexivity.
Qed.

Lemma time_text_spec h m :
  0 <= h <= 23 -> 0 <= m <= 59 ->
  let text := String.append (datetime.two_digits h)
                (String.append ":" (datetime.two_digits m)) in
  has_char "-" text = false /\ parse_time text = Ok [h; m].
Proof.
  intros Hh Hm text.
  assert (range_all 0 24 (fun h => range_all 0 60 (time_text_reads_back h))
          = true) as Hall by (vm_compute; reflexivity).
  pose proof (range_all_spec _ _ _ Hall h ltac:(lia)) as Hh'. cbv beta in Hh'.
  pose proof (range_all_spec _ _ _ Hh' m ltac:(lia)) as Hm'.
  unfold time_text_reads_back in Hm'. cbv zeta in Hm'. fold text in Hm'.
  apply andb_true_iff in Hm' as [Hno Hp].
  apply negb_true_iff in Hno. apply bool_decide_eq_true in Hp. auto.
Qed.

(** X17: the time column reads back what [%H:%M] prints: for two datetimes
    with proper times of day, the text made of the first printed as HH:MM, a
    dash and the second printed as HH:MM parses to the hours and minutes of
    the two, and the timedeltas built from them are those times of day. *)
Theorem X17_time_column_round_trip (a b : datetime.t) :
  time_valid a -> time_valid b ->
  parse_times (String.append (datetime.strftime_HM a)
                             (String "-" (datetime.strftime_HM b)))
  = Ok ([datetime.hour a; datetime.minute a],
        [datetime.hour b; datetime.minute b])
  /\ time_timedelta [datetime.hour a; datetime.minute a]
     = Ok (datetime.mktimedelta
             0 (datetime.hour a * 3600 + datetime.minute a * 60) 0).
Proof.
  intros Ha Hb.
  apply time_valid_spec in Ha as (Hha & Hma & _).
  apply time_valid_spec in Hb as (Hhb & Hmb & _).
  destruct (time_text_spec _ _ Hha Hma) as [Na Pa].
  destruct (time_text_spec _ _ Hhb Hmb) as [Nb Pb].
  cbv zeta in Na, Pa, Nb, Pb. split.
  - unfold parse_times, datetime.strftime_HM.
    rewrite (split_app_sep _ _ _ Na), (split_no_sep _ _ Nb).
    cbn [mapM]. rewrite Pa, Pb. reflexivity.
  - unfold time_timedelta, getitem. cbn [lookup list_lookup mbind Res_bind].
    unfold datetime.timedelta_new. cbv zeta.
    change (0 * 7 + 0) with 0. change (0 / 1000000) with 0.
    change (0 mod 1000000) with 0.
    set (s := datetime.hour a * 3600 + datetime.minute a * 60 + 0 + 0).
    assert (0 <= s < 86400) as Hs by (subst s; lia).
    rewrite (Z.div_small s 86400 Hs), (Z.mod_small s 86400 Hs).
    change (999999999 <? Z.abs (0 + 0)) with false. cbv iota.
    subst s. do 2 f_equal. lia.
Qed.

Lemma X17_time_column_round_trip_witness :
  parse_times
    (String.append (datetime.strftime_HM (local_datetime 2023 8 28 8 0))
       (String "-" (datetime.strftime_HM (local_datetime 2023 8 28 9 20))))
  = Ok ([8; 0], [9; 20])
  /\ time_timedelta [8; 0] = Ok (datetime.mktimedelta 0 (8 * 3600 + 0 * 60) 0).
Proof.
  apply (X17_time_column_round_trip (local_datetime 2023 8 28 8 0)
                                    (local_datetime 2023 8 28 9 20));
    reflexivity.
Defined.

Lemma Res_bind_Raise {A B} (m : Res A) (f : A -> Res B) e :
  m ≫= f = Raise e -> m = Raise e \/ exists a, m = Ok a /\ f a = Raise e.
Proof.
  destruct m as [a|e']; cbn; [eauto | intros [= <-]; auto].
Qed.

Lemma getitem_Raise {A} (l : list A) i e :
  getitem l i = Raise e -> e = IndexError /\ (length l <= i)%nat.
Proof.
  unfold getitem. destruct (l !! i) eqn:E; [discriminate|].
  intros [= <-]. split; [reflexivity|]. apply lookup_ge_None. exact E.
Qed.

Lemma time_timedelta_Raise time e :
  time_timedelta time = Raise e ->
  e = OverflowError \/ (e = IndexError /\ (length time < 2)%nat).
Proof.
  unfold time_timedelta. intros H.
  apply Res_bind_Raise in H as [H|(h & _ & H)];
    [apply getitem_Raise in H as [-> Hl]; right; split; [reflexivity | lia]|].
  apply Res_bind_Raise in H as [H|(m & _ & H)];
    [apply getitem_Raise in H as [-> Hl]; right; split; [reflexivity | lia]|].
  apply timedelta_new_error in H. auto.
Qed.

Lemma week_event_Raise {TXT : PyText} self cols wd std etd tok e :
  week_event self cols wd std etd tok = Raise e ->
  e = ValueError \/ e = OverflowError
  \/ (e = IndexError /\ (length cols < 8)%nat).
Proof.
  unfold week_event. intros H.
  apply Res_bind_Raise in H as [H|(w & _ & H)];
    [apply to_int_Raise in H; auto|].
  apply Res_bind_Raise in H as [H|(wtd & _ & H)];
    [apply timedelta_new_error in H; auto|].
  apply Res_bind_Raise in H as [H|(sw & _ & H)];
    [apply add_error in H; auto|].
  apply Res_bind_Raise in H as [H|(sd & _ & H)];
    [apply add_error in H; auto|].
  apply Res_bind_Raise in H as [H|(ew & _ & H)];
    [apply add_error in H; auto|].
  apply Res_bind_Raise in H as [H|(ed & _ & H)];
    [apply add_error in H; auto|].
  repeat (apply Res_bind_Raise in H as [H|(? & _ & H)];
          [apply getitem_Raise in H as [-> Hl]; right; right;
           split; [reflexivity | lia]|]).
  discriminate H.
Qed.

Lemma header_weekday_Raise wd row e :
  header_weekday wd row = Raise e ->
  (e = KeyError /\ row_class row = None)
  \/ (e = IndexError /\ (length (row_columns row) < 8)%nat)
  \/ e = ValueError.
Proof.
  unfold header_weekday.
  destruct (row_class row) as [cl|]; cbn [from_option mbind Res_bind];
    [|intros [= <-]; auto].
  destruct (decide ("dayheader" ∈ cl)); [|discriminate].
  intros H. apply Res_bind_Raise in H as [H|(c0 & _ & H)];
    [apply getitem_Raise in H as [-> Hl]; right; left;
     split; [reflexivity | lia]|].
  apply list_index_Raise in H as [-> _]. auto.
Qed.

Lemma weeks_loop_outcome_Raise f toks e :
  outcome (weeks_loop f toks) = Raise e ->
  exists tok, tok ∈ toks /\ f tok = Raise e.
Proof.
  induction toks as [|tok toks IH]; [discriminate|].
  rewrite weeks_loop_cons. destruct (f tok) as [ev|err] eqn:Ef; cbn.
  - intros H. destruct (IH H) as (t & Ht & Hf).
    exists t. split; [apply list_elem_of_further; exact Ht | exact Hf].
  - intros [= <-]. exists tok. split; [apply list_elem_of_here | exact Ef].
Qed.

Lemma data_row_outcome_Raise {TXT : PyText} self wd row e :
  outcome (data_row self wd row) = Raise e ->
  e = ValueError \/ e = OverflowError
  \/ (e = IndexError /\ index_error_origin row).
Proof.
  intros H.
  destruct (row_columns row !! 1%nat) as [c1|] eqn:H1.
  2: { unfold data_row, getitem in H. rewrite H1 in H. cbn in H.
       injection H as <-. right. right. split; [reflexivity|]. left.
       apply lookup_ge_None in H1. lia. }
  destruct (parse_times c1) as [[st et]|err] eqn:Hp.
  2: { unfold data_row, getitem in H. rewrite H1 in H.
       cbn [mbind Res_bind] in H. rewrite Hp in H. cbn in H.
       injection H as <-. apply parse_times_Raise in Hp as ->. auto. }
  destruct (time_timedelta st) as [std|err] eqn:Hs.
  2: { unfold data_row, getitem in H. rewrite H1 in H.
       cbn [mbind Res_bind] in H. rewrite Hp, gen_bind_lift_Ok in H.
       cbn [fst snd] in H. rewrite Hs in H. cbn in H.
       injection H as <-.
       apply time_timedelta_Raise in Hs as [-> | [-> Hl]]; [auto|].
       right. right. split; [reflexivity|]. right.
       exists c1, st, et. auto. }
  destruct (time_timedelta et) as [etd|err] eqn:He.
  2: { unfold data_row, getitem in H. rewrite H1 in H.
       cbn [mbind Res_bind] in H. rewrite Hp, gen_bind_lift_Ok in H.
       cbn [fst snd] in H. rewrite Hs, gen_bind_lift_Ok, He in H. cbn in H.
       injection H as <-.
       apply time_timedelta_Raise in He as [-> | [-> Hl]]; [auto|].
       right. right. split; [reflexivity|]. right.
       exists c1, st, et. auto. }
  destruct (row_columns row !! 2%nat) as [c2|] eqn:H2.
  2: { unfold data_row, getitem in H. rewrite H1 in H.
       cbn [mbind Res_bind] in H. rewrite Hp, gen_bind_lift_Ok in H.
       cbn [fst snd] in H. rewrite Hs, gen_bind_lift_Ok, He, gen_bind_lift_Ok,
         H2 in H. cbn in H. injection H as <-.
       right. right. split; [reflexivity|]. left.
       apply lookup_ge_None in H2. lia. }
  rewrite (data_row_unfold self wd row c1 c2 st et std etd H1 Hp Hs He H2) in H.
  apply weeks_loop_outcome_Raise in H as (tok & _ & Hf).
  apply week_event_Raise in Hf as [-> | [-> | [-> Hl]]]; auto.
  right. right. split; [reflexivity|]. left. exact Hl.
Qed.

Lemma process_row_outcome_Raise {TXT : PyText} self wd row e :
  outcome (process_row self wd row) = Raise e ->
  (e = KeyError /\ row_class row = None)
  \/ (e = IndexError /\ index_error_origin row)
  \/ e = ValueError \/ e = OverflowError.
Proof.
  unfold process_row.
  destruct (header_weekday wd row) as [k|err] eqn:Hk.
  2: { cbn. intros [= <-].
       apply header_weekday_Raise in Hk as [[-> Hc] | [[-> Hl] | ->]]; auto.
       right. left. split; [reflexivity|]. left. exact Hl. }
  rewrite gen_bind_lift_Ok.
  destruct (row_class row) as [cl|]; cbn [from_option].
  2: { cbn. intros [= <-]. auto. }
  rewrite gen_bind_lift_Ok.
  destruct (decide ("noinfo" ∈ cl)); [discriminate|].
  rewrite gen_bind_outcome.
  destruct (outcome (data_row self k row)) as [[]|err] eqn:Hd;
    [discriminate|].
  intros [= <-].
  apply data_row_outcome_Raise in Hd as [-> | [-> | [-> Ho]]]; auto.
Qed.

Lemma for_each_outcome_Raise {A S} (body : S -> A -> Gen S) l acc e :
  outcome (for_each body acc l) = Raise e ->
  exists x acc', x ∈ l /\ outcome (body acc' x) = Raise e.
Proof.
  revert acc. induction l as [|x l IH]; intros acc; [discriminate|].
  cbn [for_each]. rewrite gen_bind_outcome.
  destruct (outcome (body acc x)) as [acc'|err] eqn:Hx.
  - intros H. destruct (IH acc' H) as (y & a & Hy & He).
    exists y, a. split; [apply list_elem_of_further; exact Hy | exact He].
  - intros [= <-]. exists x, acc. split; [apply list_elem_of_here | exact Hx].
Qed.



Lemma weeks_loop_outcome_Ok f toks u :
  outcome (weeks_loop f toks) = Ok u ->
  length (yielded (weeks_loop f toks)) = length toks.
Proof.
  induction toks as [|tok toks IH]; [reflexivity|].
  rewrite weeks_loop_cons. destruct (f tok) as [ev|err]; cbn;
    [|discriminate].
  intros H. rewrite (IH H). reflexivity.
Qed.

Lemma data_row_outcome_Ok {TXT : PyText} self wd row u :
  outcome (data_row self wd row) = Ok u ->
  exists c2,
    row_columns row !! 2%nat = Some c2
    /\ length (yielded (data_row self wd row))
       = length (split_blank c2).
Proof.
  intros H.
  destruct (row_columns row !! 1%nat) as [c1|] eqn:H1.
  2: { unfold data_row, getitem in H. rewrite H1 in H. discriminate H. }
  destruct (parse_times c1) as [[st et]|err] eqn:Hp.
  2: { unfold data_row, getitem in H. rewrite H1 in H.
       cbn [mbind Res_bind] in H. rewrite Hp in H. discriminate H. }
  destruct (time_timedelta st) as [std|err] eqn:Hs.
  2: { unfold data_row, getitem in H. rewrite H1 in H.
       cbn [mbind Res_bind] in H. rewrite Hp, gen_bind_lift_Ok in H.
       cbn [fst snd] in H. rewrite Hs in H. discriminate H. }
  destruct (time_timedelta et) as [etd|err] eqn:He.
  2: { unfold data_row, getitem in H. rewrite H1 in H.
       cbn [mbind Res_bind] in H. rewrite Hp, gen_bind_lift_Ok in H.
       cbn [fst snd] in H. rewrite Hs, gen_bind_lift_Ok, He in H.
       discriminate H. }
  destruct (row_columns row !! 2%nat) as [c2|] eqn:H2.
  2: { unfold data_row, getitem in H. rewrite H1 in H.
       cbn [mbind Res_bind] in H. rewrite Hp, gen_bind_lift_Ok in H.
       cbn [fst snd] in H. rewrite Hs, gen_bind_lift_Ok, He, gen_bind_lift_Ok,
         H2 in H. discriminate H. }
  exists c2. split; [reflexivity|].
  rewrite (data_row_unfold self wd row c1 c2 st et std etd H1 Hp Hs He H2)
    in H |- *.
  eapply weeks_loop_outcome_Ok; eauto.
Qed.

Lemma process_row_count {TXT : PyText} self wd row k :
  outcome (process_row self wd row) = Ok k ->
  length (yielded (process_row self wd row)) = week_count row.
Proof.
  intros H. pose proof (process_row_outcome _ _ _ _ H) as Hk.
  unfold week_count.
  destruct (row_class row) as [cl|] eqn:Hc.
  2: { unfold header_weekday in Hk. rewrite Hc in Hk. discriminate Hk. }
  destruct (decide ("noinfo" ∈ cl)) as [Hin|Hin].
  - rewrite (process_row_yielded_noinfo self wd row cl Hc Hin). reflexivity.
  - rewrite (process_row_data self wd row cl k Hc Hin Hk) in H |- *.
    rewrite gen_bind_outcome in H. rewrite gen_bind_yielded.
    destruct (outcome (data_row self k row)) as [u|err] eqn:Hd;
      [|discriminate H].
    destruct (data_row_outcome_Ok _ _ _ _ Hd) as (c2 & -> & Hlen).
    cbn. rewrite app_nil_r. exact Hlen.
Qed.

Lemma for_each_rows_count {TXT : PyText} self rows wd k :
  outcome (for_each (process_row self) wd rows) = Ok k ->
  length (yielded (for_each (process_row self) wd rows))
  = sum_list_with week_count rows.
Proof.
  revert wd. induction rows as [|row rows IH]; intros wd H; [reflexivity|].
  cbn [for_each] in H |- *. rewrite gen_bind_outcome in H.
  rewrite gen_bind_yielded.
  destruct (outcome (process_row self wd row)) as [wd'|err] eqn:Hrow;
    [|discriminate H].
  rewrite length_app, (process_row_count _ _ _ _ Hrow), (IH wd' H).
  reflexivity.
Qed.

(** X19: when [get_events] reads the table to its end, the number of Events
    it has yielded is the number of week numbers listed by the rows without
    [noinfo], counted with repetitions: one Event per row and listed week,
    none dropped and none merged. *)
Theorem X19_event_count {TXT : PyText}
    (self : Schedule) (semester_type : option Z) (session : Session)
    (base_url : string) (request_timeout : Z) (today : datetime.date) :
  outcome (get_events self semester_type session base_url request_timeout
                      today) = Ok tt ->
  exists st response,
    resolve_semester_type semester_type today = Ok st
    /\ session (mkRequest base_url API_PATH (fetch_params self st)
                          request_timeout) = Ok response
    /\ length (yielded (get_events self semester_type session base_url
                                   request_timeout today))
       = sum_list_with week_count (tbody_rows response).
Proof.
  unfold get_events.
  destruct (resolve_semester_type semester_type today) as [st|err];
    [|discriminate].
  rewrite gen_bind_lift_Ok.
  destruct (session _) as [response|err] eqn:Hs; [|discriminate].
  rewrite gen_bind_lift_Ok.
  destruct (raise_for_status response) as [[]|err]; [|discriminate].
  rewrite gen_bind_lift_Ok, gen_bind_outcome, gen_bind_yielded.
  destruct (outcome (for_each _ _ _)) as [k|err] eqn:Hrows; [|discriminate].
  intros _. exists st, response. repeat split; [exact Hs|].
  cbn. rewrite app_nil_r. eapply for_each_rows_count; eauto.
Qed.

Lemma X19_event_count_witness :
  exists st response,
    resolve_semester_type None (datetime.mkdate 2023 10 1) = Ok st
    /\ test_session (mkRequest DEFAULT_BASE_URL API_PATH
                               (fetch_params schedule_2023 st) 60)
       = Ok response
    /\ length (yielded (get_events schedule_2023 None test_session
                                   DEFAULT_BASE_URL 60
                                   (datetime.mkdate 2023 10 1)))
       = sum_list_with week_count (tbody_rows response).
Proof.
  apply (X19_event_count schedule_2023 None test_session DEFAULT_BASE_URL 60
                         (datetime.mkdate 2023 10 1)).
  rewrite test_get_schedule_events. reflexivity.
Defined.

(** *** Events and the academic year *)

(** The row, the weekday index and the week token that an Event of a table
    was built from. *)
Lemma rows_yielded_week_event {TXT : PyText} self wd rows e :
  0 <= wd <= 6 ->
  e ∈ yielded (for_each (process_row self) wd rows) ->
  exists row wd' k c1 c2 st et std etd tok,
    row ∈ rows /\ 0 <= wd' <= 6
    /\ header_weekday wd' row = Ok k /\ 0 <= k <= 6
    /\ row_columns row !! 1%nat = Some c1
    /\ parse_times c1 = Ok (st, et)
    /\ time_timedelta st = Ok std /\ time_timedelta et = Ok etd
    /\ row_columns row !! 2%nat = Some c2
    /\ tok ∈ split_blank c2
    /\ week_event self (row_columns row) k std etd tok = Ok e.
Proof.
  revert wd. induction rows as [|row rows IH]; intros wd Hwd H.
  - cbn in H. apply elem_of_nil in H. destruct H.
  - cbn [for_each] in H. rewrite gen_bind_yielded in H.
    apply elem_of_app in H as [H|H].
    + pose proof (process_row_yielded _ _ _ _ H)
        as (k & cl & _ & _ & Hk & Hd).
      apply data_row_yielded in Hd
        as (c1 & st & et & std & etd & c2 & tok
            & H1 & Hp & Hstd & Hetd & H2 & Htok & Hev).
      exists row, wd, k, c1, c2, st, et, std, etd, tok.
      pose proof (header_weekday_range wd row k Hwd Hk).
      repeat (split; [first [assumption | apply list_elem_of_here | lia]|]).
      assumption.
    + destruct (outcome (process_row self wd row)) as [wd'|err] eqn:Hrow;
        [|apply elem_of_nil in H; destruct H].
      apply process_row_outcome in Hrow.
      pose proof (header_weekday_range wd row wd' Hwd Hrow) as Hwd'.
      destruct (IH wd' Hwd' H)
        as (r & a & k & c1 & c2 & st & et & std & etd & tok & Hr & Hrest).
      exists r, a, k, c1, c2, st, et, std, etd, tok.
      split; [apply list_elem_of_further; exact Hr | exact Hrest].
Qed.

(** X20: an Event of [get_events] is built from one week token of one row of
    the fetched table; when that token reads as a week number between 1 and
    52 and the start time of the row is a time of day proper, the Event
    starts inside the academic year of the schedule: not before its first
    Monday and before the first Monday of the next academic year. *)
Theorem X20_event_in_academic_year {TXT : PyText}
    (pt pid y : Z) (self : Schedule) (next : datetime.t)
    (semester_type : option Z) (session : Session) (base_url : string)
    (request_timeout : Z) (today : datetime.date) (e : Event) :
  Schedule_init pt pid y = Ok self ->
  get_start_datetime_of_academic_year (y + 1) = Ok next ->
  e ∈ yielded (get_events self semester_type session base_url request_timeout
                          today) ->
  exists response row wd k c1 c2 st et std etd tok w h1 m1,
    (exists s, session (mkRequest base_url API_PATH (fetch_params self s)
                                  request_timeout) = Ok response)
    /\ row ∈ tbody_rows response
    /\ header_weekday wd row = Ok k
    /\ row_columns row !! 1%nat = Some c1
    /\ parse_times c1 = Ok (st, et)
    /\ st !! 0%nat = Some h1 /\ st !! 1%nat = Some m1
    /\ time_timedelta st = Ok std /\ time_timedelta et = Ok etd
    /\ row_columns row !! 2%nat = Some c2
    /\ tok ∈ split_blank c2
    /\ to_int tok = Ok w
    /\ week_event self (row_columns row) k std etd tok = Ok e
    /\ (1 <= w <= 52 -> 0 <= h1 <= 23 -> 0 <= m1 <= 59 ->
        datetime.lt (start_datetime e) (start_datetime_of_academic_year self)
        = false
        /\ datetime.lt (start_datetime e) next = true).
Proof.
  intros Hinit Hnext H.
  apply get_events_yielded in H as (s & response & _ & Hs & _ & H).
  destruct (rows_yielded_week_event self 0 _ e ltac:(lia) H)
    as (row & wd & k & c1 & c2 & st & et & std & etd & tok
        & Hrow & _ & Hk & Hkr & H1 & Hp & Hstd & Hetd & H2 & Htok & Hev).
  pose proof Hstd as Hstd'. pose proof Hetd as Hetd'.
  apply time_timedelta_Ok in Hstd' as (h1 & m1 & Hh1 & Hm1 & Us).
  apply time_timedelta_Ok in Hetd' as (h2 & m2 & Hh2 & Hm2 & Ue).
  destruct (week_event_lands _ _ _ _ _ _ _ _ _ _ _ _ _ _ Hinit Us Ue Hev)
    as (w & Hw & Ls & _).
  exists response, row, wd, k, c1, c2, st, et, std, etd, tok, w, h1, m1.
  split; [exists s; exact Hs|].
  repeat (split; [assumption|]).
  intros Hwr Hhr Hmr.
  pose proof (Schedule_init_start _ _ _ _ Hinit) as (Vb & _ & _ & Ib).
  assert (1 <= y <= 9999 /\ get_start_datetime_of_academic_year y
                            = Ok (start_datetime_of_academic_year self))
    as [Hy Hstart].
  { unfold Schedule_init in Hinit.
    apply Res_bind_Ok in Hinit as (p & _ & Hinit).
    apply Res_bind_Ok in Hinit as (start & Hstart & Hinit).
    injection Hinit as <-. cbn [start_datetime_of_academic_year].
    split; [exact (start_of_academic_year_Ok y start Hstart) | exact Hstart]. }
  pose proof (start_of_academic_year_Ok (y + 1) next Hnext) as Hy'.
  destruct (start_of_academic_year_monday (y + 1) next ltac:(lia) Hnext)
    as (Vn & _ & _ & In & _).
  pose proof (academic_year_days y _ _ ltac:(lia) Hstart Hnext) as Hdays.
  destruct Ls as (Ho & Hh & Hmi & Hsec & Hus & _ & Vs).
  assert (instant_us (start_datetime e)
          = (datetime.toordinal (start_datetime_of_academic_year self)
             + 7 * (w - 1) + k) * DAY_US
            + (h1 * 3600 + m1 * 60) * 1000000) as Ie.
  { unfold instant_us, DAY_US. rewrite Ho, Hh, Hmi, Hsec, Hus.
    Z.div_mod_to_equations. lia. }
  split.
  - apply not_true_iff_false. intros Hlt.
    apply (lt_instant _ _ Vs Vb) in Hlt. rewrite Ie, Ib in Hlt.
    unfold DAY_US in Hlt. lia.
  - apply (lt_instant _ _ Vs Vn). rewrite Ie, In. unfold DAY_US. lia.
Qed.

Lemma X20_event_in_academic_year_witness :
  exists response row wd k c1 c2 st et std etd tok w h1 m1,
    (exists s, test_session
                 (mkRequest DEFAULT_BASE_URL API_PATH
                            (fetch_params schedule_2023 s) 60) = Ok response)
    /\ row ∈ tbody_rows response
    /\ header_weekday wd row = Ok k
    /\ row_columns row !! 1%nat = Some c1
    /\ parse_times c1 = Ok (st, et)
    /\ st !! 0%nat = Some h1 /\ st !! 1%nat = Some m1
    /\ time_timedelta st = Ok std /\ time_timedelta et = Ok etd
    /\ row_columns row !! 2%nat = Some c2
    /\ tok ∈ split_blank c2
    /\ to_int tok = Ok w
    /\ week_event schedule_2023 (row_columns row) k std etd tok
       = Ok test_event1
    /\ (1 <= w <= 52 -> 0 <= h1 <= 23 -> 0 <= m1 <= 59 ->
        datetime.lt (start_datetime test_event1)
                    (start_datetime_of_academic_year schedule_2023)
        = false
        /\ datetime.lt (start_datetime test_event1)
                       (local_datetime 2024 8 26 0 0) = true).
Proof.
  apply (X20_event_in_academic_year 1 2575 2023 schedule_2023
           (local_datetime 2024 8 26 0 0) None test_session DEFAULT_BASE_URL
           60 (datetime.mkdate 2023 10 1) test_event1).
  - exact schedule_2023_init.
  - vm_compute. reflexivity.
  - rewrite test_get_schedule_events. apply list_elem_of_further.
    apply list_elem_of_here.
Defined.
